(** * Vixpythonproxy: the manifest-rewriting relay of [run.py]

    A shallow embedding of the two Flask views [proxy] and [download] of
    [run.py] and of the Python library functions they call, followed by the
    properties of the relay proved on it.

    Conventions of the embedding.
    - A Python [str] is a list of Unicode code points ([list N]); a [bytes]
      value is a list of octets.  [py "..."] turns an ASCII literal into
      such a list.
    - A Python call that may raise returns an [option]: [None] stands for
      "an exception propagates".  So does a view: [None] is an exception
      that leaves the view function, which the framework answers itself.
    - The outbound HTTP request of [forward_request] is an oracle [net];
      every call made to it is appended to a log, so that the number and the
      order of fetch attempts can be stated.
    - Two library behaviours depend on the Unicode database and are taken as
      parameters: [str.lower] ([str_lower]) and the validation that
      [urlsplit] applies to a bracketed or non-ASCII network location
      ([netloc_check]).  [ascii_lower] is [str.lower] on ASCII text. *)

From Stdlib Require Import List String Ascii NArith ZArith Bool Lia.
Import ListNotations.

Local Open Scope N_scope.

(* ===================================================================== *)
(** * Python strings                                                      *)
(* ===================================================================== *)

Module PyStr.

Definition char := N.
Definition str := list char.
Definition bytes := list N.

(** An ASCII literal as a [str]. *)
Definition py (s : string) : str :=
  map N_of_ascii (list_ascii_of_string s).

Definition str_eqb (a b : str) : bool :=
  if list_eq_dec N.eq_dec a b then true else false.

(** [not s] *)
Definition is_empty (s : str) : bool :=
  match s with [] => true | _ => false end.

(** [a or b] on strings *)
Definition str_or (a b : str) : str :=
  if is_empty a then b else a.

(** [s.startswith(p)] *)
Fixpoint startswith (s p : str) {struct p} : bool :=
  match p, s with
  | [], _ => true
  | _ :: _, [] => false
  | c :: p', d :: s' => (c =? d) && startswith s' p'
  end.

(** [s.endswith(p)] *)
Definition endswith (s p : str) : bool :=
  startswith (rev s) (rev p).

(** [sub in s] *)
Fixpoint contains (s sub : str) : bool :=
  startswith s sub ||
  match s with
  | [] => false
  | _ :: s' => contains s' sub
  end.

(** [c in s] for a single character *)
Definition has_char (s : str) (c : char) : bool :=
  existsb (N.eqb c) s.

(** [s.split(sep)] for a one-character separator. *)
Fixpoint split (s : str) (sep : char) : list str :=
  match s with
  | [] => [[]]
  | c :: s' =>
      if c =? sep then [] :: split s' sep
      else match split s' sep with
           | [] => [[c]]
           | piece :: pieces => (c :: piece) :: pieces
           end
  end.

(** [s.split(sep, 1)]: the text before the first separator and, when there
    is one, the text after it. *)
Fixpoint split1 (s : str) (sep : char) : str * option str :=
  match s with
  | [] => ([], None)
  | c :: s' =>
      if c =? sep then ([], Some s')
      else let (a, b) := split1 s' sep in (c :: a, b)
  end.

(** [s.rsplit(sep, 1)[0]]: the text before the last separator, or all of
    [s] when it has none. *)
Definition rsplit1_head (s : str) (sep : char) : str :=
  match split1 (rev s) sep with
  | (_, Some before_rev) => rev before_rev
  | (_, None) => s
  end.

(** [pieces[-1]] of a non-empty list of strings *)
Definition last_item (pieces : list str) : str := last pieces [].

(** [pieces[0]] *)
Definition first_item (pieces : list str) : str := hd [] pieces.

(** [sep.join(pieces)] *)
Fixpoint join (sep : str) (pieces : list str) : str :=
  match pieces with
  | [] => []
  | [p] => p
  | p :: rest => p ++ sep ++ join sep rest
  end.

(** [s.replace(c, "")] *)
Definition remove_char (s : str) (c : char) : str :=
  filter (fun d => negb (d =? c)) s.

Fixpoint dropwhile (f : char -> bool) (s : str) : str :=
  match s with
  | [] => []
  | c :: s' => if f c then dropwhile f s' else s
  end.

(** [str.isspace] for one character (the white-space table of CPython). *)
Definition isspace (c : char) : bool :=
  ((9 <=? c) && (c <=? 13)) || ((28 <=? c) && (c <=? 32)) ||
  (c =? 133) || (c =? 160) || (c =? 5760) ||
  ((8192 <=? c) && (c <=? 8202)) ||
  (c =? 8232) || (c =? 8233) || (c =? 8239) || (c =? 8287) || (c =? 12288).

(** [s.strip()] *)
Definition lstrip (s : str) : str := dropwhile isspace s.
Definition rstrip (s : str) : str := rev (dropwhile isspace (rev s)).
Definition strip (s : str) : str := rstrip (lstrip s).

(** The line boundaries of [str.splitlines]: LF, VT, FF, CR, FS, GS, RS,
    NEL, LINE SEPARATOR and PARAGRAPH SEPARATOR. *)
Definition is_linebreak (c : char) : bool :=
  ((10 <=? c) && (c <=? 13)) || ((28 <=? c) && (c <=? 30)) ||
  (c =? 133) || (c =? 8232) || (c =? 8233).

(** [s.splitlines()]: [line] is the line being read.  CR LF counts as one
    boundary, the boundaries are not kept, and text after the last boundary
    is a line only when it is not empty. *)
Fixpoint splitlines_from (s : str) (line : str) : list str :=
  match s with
  | [] => match line with [] => [] | _ => [line] end
  | c :: rest =>
      if is_linebreak c then
        line :: match rest with
                | c' :: rest' =>
                    if (c =? 13) && (c' =? 10) then splitlines_from rest' []
                    else splitlines_from rest []
                | [] => []
                end
      else splitlines_from rest (line ++ [c])
  end.

Definition splitlines (s : str) : list str := splitlines_from s [].

(** [s.isascii()] *)
Definition isascii (s : str) : bool := forallb (fun c => c <? 128) s.

Definition is_upper (c : char) : bool := (65 <=? c) && (c <=? 90).
Definition is_lower (c : char) : bool := (97 <=? c) && (c <=? 122).
Definition is_digit (c : char) : bool := (48 <=? c) && (c <=? 57).
Definition is_ascii_alpha (c : char) : bool := is_upper c || is_lower c.

(** [str.lower] on ASCII text: only A-Z change. *)
Definition ascii_lower (s : str) : str :=
  map (fun c => if is_upper c then c + 32 else c) s.

End PyStr.
Import PyStr.


(* ===================================================================== *)
(** * UTF-8, as [str.encode] and [bytes.decode] implement it              *)
(* ===================================================================== *)

Module Utf8.

Definition is_surrogate (c : char) : bool := (0xD800 <=? c) && (c <=? 0xDFFF).

(** The code points [str.encode('utf-8')] accepts. *)
Definition is_scalar (c : char) : bool := (c <? 0x110000) && negb (is_surrogate c).

(** [chr(c).encode('utf-8', 'strict')]; a surrogate raises
    [UnicodeEncodeError]. *)
Definition encode_char (c : char) : option bytes :=
  if c <? 0x80 then Some [c]
  else if c <? 0x800 then Some [0xC0 + c / 64; 0x80 + c mod 64]
  else if c <? 0x10000 then
    if is_surrogate c then None
    else Some [0xE0 + c / 4096; 0x80 + (c / 64) mod 64; 0x80 + c mod 64]
  else if c <? 0x110000 then
    Some [0xF0 + c / 262144; 0x80 + (c / 4096) mod 64;
          0x80 + (c / 64) mod 64; 0x80 + c mod 64]
  else None.

(** [s.encode('utf-8', 'strict')] *)
Fixpoint encode (s : str) : option bytes :=
  match s with
  | [] => Some []
  | c :: s' =>
      match encode_char c, encode s' with
      | Some e, Some es => Some (e ++ es)
      | _, _ => None
      end
  end.

Definition is_continuation (b : N) : bool := (0x80 <=? b) && (b <=? 0xBF).

Definition replacement : char := 0xFFFD.

(** One step of [bs.decode('utf-8', 'replace')] at the lead byte [b1]
    followed by [t1]; [decode] decodes what is left.  An invalid start byte
    is replaced by U+FFFD; a sequence cut short by a byte that cannot
    continue it is replaced, as far as it was valid, by one U+FFFD and
    decoding resumes at the offending byte; a sequence cut short by the end
    of the data is replaced by one U+FFFD. *)
Definition decode_step (decode : bytes -> str) (b1 : N) (t1 : bytes) : str :=
  if b1 <? 0x80 then b1 :: decode t1
  else if b1 <? 0xC2 then replacement :: decode t1
  else if b1 <? 0xE0 then
    match t1 with
    | [] => [replacement]
    | b2 :: t2 =>
        if is_continuation b2
        then ((b1 - 0xC0) * 64 + (b2 - 0x80)) :: decode t2
        else replacement :: decode t1
    end
  else if b1 <? 0xF0 then
    match t1 with
    | [] => [replacement]
    | b2 :: t2 =>
        if negb (is_continuation b2)
           || (if b2 <? 0xA0 then b1 =? 0xE0 else b1 =? 0xED)
        then replacement :: decode t1
        else
          match t2 with
          | [] => [replacement]
          | b3 :: t3 =>
              if is_continuation b3
              then ((b1 - 0xE0) * 4096 + (b2 - 0x80) * 64 + (b3 - 0x80))
                     :: decode t3
              else replacement :: decode t2
          end
    end
  else if b1 <? 0xF5 then
    match t1 with
    | [] => [replacement]
    | b2 :: t2 =>
        if negb (is_continuation b2)
           || (if b2 <? 0x90 then b1 =? 0xF0 else b1 =? 0xF4)
        then replacement :: decode t1
        else
          match t2 with
          | [] => [replacement]
          | b3 :: t3 =>
              if negb (is_continuation b3) then replacement :: decode t2
              else
                match t3 with
                | [] => [replacement]
                | b4 :: t4 =>
                    if is_continuation b4
                    then ((b1 - 0xF0) * 262144 + (b2 - 0x80) * 4096
                          + (b3 - 0x80) * 64 + (b4 - 0x80)) :: decode t4
                    else replacement :: decode t3
                end
          end
    end
  else replacement :: decode t1.

(** [bs.decode('utf-8', 'replace')] *)
Fixpoint decode (bs : bytes) : str :=
  match bs with
  | [] => []
  | b1 :: t1 => decode_step decode b1 t1
  end.

End Utf8.

(* ===================================================================== *)
(** * [urllib.parse.quote] and [urllib.parse.unquote]                     *)
(* ===================================================================== *)

Module Quote.

(** [_ALWAYS_SAFE]: letters, digits and [_.-~]. *)
Definition always_safe (b : N) : bool :=
  is_upper b || is_lower b || is_digit b ||
  (b =? 95) || (b =? 46) || (b =? 45) || (b =? 126).

(** One digit of ['%{:02X}'.format(b)]. *)
Definition hex_upper (n : N) : char := if n <? 10 then 48 + n else 55 + n.

(** [Quoter.__missing__]: a safe byte stands for itself, any other byte is
    written [%XX]. *)
Definition quote_byte (safe : str) (b : N) : str :=
  if always_safe b || ((b <? 128) && has_char safe b) then [b]
  else [37; hex_upper (b / 16); hex_upper (b mod 16)].

Definition quote_from_bytes (bs : bytes) (safe : str) : str :=
  flat_map (quote_byte safe) bs.

(** [urllib.parse.quote(s, safe=safe)]; raises when [s] cannot be encoded. *)
Definition quote (s : str) (safe : str) : option str :=
  match Utf8.encode s with
  | Some bs => Some (quote_from_bytes bs safe)
  | None => None
  end.

(** The value of a hexadecimal digit of [_hexdig], if it is one. *)
Definition hex_value (c : char) : option N :=
  if is_digit c then Some (c - 48)
  else if (65 <=? c) && (c <=? 70) then Some (c - 55)
  else if (97 <=? c) && (c <=? 102) then Some (c - 87)
  else None.

(** The body of the loop of [_unquote_impl] for one piece that followed a
    [%]: two hexadecimal digits become one byte, anything else keeps its
    [%]. *)
Definition unquote_item (item : bytes) : bytes :=
  match item with
  | h :: l :: rest =>
      match hex_value h, hex_value l with
      | Some a, Some b => (16 * a + b) :: rest
      | _, _ => 37 :: item
      end
  | _ => 37 :: item
  end.

(** [_unquote_impl]: split at [%] and decode what follows each one. *)
Definition unquote_to_bytes (bs : bytes) : bytes :=
  match split bs 37 with
  | [] => []
  | first :: items => first ++ flat_map unquote_item items
  end.

(** [_generate_unquoted_parts]: each maximal run of ASCII characters is
    unquoted to bytes and decoded as UTF-8 with replacement; the other
    characters are kept.  [run] is the ASCII run being read. *)
Fixpoint unquote_parts (s : str) (run : str) : str :=
  match s with
  | [] => Utf8.decode (unquote_to_bytes run)
  | c :: rest =>
      if c <? 128 then unquote_parts rest (run ++ [c])
      else Utf8.decode (unquote_to_bytes run) ++ c :: unquote_parts rest []
  end.

(** [urllib.parse.unquote(s)] *)
Definition unquote (s : str) : str :=
  if has_char s 37 then unquote_parts s [] else s.

End Quote.
Import Quote.

(* ===================================================================== *)
(** * [urllib.parse.urljoin] (CPython 3.12)                               *)
(* ===================================================================== *)

Module UrlParse.

Record SplitResult := mkSplit {
  s_scheme : str; s_netloc : str; s_path : str; s_query : str; s_fragment : str
}.

Record ParseResult := mkParse {
  scheme : str; netloc : str; path : str; params : str; query : str;
  fragment : str
}.

Definition in_list (x : str) (l : list str) : bool := existsb (str_eqb x) l.

Definition uses_relative : list str :=
  map py ["" ; "ftp"; "http"; "gopher"; "nntp"; "imap"; "wais"; "file";
          "https"; "shttp"; "mms"; "prospero"; "rtsp"; "rtsps"; "rtspu";
          "sftp"; "svn"; "svn+ssh"; "ws"; "wss"]%string.

Definition uses_netloc : list str :=
  map py ["" ; "ftp"; "http"; "gopher"; "nntp"; "telnet"; "imap"; "wais";
          "file"; "mms"; "https"; "shttp"; "snews"; "prospero"; "rtsp";
          "rtsps"; "rtspu"; "rsync"; "svn"; "svn+ssh"; "sftp"; "nfs"; "git";
          "git+ssh"; "ws"; "wss"; "itms-services"]%string.

Definition uses_params : list str :=
  map py ["" ; "ftp"; "hdl"; "prospero"; "http"; "imap"; "https"; "shttp";
          "rtsp"; "rtsps"; "rtspu"; "sip"; "sips"; "mms"; "sftp"; "tel"]%string.

(** [scheme_chars]: letters, digits and [+-.]. *)
Definition scheme_char (c : char) : bool :=
  is_ascii_alpha c || is_digit c || (c =? 43) || (c =? 45) || (c =? 46).

(** [_WHATWG_C0_CONTROL_OR_SPACE] *)
Definition c0_or_space (c : char) : bool := c <=? 32.

(** The loop over [_UNSAFE_URL_BYTES_TO_REMOVE]: tab, CR and LF go. *)
Definition remove_unsafe (s : str) : str :=
  remove_char (remove_char (remove_char s 9) 13) 10.

(** [_splitnetloc(url, 2)] for a [url] that begins with [//]: the network
    location runs to the first of [/], [?] and [#]. *)
Fixpoint span_netloc (s : str) : str * str :=
  match s with
  | [] => ([], [])
  | c :: s' =>
      if (c =? 47) || (c =? 63) || (c =? 35) then ([], s)
      else let (a, b) := span_netloc s' in (c :: a, b)
  end.

Section Parse.

(** [netloc_check n] is [false] when [_check_bracketed_host] or
    [_checknetloc] raises [ValueError] for the network location [n].  It is
    consulted only for a location with both brackets or with a non-ASCII
    character, as in the library. *)
Variable netloc_check : str -> bool.

(** [urlsplit(url, scheme)] with [allow_fragments=True]. *)
Definition urlsplit (url0 scheme0 : str) : option SplitResult :=
  let url := remove_unsafe (dropwhile c0_or_space url0) in
  let scheme :=
    remove_unsafe
      (rev (dropwhile c0_or_space (rev (dropwhile c0_or_space scheme0)))) in
  let '(scheme, url) :=
    match split1 url 58 with
    | (c :: before, Some after) =>
        if is_ascii_alpha c && forallb scheme_char (c :: before)
        then (ascii_lower (c :: before), after)
        else (scheme, url)
    | _ => (scheme, url)
    end in
  let '(netloc, url) :=
    if startswith url [47; 47] then span_netloc (skipn 2 url) else ([], url) in
  let open := has_char netloc 91 in
  let close := has_char netloc 93 in
  if (open && negb close) || (close && negb open) then None
  else if ((open && close) || negb (isascii netloc)) && negb (netloc_check netloc)
  then None
  else
    let '(url, fragment) :=
      match split1 url 35 with
      | (a, Some b) => (a, b)
      | (a, None) => (a, [])
      end in
    let '(url, query) :=
      match split1 url 63 with
      | (a, Some b) => (a, b)
      | (a, None) => (a, [])
      end in
    Some (mkSplit scheme netloc url query fragment).

(** [_splitparams(url)] for a [url] that contains [;]: the parameters start
    at the first [;] of the last path segment. *)
Definition splitparams (url : str) : str * str :=
  if has_char url 47 then
    let head := rsplit1_head url 47 in
    let tail := skipn (List.length head) url in
    match split1 tail 59 with
    | (a, Some b) => (head ++ a, b)
    | (_, None) => (url, [])
    end
  else
    match split1 url 59 with
    | (a, Some b) => (a, b)
    | (a, None) => (a, [])
    end.

(** [urlparse(url, scheme)] *)
Definition urlparse (url scheme0 : str) : option ParseResult :=
  match urlsplit url scheme0 with
  | None => None
  | Some r =>
      let '(url, params) :=
        if in_list (s_scheme r) uses_params && has_char (s_path r) 59
        then splitparams (s_path r)
        else (s_path r, []) in
      Some (mkParse (s_scheme r) (s_netloc r) url params (s_query r)
                    (s_fragment r))
  end.

(** [urlunsplit((scheme, netloc, url, query, fragment))] *)
Definition urlunsplit (scheme netloc url query fragment : str) : str :=
  let url :=
    if negb (is_empty netloc)
       || (negb (is_empty scheme) && in_list scheme uses_netloc
           && negb (startswith url [47; 47]))
    then
      let url :=
        if negb (is_empty url) && negb (startswith url [47]) then 47 :: url
        else url in
      [47; 47] ++ netloc ++ url
    else url in
  let url := if negb (is_empty scheme) then scheme ++ [58] ++ url else url in
  let url := if negb (is_empty query) then url ++ [63] ++ query else url in
  if negb (is_empty fragment) then url ++ [35] ++ fragment else url.

(** [urlunparse((scheme, netloc, url, params, query, fragment))] *)
Definition urlunparse (scheme netloc url params query fragment : str) : str :=
  let url := if negb (is_empty params) then url ++ [59] ++ params else url in
  urlunsplit scheme netloc url query fragment.

(** [segments[1:-1] = filter(None, segments[1:-1])] *)
Definition filter_middle (segments : list str) : list str :=
  match segments with
  | first :: (_ :: _) as rest =>
      first :: filter (fun s => negb (is_empty s)) (removelast rest)
        ++ [last rest []]
  | _ => segments
  end.

(** The loop that resolves [.] and [..]. *)
Definition resolve_segments (segments : list str) : list str :=
  fold_left
    (fun resolved_path seg =>
       if str_eqb seg (py "..") then removelast resolved_path
       else if str_eqb seg (py ".") then resolved_path
       else resolved_path ++ [seg])
    segments [].

(** [urljoin(base, url)] *)
Definition urljoin (base url : str) : option str :=
  if is_empty base then Some url
  else if is_empty url then Some base
  else
    match urlparse base [] with
    | None => None
    | Some b =>
        match urlparse url (scheme b) with
        | None => None
        | Some u =>
            if negb (str_eqb (scheme u) (scheme b))
               || negb (in_list (scheme u) uses_relative)
            then Some url
            else if in_list (scheme u) uses_netloc && negb (is_empty (netloc u))
            then Some (urlunparse (scheme u) (netloc u) (path u) (params u)
                                  (query u) (fragment u))
            else
              let netloc :=
                if in_list (scheme u) uses_netloc then netloc b else netloc u in
              if is_empty (path u) && is_empty (params u) then
                let query := if is_empty (query u) then query b else query u in
                Some (urlunparse (scheme u) netloc (path b) (params b) query
                                 (fragment u))
              else
                let base_parts := split (path b) 47 in
                let base_parts :=
                  if negb (is_empty (last_item base_parts))
                  then removelast base_parts else base_parts in
                let segments :=
                  if startswith (path u) [47] then split (path u) 47
                  else filter_middle (base_parts ++ split (path u) 47) in
                let resolved_path := resolve_segments segments in
                let resolved_path :=
                  if str_eqb (last_item segments) (py ".")
                     || str_eqb (last_item segments) (py "..")
                  then resolved_path ++ [[]] else resolved_path in
                Some (urlunparse (scheme u) netloc
                        (str_or (join [47] resolved_path) [47])
                        (params u) (query u) (fragment u))
        end
    end.

End Parse.

End UrlParse.
Import UrlParse.

(* ===================================================================== *)
(** * [run.py]                                                            *)
(* ===================================================================== *)

Module Run.

(** A [dict] with string keys, in insertion order. *)
Definition dict := list (str * str).

(** [d[k] = v] *)
Fixpoint dict_set (d : dict) (k v : str) : dict :=
  match d with
  | [] => [(k, v)]
  | (k', v') :: d' =>
      if str_eqb k k' then (k, v) :: d' else (k', v') :: dict_set d' k v
  end.

(** [request.args]: the decoded query parameters in order of arrival. *)
Definition Args := list (str * str).

(** [request.args.get(k)]: the first value of [k]. *)
Fixpoint args_get (args : Args) (k : str) : option str :=
  match args with
  | [] => None
  | (k', v) :: rest => if str_eqb k k' then Some v else args_get rest k
  end.

(** [request.args.items()]: each key once, with its first value. *)
Fixpoint args_items (args : Args) (seen : list str) : list (str * str) :=
  match args with
  | [] => []
  | (k, v) :: rest =>
      if existsb (str_eqb k) seen then args_items rest seen
      else (k, v) :: args_items rest (k :: seen)
  end.

(** What [requests.get] is called with. *)
Record FetchCall := mkCall {
  call_url : str; call_headers : dict; call_stream : bool; call_verify : bool
}.

(** The part of a [requests.Response] that the views read.  [text] is
    [None] when reading or decoding the body raises. *)
Record Upstream := mkUpstream {
  status_code : Z;
  content_type : option str;   (* r.headers.get("Content-Type") *)
  text : option str;           (* r.text *)
  content : bytes              (* what r.iter_content yields, in order *)
}.

Inductive Body :=
| Text (s : str)
| Stream (content : bytes).

(** What a view returns: a [(message, status)] pair or a [Response]. *)
Inductive ViewResult :=
| Plain (message : str) (status : Z)
| Resp (body : Body) (status : Z) (headers : dict).

Definition status_of (v : ViewResult) : Z :=
  match v with
  | Plain _ st => st
  | Resp _ st _ => st
  end.

(** Views run in a monad that logs every call of [requests.get]. *)
Definition Fetch (A : Type) : Type := list FetchCall -> A * list FetchCall.

Definition ret {A} (a : A) : Fetch A := fun log => (a, log).

Definition bind {A B} (m : Fetch A) (k : A -> Fetch B) : Fetch B :=
  fun log => let (a, log') := m log in k a log'.

Notation "x <- m ;; k" := (bind m (fun x => k))
  (at level 61, m at next level, right associativity).

Definition run {A} (m : Fetch A) : A * list FetchCall := m [].

Definition DEFAULT_HEADERS : dict :=
  [ (py "User-Agent", py "Mozilla/5.0 (Windows NT 10.0; Win64; x64)");
    (py "Referer", py "https://vixsrc.to") ].

(** The scheme upgrade of lines 79-80 and 128-129. *)
Definition upgrade_scheme (absu : str) : str :=
  if startswith absu (py "http://")
  then py "https://" ++ skipn (List.length (py "http://")) absu
  else absu.

(** [filename] of line 115. *)
Definition filename_of (target : str) : str :=
  str_or (unquote (first_item (split (last_item (split target 47)) 63)))
         (py "download").

(** The newline that joins the output lines. *)
Definition nl : str := [10].

Definition content_disposition (filename : str) : str :=
  py "attachment; filename=" ++ [34] ++ filename ++ [34].

(** The header set that [forward_request] builds (lines 27-36). *)
Definition request_headers (args : Args) (extra_cookie : option str) : dict :=
  let headers :=
    fold_left
      (fun headers kv =>
         if startswith (fst kv) (py "header_")
         then dict_set headers (skipn (List.length (py "header_")) (fst kv))
                       (unquote (snd kv))
         else headers)
      (args_items args []) DEFAULT_HEADERS in
  let from_args :=
    match args_get args (py "cookie") with
    | Some v => dict_set headers (py "Cookie") (unquote v)
    | None => headers
    end in
  match extra_cookie with
  | Some c =>
      if negb (is_empty c) then dict_set headers (py "Cookie") c else from_args
  | None => from_args
  end.

(** [cookie] of lines 55-56. *)
Definition proxy_cookie (args : Args) : option str :=
  match args_get args (py "cookie") with
  | Some c => if is_empty c then None else Some (unquote c)
  | None => None
  end.

(** The call of [requests.get] on line 38. *)
Definition fetch_call (args : Args) (url : str) (extra_cookie : option str)
    (stream verify : bool) : FetchCall :=
  mkCall url (request_headers args extra_cookie) stream verify.

(** A header value that [werkzeug]'s [Headers] accepts: it raises
    [ValueError] for a value that holds a CR or an LF. *)
Definition header_value_ok (v : str) : bool :=
  negb (has_char v 13) && negb (has_char v 10).

(** [Response(body, status=status, headers=headers)] of [flask], [None]
    when the constructor raises: the headers go through [Headers], and a
    [str] body is encoded to UTF-8 at once, which raises on a lone
    surrogate; a streamed body is only stored. *)
Definition Response (body : Body) (status : Z) (headers : dict)
  : option ViewResult :=
  if forallb (fun kv => header_value_ok (snd kv)) headers
     && match body with
        | Text s => match Utf8.encode s with Some _ => true | None => false end
        | Stream _ => true
        end
  then Some (Resp body status headers)
  else None.

Section Relay.

(** [str.lower]. *)
Variable str_lower : str -> str.

(** The validation of [urlsplit], see [UrlParse.urlsplit]. *)
Variable netloc_check : str -> bool.

(** The network: the response [requests.get] returns, or [None] when it
    raises. *)
Variable net : FetchCall -> option Upstream.

Definition forward_request (args : Args) (url : str)
    (extra_cookie : option str) (stream verify : bool)
  : Fetch (option Upstream) :=
  let call := fetch_call args url extra_cookie stream verify in
  fun log => (net call, log ++ [call]).

Definition resolve_absolute (uri base : str) : option str :=
  if startswith uri (py "http://") || startswith uri (py "https://")
  then Some uri
  else urljoin netloc_check base uri.

(** The body of the loop over the lines, for a line that is rewritten
    (lines 77-81 and 127-130). *)
Definition rewrite_uri (ln base : str) : option str :=
  match resolve_absolute (strip ln) base with
  | None => None
  | Some absu =>
      match quote (upgrade_scheme absu) [] with
      | None => None
      | Some q => Some (py "/proxy?u=" ++ q)
      end
  end.

(** [not ln or ln.startswith("#")] *)
Definition passes_through (ln : str) : bool :=
  is_empty ln || startswith ln (py "#").

(** What one turn of the loop appends to [out_lines]. *)
Definition rewrite_line (ln base : str) : option str :=
  if passes_through ln then Some ln else rewrite_uri ln base.

(** The loop of lines 73-82 and of lines 123-131, which are the same;
    [out_lines] is the list built so far. *)
Fixpoint rewrite_lines (lines : list str) (base : str) (out_lines : list str)
  : option (list str) :=
  match lines with
  | [] => Some out_lines
  | ln :: rest =>
      if passes_through ln then rewrite_lines rest base (out_lines ++ [ln])
      else
        match rewrite_uri ln base with
        | None => None
        | Some prox => rewrite_lines rest base (out_lines ++ [prox])
        end
  end.

(** Lines 71-83 and 121-132: the rewritten text of a manifest fetched from
    [target]. *)
Definition rewrite_text (text target : str) : option str :=
  let base := rsplit1_head target 47 ++ py "/" in
  match rewrite_lines (splitlines text) base [] with
  | None => None
  | Some out_lines => Some (join nl out_lines)
  end.

(** The [try] blocks of lines 69-91 and 119-141 up to [out]: [None] when
    anything in them raises. *)
Definition rewrite_manifest (r : Upstream) (target : str) : option str :=
  match text r with
  | None => None
  | Some text => rewrite_text text target
  end.

(** The test of lines 68 and 118, on the lowered content type. *)
Definition is_manifest (target content_type : str) : bool :=
  endswith (str_lower target) (py ".m3u8")
  || contains content_type (py "mpegurl")
  || contains content_type (py "application/vnd.apple.mpegurl").

Definition or_default (o : option str) (d : str) : str :=
  match o with
  | Some s => str_or s d
  | None => d
  end.

(** What [proxy] does with the response of a fetch (lines 65-99): the
    reply, or [None] when an exception leaves the view.  Inside the [try],
    a failure of the rewriting or of [Response] is answered by the message
    of the [except] clause; the [Response] of line 99 is outside any
    [try]. *)
Definition proxy_respond (r : Upstream) (target : str) : option ViewResult :=
  let ct := str_lower (or_default (content_type r) []) in
  if is_manifest target ct then
    match
      match rewrite_manifest r target with
      | Some out =>
          Response (Text out) 200%Z
            [ (py "Content-Type", py "application/vnd.apple.mpegurl");
              (py "Access-Control-Allow-Origin", py "*");
              (py "Cache-Control", py "no-cache") ]
      | None => None
      end
    with
    | Some reply => Some reply
    | None => Some (Plain (py "Manifest rewrite failed") 500%Z)
    end
  else
    Response (Stream (content r)) (status_code r)
      [ (py "Content-Type",
         match content_type r with
         | Some c => c
         | None => py "application/octet-stream"
         end);
        (py "Access-Control-Allow-Origin", py "*");
        (py "Cache-Control", py "no-cache") ].

(** The view [/proxy]: what it returns, [None] when an exception leaves
    it. *)
Definition proxy (args : Args) : Fetch (option ViewResult) :=
  match args_get args (py "u") with
  | None => ret (Some (Plain (py "Missing url param 'u'") 400%Z))
  | Some u =>
      if is_empty u then ret (Some (Plain (py "Missing url param 'u'") 400%Z))
      else
        let target := unquote u in
        let cookie := proxy_cookie args in
        r <- forward_request args target cookie true true ;;
        match r with
        | Some r => ret (proxy_respond r target)
        | None =>
            r <- forward_request args target cookie true false ;;
            match r with
            | Some r => ret (proxy_respond r target)
            | None => ret (Some (Plain (py "Upstream error") 502%Z))
            end
        end
  end.

(** What [download] does with the response of a fetch (lines 114-150),
    like [proxy_respond]; the [Response] of line 150 is outside any
    [try]. *)
Definition download_respond (r : Upstream) (target : str)
  : option ViewResult :=
  let ct :=
    str_lower (or_default (content_type r) (py "application/octet-stream")) in
  let filename := filename_of target in
  if is_manifest target ct then
    match
      match rewrite_manifest r target with
      | Some out =>
          Response (Text out) 200%Z
            [ (py "Content-Type", py "application/vnd.apple.mpegurl");
              (py "Content-Disposition", content_disposition filename);
              (py "Access-Control-Allow-Origin", py "*");
              (py "Cache-Control", py "no-cache") ]
      | None => None
      end
    with
    | Some reply => Some reply
    | None => Some (Plain (py "Failed to rewrite manifest") 500%Z)
    end
  else
    Response (Stream (content r)) (status_code r)
      [ (py "Content-Type", ct);
        (py "Content-Disposition", content_disposition filename);
        (py "Access-Control-Allow-Origin", py "*");
        (py "Cache-Control", py "no-cache") ].

(** The view [/download]: what it returns, [None] when an exception leaves
    it. *)
Definition download (args : Args) : Fetch (option ViewResult) :=
  match args_get args (py "u") with
  | None => ret (Some (Plain (py "Missing url param 'u'") 400%Z))
  | Some u =>
      if is_empty u then ret (Some (Plain (py "Missing url param 'u'") 400%Z))
      else
        let target := unquote u in
        r <- forward_request args target None false true ;;
        match r with
        | Some r => ret (download_respond r target)
        | None =>
            r <- forward_request args target None false false ;;
            match r with
            | Some r => ret (download_respond r target)
            | None => ret (Some (Plain (py "Upstream error") 502%Z))
            end
        end
  end.

End Relay.

End Run.
Import Run.

(* ===================================================================== *)
(** * Vocabulary of the statements                                        *)
(* ===================================================================== *)

(** A character that [quote] can write: ASCII and not a line boundary. *)
Definition plain_char (c : char) : bool := (c <? 128) && negb (is_linebreak c).

(** [s] holds no line boundary. *)
Definition one_line (s : str) : bool := forallb (fun c => negb (is_linebreak c)) s.

(** The reply streams the upstream body (the binary path). *)
Definition is_stream_reply (v : option ViewResult) : bool :=
  match v with
  | Some (Resp (Stream _) _ _) => true
  | _ => false
  end.

(** What the playlist path of a view can end in: the rewritten text, or
    the message of its [except] clause. *)
Definition is_playlist_reply (v : option ViewResult) : bool :=
  match v with
  | Some (Resp (Text _) _ _) => true
  | Some (Plain _ _) => true
  | _ => false
  end.

(** What the binary path of a view can end in: the streamed body, or the
    exception of the [Response] that is built outside any [try]. *)
Definition is_binary_reply (v : option ViewResult) : bool :=
  match v with
  | Some (Resp (Stream _) _ _) => true
  | None => true
  | _ => false
  end.

(** The response on which a fetch with one retry settles: that of the
    first call, or else that of the second. *)
Definition settled (net : FetchCall -> option Upstream) (c1 c2 : FetchCall)
  : option Upstream :=
  match net c1 with
  | Some r => Some r
  | None => net c2
  end.

(** The content type the views test: the header, lowered, with the default
    of the view for a missing or empty header. *)
Definition tested_type (str_lower : str -> str) (r : Upstream) (default : str)
  : str :=
  str_lower (or_default (content_type r) default).

(** The lines of a text, each one followed by the line ending [eol]. *)
Definition terminated (eol : str) (lines : list str) : str :=
  flat_map (fun l => l ++ eol) lines.

(** The classification as the specification words it: the path of the
    target URL ends in [.m3u8], or the content type contains [mpegurl],
    both without regard to case. *)
Definition spec_is_playlist (str_lower : str -> str) (netloc_check : str -> bool)
    (target : str) (content_type : option str) : bool :=
  match urlsplit netloc_check target [] with
  | Some parts => endswith (str_lower (s_path parts)) (py ".m3u8")
  | None => false
  end
  || contains (str_lower (or_default content_type [])) (py "mpegurl").

(** The attachment name as the specification words it: the query string is
    stripped, then the last path segment is taken and percent-decoded. *)
Definition spec_filename (target : str) : str :=
  str_or (unquote (last_item (split (first_item (split target 63)) 47)))
         (py "download").

(** End-to-end scenario 1: the target, the playlist as it is fetched, the
    output the scenario gives (it ends in a newline) and the output without
    that last newline. *)
Definition scenario1_target : str :=
  py "https://origin.example.com/path/index.m3u8".

Definition scenario1_text : str :=
  py "#EXTM3U" ++ nl ++ py "#EXT-X-VERSION:3" ++ nl ++ py "seg1.ts" ++ nl
  ++ py "http://cdn.example.com/seg2.ts" ++ nl.

Definition scenario1_claimed : str :=
  py "#EXTM3U" ++ nl ++ py "#EXT-X-VERSION:3" ++ nl
  ++ py "/proxy?u=https%3A%2F%2Forigin.example.com%2Fpath%2Fseg1.ts" ++ nl
  ++ py "/proxy?u=https%3A%2F%2Fcdn.example.com%2Fseg2.ts" ++ nl.

Definition scenario1_out : str :=
  py "#EXTM3U" ++ nl ++ py "#EXT-X-VERSION:3" ++ nl
  ++ py "/proxy?u=https%3A%2F%2Forigin.example.com%2Fpath%2Fseg1.ts" ++ nl
  ++ py "/proxy?u=https%3A%2F%2Fcdn.example.com%2Fseg2.ts".

(** The lines of the playlist of scenario 1, to spell it with other line
    endings. *)
Definition scenario1_lines : list str :=
  [ py "#EXTM3U"; py "#EXT-X-VERSION:3"; py "seg1.ts";
    py "http://cdn.example.com/seg2.ts" ].

(** The headers of a rewritten manifest served by [proxy]. *)
Definition manifest_headers : dict :=
  [ (py "Content-Type", py "application/vnd.apple.mpegurl");
    (py "Access-Control-Allow-Origin", py "*");
    (py "Cache-Control", py "no-cache") ].


(** [s.encode()] does not raise: no code point of [s] is a surrogate. *)
Definition encodable (s : str) : bool :=
  match Utf8.encode s with
  | Some _ => true
  | None => false
  end.

(** The [Content-Type] that [proxy] gives a streamed body (line 95). *)
Definition relayed_type (r : Upstream) : str :=
  match content_type r with
  | Some c => c
  | None => py "application/octet-stream"
  end.

(** No validation of the network location fails; for the concrete runs,
    whose locations are ASCII without brackets and never reach it. *)
Definition accept_netloc : str -> bool := fun _ => true.

(* ===================================================================== *)
(** * Vocabulary of the further properties                                *)
(* ===================================================================== *)

(** [d.get(k)]: the value a [dict] holds for [k]. *)
Fixpoint dict_get (d : dict) (k : str) : option str :=
  match d with
  | [] => None
  | (k', v) :: d' => if str_eqb k k' then Some v else dict_get d' k
  end.

(** One turn of the loop of lines 29-32 of [forward_request]. *)
Definition header_step (headers : dict) (kv : str * str) : dict :=
  if startswith (fst kv) (py "header_")
  then dict_set headers (skipn (List.length (py "header_")) (fst kv))
                (unquote (snd kv))
  else headers.

(** A character [quote] writes when nothing is safe: an unreserved
    character or the percent sign of an escape. *)
Definition query_char (c : char) : bool := always_safe c || (c =? 37).

(** The body of a reply built as a [Response]. *)
Definition reply_body (v : ViewResult) : option Body :=
  match v with
  | Resp b _ _ => Some b
  | Plain _ _ => None
  end.

(** A character of a plain path: unreserved, or the [/] between segments. *)
Definition path_char (c : char) : bool := always_safe c || (c =? 47).

(** A path segment or a host name made of unreserved characters only,
    which is not empty, [.] or [..]. *)
Definition plain_segment (s : str) : bool :=
  negb (is_empty s) && forallb always_safe s
  && negb (str_eqb s (py ".")) && negb (str_eqb s (py "..")).

(** The URL of a directory: [scheme://host/] followed by the segments
    [dirs], each one closed by [/]. *)
Definition directory_url (scheme host : str) (dirs : list str) : str :=
  scheme ++ py "://" ++ host ++ py "/" ++ terminated (py "/") dirs.

(** One turn of the loop of [urljoin] that resolves [.] and [..]. *)
Definition segment_step (resolved_path : list str) (seg : str) : list str :=
  if str_eqb seg (py "..") then removelast resolved_path
  else if str_eqb seg (py ".") then resolved_path
       else resolved_path ++ [seg].

(** A character of a plain query string: unreserved, [=] or [&]. *)
Definition query_part_char (c : char) : bool :=
  always_safe c || (c =? 61) || (c =? 38).

(** A character of a plain relative reference: a path character, the [?]
    that opens the query string, or a character of the query string. *)
Definition ref_char (c : char) : bool :=
  path_char c || (c =? 63) || query_part_char c.

(** A printable ASCII character other than the space. *)
Definition printable (c : char) : bool := (33 <=? c) && (c <=? 126).

(* ===================================================================== *)
(** * Proof tools                                                         *)
(* ===================================================================== *)

(** [lia] with division and remainder by constants. *)
Ltac Zify.zify_post_hook ::= Z.to_euclidean_division_equations.

Ltac break_tests :=
  repeat (match goal with
          | |- context [?a <? ?b] => destruct (N.ltb_spec a b)
          | |- context [?a <=? ?b] => destruct (N.leb_spec a b)
          | |- context [?a =? ?b] => destruct (N.eqb_spec a b)
          end; try lia; cbn [andb orb negb]).

(** Spell the ASCII literals of the goal as lists of code points. *)
Ltac spell_py :=
  repeat match goal with
         | |- context [py ?s] =>
             let v := eval vm_compute in (py s) in change (py s) with v
         end;
  cbn [app].

Lemma Some_inj {A} (a b : A) : Some a = Some b -> a = b.
Proof. intros H. now injection H. Qed.

Module Utf8Facts.
Import Utf8.

Lemma encode_char_bytes c e :
  encode_char c = Some e -> Forall (fun b => b < 256) e.
Proof.
  unfold encode_char, is_surrogate.
  break_tests; intros E; try discriminate E; apply Some_inj in E; subst e; repeat (apply Forall_cons; [lia|]); apply Forall_nil.
Qed.

Lemma decode_encode_char c e rest :
  encode_char c = Some e -> decode (e ++ rest) = c :: decode rest.
Proof.
  unfold encode_char, is_surrogate.
  destruct (N.ltb_spec c 0x80).
  { intros E; apply Some_inj in E; subst e. cbn [app decode]; unfold decode_step.
    destruct (N.ltb_spec c 0x80); [reflexivity | lia]. }
  destruct (N.ltb_spec c 0x800).
  { intros E; apply Some_inj in E; subst e. cbn [app].
    set (b1 := 0xC0 + c / 64). set (b2 := 0x80 + c mod 64).
    assert (R1 : 0xC2 <= b1 < 0xE0) by (subst b1; lia).
    assert (R2 : 0x80 <= b2 <= 0xBF) by (subst b2; lia).
    assert (R3 : (b1 - 0xC0) * 64 + (b2 - 0x80) = c) by (subst b1 b2; lia).
    clearbody b1 b2.
    cbn [decode]; unfold decode_step, is_continuation.
    break_tests; now rewrite R3. }
  destruct (N.ltb_spec c 0x10000).
  { destruct ((0xD800 <=? c) && (c <=? 0xDFFF)) eqn:S; [discriminate|].
    assert (HS : c < 0xD800 \/ 0xDFFF < c).
    { apply andb_false_iff in S. destruct S as [S|S].
      - apply N.leb_gt in S. now left.
      - apply N.leb_gt in S. now right. }
    clear S.
    intros E; apply Some_inj in E; subst e. cbn [app].
    set (b1 := 0xE0 + c / 4096). set (b2 := 0x80 + (c / 64) mod 64).
    set (b3 := 0x80 + c mod 64).
    assert (R1 : 0xE0 <= b1 < 0xF0) by (subst b1; lia).
    assert (R2 : 0x80 <= b2 <= 0xBF) by (subst b2; lia).
    assert (R3 : 0x80 <= b3 <= 0xBF) by (subst b3; lia).
    assert (R4 : b1 = 0xE0 -> 0xA0 <= b2) by (subst b1 b2; lia).
    assert (R5 : b1 = 0xED -> b2 < 0xA0) by (subst b1 b2; lia).
    assert (R6 : (b1 - 0xE0) * 4096 + (b2 - 0x80) * 64 + (b3 - 0x80) = c)
      by (subst b1 b2 b3; lia).
    clearbody b1 b2 b3.
    cbn [decode]; unfold decode_step, is_continuation.
    break_tests; now rewrite R6. }
  destruct (N.ltb_spec c 0x110000); [|discriminate].
  intros E; apply Some_inj in E; subst e. cbn [app].
  set (b1 := 0xF0 + c / 262144). set (b2 := 0x80 + (c / 4096) mod 64).
  set (b3 := 0x80 + (c / 64) mod 64). set (b4 := 0x80 + c mod 64).
  assert (R1 : 0xF0 <= b1 < 0xF5) by (subst b1; lia).
  assert (R2 : 0x80 <= b2 <= 0xBF) by (subst b2; lia).
  assert (R3 : 0x80 <= b3 <= 0xBF) by (subst b3; lia).
  assert (R3' : 0x80 <= b4 <= 0xBF) by (subst b4; lia).
  assert (R4 : b1 = 0xF0 -> 0x90 <= b2) by (subst b1 b2; lia).
  assert (R5 : b1 = 0xF4 -> b2 < 0x90) by (subst b1 b2; lia).
  assert (R6 : (b1 - 0xF0) * 262144 + (b2 - 0x80) * 4096 + (b3 - 0x80) * 64
               + (b4 - 0x80) = c)
    by (subst b1 b2 b3 b4; lia).
  clearbody b1 b2 b3 b4.
  cbn [decode]; unfold decode_step, is_continuation.
  break_tests; now rewrite R6.
Qed.

Lemma decode_encode s bs : encode s = Some bs -> decode bs = s.
Proof.
  revert bs. induction s as [|c s IH]; intros bs; cbn [encode].
  - intros E; apply Some_inj in E; now subst bs.
  - destruct (encode_char c) as [e|] eqn:Ec; [|discriminate].
    destruct (encode s) as [es|]; [|discriminate].
    intros E; apply Some_inj in E; subst bs.
    rewrite (decode_encode_char _ _ _ Ec). f_equal. now apply IH.
Qed.

End Utf8Facts.
Import Utf8Facts.

Module QuoteFacts.
Import Utf8.

Lemma encode_bytes s bs : encode s = Some bs -> Forall (fun b => b < 256) bs.
Proof.
  revert bs. induction s as [|c s IH]; intros bs; cbn [encode].
  - intros E; apply Some_inj in E; subst bs. constructor.
  - destruct (encode_char c) as [e|] eqn:Ec; [|discriminate].
    destruct (encode s) as [es|]; [|discriminate].
    intros E; apply Some_inj in E; subst bs.
    apply Forall_app; split; [now apply encode_char_bytes with c | now apply IH].
Qed.

Lemma encode_total s :
  forallb is_scalar s = true -> exists bs, encode s = Some bs.
Proof.
  induction s as [|c s IH]; cbn [forallb encode]; [now exists []|].
  intros H. apply andb_true_iff in H. destruct H as [Hc Hs].
  destruct (IH Hs) as [es ->].
  assert (exists e, encode_char c = Some e) as [e ->]; [|now eexists].
  revert Hc. unfold is_scalar, encode_char.
  destruct (is_surrogate c); cbn [negb]; rewrite ?andb_false_r; [discriminate|].
  rewrite andb_true_r. intros Hc. apply N.ltb_lt in Hc.
  break_tests; eexists; reflexivity.
Qed.

Lemma split_cons_other c s sep :
  c <> sep ->
  split (c :: s) sep = (c :: hd [] (split s sep)) :: tl (split s sep).
Proof.
  intros Hc. cbn [split]. destruct (N.eqb_spec c sep); [contradiction|].
  now destruct (split s sep).
Qed.

Lemma split_cons_sep s sep : split (sep :: s) sep = [] :: split s sep.
Proof. cbn [split]. now rewrite N.eqb_refl. Qed.

Lemma split_nonempty s sep : split s sep = hd [] (split s sep) :: tl (split s sep).
Proof.
  destruct s as [|c s]; [reflexivity|]. cbn [split].
  destruct (c =? sep); [reflexivity|]. now destruct (split s sep).
Qed.

Lemma unquote_to_bytes_eq bs :
  unquote_to_bytes bs =
  hd [] (split bs 37) ++ flat_map unquote_item (tl (split bs 37)).
Proof. unfold unquote_to_bytes. now rewrite (split_nonempty bs 37) at 1. Qed.

Lemma unquote_to_bytes_other c bs :
  c <> 37 -> unquote_to_bytes (c :: bs) = c :: unquote_to_bytes bs.
Proof.
  intros Hc. rewrite !unquote_to_bytes_eq, split_cons_other by assumption.
  reflexivity.
Qed.

Lemma hex_value_not_percent c v : hex_value c = Some v -> c <> 37.
Proof. intros H ->. discriminate H. Qed.

Lemma unquote_to_bytes_escape h l a b bs :
  hex_value h = Some a -> hex_value l = Some b ->
  unquote_to_bytes (37 :: h :: l :: bs) = (16 * a + b) :: unquote_to_bytes bs.
Proof.
  intros Hh Hl. rewrite !unquote_to_bytes_eq, split_cons_sep.
  rewrite !split_cons_other
    by (eapply hex_value_not_percent; eassumption).
  cbn [hd tl flat_map unquote_item app]. now rewrite Hh, Hl.
Qed.

Lemma hex_value_upper n : n < 16 -> hex_value (hex_upper n) = Some n.
Proof.
  intros Hn. unfold hex_value, hex_upper, is_digit.
  break_tests; f_equal; lia.
Qed.

Lemma always_safe_not_percent b : always_safe b = true -> b <> 37.
Proof. intros H ->. discriminate H. Qed.

Lemma unquote_quote_bytes bs :
  Forall (fun b => b < 256) bs ->
  unquote_to_bytes (quote_from_bytes bs []) = bs.
Proof.
  unfold quote_from_bytes.
  induction 1 as [|b bs Hb _ IH]; [reflexivity|].
  cbn [flat_map]. unfold quote_byte at 1.
  cbn [has_char existsb]. rewrite andb_false_r, orb_false_r.
  destruct (always_safe b) eqn:Hs.
  - cbn [app]. rewrite unquote_to_bytes_other
      by now apply always_safe_not_percent.
    now rewrite IH.
  - cbn [app].
    rewrite (unquote_to_bytes_escape _ _ (b / 16) (b mod 16))
      by (apply hex_value_upper; lia).
    rewrite IH. f_equal. lia.
Qed.

Lemma quote_byte_plain b :
  b < 256 -> forallb plain_char (quote_byte [] b) = true.
Proof.
  intros Hb. unfold quote_byte. cbn [has_char existsb].
  rewrite andb_false_r, orb_false_r.
  destruct (always_safe b) eqn:Hs; cbn [forallb]; rewrite ?andb_true_r.
  - revert Hs. unfold always_safe, plain_char, is_linebreak, is_upper,
      is_lower, is_digit.
    break_tests; congruence.
  - assert (H1 : b / 16 < 16) by lia. assert (H2 : b mod 16 < 16) by lia.
    generalize dependent (b / 16). generalize dependent (b mod 16).
    intros lo Hlo hi Hhi.
    unfold plain_char, hex_upper, is_linebreak.
    destruct (N.ltb_spec lo 10), (N.ltb_spec hi 10); break_tests; reflexivity.
Qed.

Lemma quote_from_bytes_plain bs :
  Forall (fun b => b < 256) bs ->
  forallb plain_char (quote_from_bytes bs []) = true.
Proof.
  unfold quote_from_bytes. induction 1 as [|b bs Hb _ IH]; [reflexivity|].
  cbn [flat_map]. rewrite forallb_app, IH, quote_byte_plain by assumption.
  reflexivity.
Qed.

Lemma quote_plain s q : quote s [] = Some q -> forallb plain_char q = true.
Proof.
  unfold quote. destruct (encode s) as [bs|] eqn:E; [|discriminate].
  intros H; apply Some_inj in H; subst q.
  apply quote_from_bytes_plain. now apply encode_bytes with s.
Qed.

Lemma plain_isascii q : forallb plain_char q = true -> isascii q = true.
Proof.
  unfold isascii. induction q as [|c q IH]; [reflexivity|].
  cbn [forallb]. intros H. apply andb_true_iff in H. destruct H as [Hc Hq].
  rewrite (IH Hq), andb_true_r. unfold plain_char in Hc.
  now apply andb_true_iff in Hc.
Qed.

Lemma decode_ascii bs : isascii bs = true -> decode bs = bs.
Proof.
  unfold isascii. induction bs as [|b bs IH]; [reflexivity|].
  cbn [forallb decode]. intros H. apply andb_true_iff in H.
  destruct H as [Hb Hbs]. unfold decode_step. rewrite Hb. now rewrite IH.
Qed.

Lemma split_no_sep s sep : has_char s sep = false -> split s sep = [s].
Proof.
  unfold has_char. induction s as [|c s IH]; [reflexivity|].
  cbn [existsb split]. intros H. apply orb_false_iff in H.
  destruct H as [Hc Hs]. rewrite N.eqb_sym, Hc. now rewrite (IH Hs).
Qed.

Lemma unquote_parts_ascii s run :
  isascii s = true ->
  unquote_parts s run = decode (unquote_to_bytes (run ++ s)).
Proof.
  unfold isascii. revert run. induction s as [|c s IH]; intros run.
  - now rewrite app_nil_r.
  - cbn [forallb unquote_parts]. intros H. apply andb_true_iff in H.
    destruct H as [Hc Hs]. rewrite Hc, (IH _ Hs), <- app_assoc. reflexivity.
Qed.

(** On ASCII text [unquote] is: unquote to bytes, then decode. *)
Lemma unquote_ascii q :
  isascii q = true -> unquote q = decode (unquote_to_bytes q).
Proof.
  intros Hq. unfold unquote. destruct (has_char q 37) eqn:Hp.
  - now rewrite unquote_parts_ascii.
  - unfold unquote_to_bytes. rewrite (split_no_sep _ _ Hp).
    cbn [flat_map]. now rewrite app_nil_r, decode_ascii.
Qed.

Lemma unquote_quote s q : quote s [] = Some q -> unquote q = s.
Proof.
  intros Hq. rewrite unquote_ascii
    by (apply plain_isascii; now apply quote_plain with s).
  revert Hq. unfold quote. destruct (encode s) as [bs|] eqn:E; [|discriminate].
  intros H; apply Some_inj in H; subst q.
  rewrite unquote_quote_bytes by now apply encode_bytes with s.
  now apply decode_encode.
Qed.

End QuoteFacts.
Import QuoteFacts.

Module RunFacts.

Section Lines.
Variable netloc_check : str -> bool.

Lemma rewrite_lines_some lines base acc out :
  rewrite_lines netloc_check lines base acc = Some out ->
  exists outs,
    Forall2 (fun ln o => rewrite_line netloc_check ln base = Some o) lines outs
    /\ out = acc ++ outs.
Proof.
  revert acc. induction lines as [|ln rest IH]; intros acc; cbn [rewrite_lines].
  - intros E; apply Some_inj in E; subst out. exists []. split; [constructor|].
    now rewrite app_nil_r.
  - destruct (passes_through ln) eqn:P.
    + intros E. destruct (IH _ E) as (outs & F & ->).
      exists (ln :: outs). split.
      * constructor; [|assumption]. unfold rewrite_line. now rewrite P.
      * now rewrite <- app_assoc.
    + destruct (rewrite_uri netloc_check ln base) as [prox|] eqn:U; [|discriminate].
      intros E. destruct (IH _ E) as (outs & F & ->).
      exists (prox :: outs). split.
      * constructor; [|assumption]. unfold rewrite_line. now rewrite P.
      * now rewrite <- app_assoc.
Qed.

Lemma rewrite_lines_none lines base acc :
  rewrite_lines netloc_check lines base acc = None <->
  exists ln, In ln lines /\ rewrite_line netloc_check ln base = None.
Proof.
  revert acc. induction lines as [|ln rest IH]; intros acc; cbn [rewrite_lines].
  - split; [discriminate | intros (ln & [] & _)].
  - unfold rewrite_line at 1. destruct (passes_through ln) eqn:P.
    + rewrite IH. split.
      * intros (l & Hin & Hl). exists l. split; [now right | assumption].
      * intros (l & [<-|Hin] & Hl).
        -- unfold rewrite_line in Hl. rewrite P in Hl. discriminate.
        -- now exists l.
    + destruct (rewrite_uri netloc_check ln base) as [prox|] eqn:U.
      * rewrite IH. split.
        -- intros (l & Hin & Hl). exists l. split; [now right | assumption].
        -- intros (l & [<-|Hin] & Hl).
           ++ unfold rewrite_line in Hl. rewrite P, U in Hl. discriminate.
           ++ now exists l.
      * split; [|reflexivity]. intros _. exists ln. split; [now left|].
        unfold rewrite_line. now rewrite P.
Qed.

End Lines.

Lemma Forall2_nth {A B} (R : A -> B -> Prop) l l' i a :
  Forall2 R l l' -> nth_error l i = Some a ->
  exists b, nth_error l' i = Some b /\ R a b.
Proof.
  intros F. revert i. induction F as [|x y l l' Hxy _ IH]; intros i.
  - now destruct i.
  - destruct i as [|i]; cbn [nth_error].
    + intros E; apply Some_inj in E; subst x. now exists y.
    + apply IH.
Qed.

Lemma Forall2_length' {A B} (R : A -> B -> Prop) l l' :
  Forall2 R l l' -> List.length l' = List.length l.
Proof. induction 1; cbn [List.length]; congruence. Qed.

(** The lines [splitlines] returns hold no line boundary. *)
Lemma splitlines_from_one_line n : forall s line,
  (List.length s <= n)%nat -> one_line line = true ->
  Forall (fun l => one_line l = true) (splitlines_from s line).
Proof.
  induction n as [|n IH]; intros s line Hn Hl.
  - destruct s; [|cbn in Hn; lia]. cbn [splitlines_from].
    destruct line; repeat constructor; assumption.
  - destruct s as [|c rest].
    + cbn [splitlines_from]. destruct line; repeat constructor; assumption.
    + cbn [List.length] in Hn. cbn [splitlines_from].
      destruct (is_linebreak c) eqn:B.
      * constructor; [assumption|].
        destruct rest as [|c' rest']; [constructor|].
        cbn [List.length] in Hn.
        destruct ((c =? 13) && (c' =? 10)); apply IH;
          cbn [List.length]; try lia; reflexivity.
      * apply IH; [lia|]. unfold one_line in *.
        rewrite forallb_app, Hl. cbn [forallb]. now rewrite B.
Qed.

Lemma splitlines_one_line s :
  Forall (fun l => one_line l = true) (splitlines s).
Proof. now apply splitlines_from_one_line with (List.length s). Qed.

Lemma plain_one_line q : forallb plain_char q = true -> one_line q = true.
Proof.
  unfold one_line. induction q as [|c q IH]; [reflexivity|].
  cbn [forallb]. intros H. apply andb_true_iff in H. destruct H as [Hc Hq].
  rewrite (IH Hq), andb_true_r. unfold plain_char in Hc.
  now apply andb_true_iff in Hc.
Qed.

Lemma rewrite_uri_one_line nc ln base prox :
  rewrite_uri nc ln base = Some prox -> one_line prox = true.
Proof.
  unfold rewrite_uri. destruct (resolve_absolute nc (strip ln) base); [|discriminate].
  destruct (quote _ []) as [q|] eqn:Q; [|discriminate].
  intros E; apply Some_inj in E; subst prox.
  unfold one_line. rewrite forallb_app. apply andb_true_iff. split; [reflexivity|].
  apply plain_one_line. now apply quote_plain in Q.
Qed.

(** What a successful rewrite returns, line by line. *)
Lemma rewrite_text_lines nc text target out :
  rewrite_text nc text target = Some out ->
  exists out_lines,
    out = join nl out_lines /\
    Forall2 (fun ln o =>
               rewrite_line nc ln (rsplit1_head target 47 ++ py "/") = Some o)
            (splitlines text) out_lines /\
    Forall (fun l => one_line l = true) out_lines.
Proof.
  unfold rewrite_text.
  destruct (rewrite_lines nc (splitlines text) _ []) as [out_lines|] eqn:R;
    [|discriminate].
  intros E; apply Some_inj in E; subst out.
  apply rewrite_lines_some in R. destruct R as (outs & F & ->).
  cbn [app]. exists outs. split; [reflexivity|]. split; [assumption|].
  pose proof (splitlines_one_line text) as L.
  revert L. induction F as [|ln o ls os Hlo _ IH]; [constructor|].
  intros L. inversion L as [|? ? Hln Hls]; subst.
  constructor; [|now apply IH].
  unfold rewrite_line in Hlo. destruct (passes_through ln).
  - apply Some_inj in Hlo. now subst o.
  - now apply rewrite_uri_one_line in Hlo.
Qed.

End RunFacts.
Import RunFacts.

Module StrFacts.

Lemma startswith_iff s p :
  startswith s p = true <-> exists rest, s = p ++ rest.
Proof.
  revert s. induction p as [|c p IH]; intros s.
  - cbn [startswith]. split; [intros _; now exists s | reflexivity].
  - destruct s as [|d s]; cbn [startswith].
    + split; [discriminate | intros (rest & H); discriminate H].
    + rewrite andb_true_iff, N.eqb_eq, IH. split.
      * intros (-> & rest & ->). now exists rest.
      * intros (rest & H). injection H as -> ->. eauto.
Qed.

Lemma contains_iff s sub :
  contains s sub = true <-> exists pre post, s = pre ++ sub ++ post.
Proof.
  induction s as [|c s IH]; cbn [contains].
  - rewrite orb_false_r, startswith_iff. split.
    + intros (rest & H). now exists [], rest.
    + intros (pre & post & H). symmetry in H.
      apply app_eq_nil in H. destruct H as [-> H].
      apply app_eq_nil in H. destruct H as [-> ->]. now exists [].
  - rewrite orb_true_iff, startswith_iff, IH. split.
    + intros [(rest & H) | (pre & post & ->)].
      * now exists [], rest.
      * now exists (c :: pre), post.
    + intros (pre & post & H). destruct pre as [|d pre].
      * left. now exists post.
      * right. injection H as -> ->. now exists pre, post.
Qed.

Lemma contains_suffix_of_sub s a b :
  contains s (a ++ b) = true -> contains s b = true.
Proof.
  rewrite !contains_iff. intros (pre & post & ->).
  exists (pre ++ a), post. now rewrite <- !app_assoc.
Qed.

Lemma dropwhile_all f s : forallb f s = true -> dropwhile f s = [].
Proof.
  induction s as [|c s IH]; [reflexivity|]. cbn [forallb dropwhile].
  intros H. apply andb_true_iff in H. destruct H as [-> Hs]. now apply IH.
Qed.

Lemma split_app_sep l rest sep :
  has_char l sep = false -> split (l ++ sep :: rest) sep = l :: split rest sep.
Proof.
  unfold has_char. induction l as [|c l IH]; cbn [app existsb].
  - intros _. cbn [split]. now rewrite N.eqb_refl.
  - intros H. apply orb_false_iff in H. destruct H as [Hc Hl].
    cbn [split]. rewrite N.eqb_sym, Hc, (IH Hl). reflexivity.
Qed.

Lemma one_line_no_newline l : one_line l = true -> has_char l 10 = false.
Proof.
  unfold one_line, has_char. induction l as [|c l IH]; [reflexivity|].
  cbn [forallb existsb]. intros H. apply andb_true_iff in H.
  destruct H as [Hc Hl]. rewrite (IH Hl), orb_false_r.
  destruct (N.eqb_spec 10 c) as [<-|]; [discriminate Hc | reflexivity].
Qed.

(** Lines that hold no newline are recovered by splitting their join at
    the newlines. *)
Lemma split_join_lines lines :
  lines <> [] -> Forall (fun l => one_line l = true) lines ->
  split (join nl lines) 10 = lines.
Proof.
  intros Hne F. induction F as [|l ls Hl Hls IH]; [contradiction|].
  apply one_line_no_newline in Hl.
  destruct ls as [|l' ls'].
  - cbn [join]. now apply split_no_sep.
  - change (join nl (l :: l' :: ls')) with (l ++ 10 :: join nl (l' :: ls')).
    rewrite (split_app_sep _ _ _ Hl). f_equal. apply IH. discriminate.
Qed.

End StrFacts.
Import StrFacts.

(* ===================================================================== *)
(** * The relay                                                           *)
(* ===================================================================== *)

Import Utf8.

(** ** The rewriting of a manifest *)

(** C1, as stated, fails: the rewriter does not end its output with a
    newline.  On the playlist of scenario 1, whose four lines each end in a
    newline, the output is not the text the scenario gives. *)
Lemma C1_trailing_newline_counterexample :
  rewrite_text accept_netloc scenario1_text scenario1_target
  <> Some scenario1_claimed.
Proof.
  intros H.
  apply (f_equal (fun o => match o with
                           | Some s => List.length s
                           | None => O
                           end)) in H.
  vm_compute in H. discriminate H.
Qed.

(** C1, amended: on the playlist of scenario 1 the rewriter returns the
    four expected lines joined by newlines, with no newline after the last
    one; the same playlist with CR LF or CR line endings gives the same
    output; and every output is a sequence of lines, as many as the input
    has, none of which holds a line boundary, joined by newlines. *)
Theorem C1_scenario1_rewrite (netloc_check : str -> bool) :
  rewrite_text netloc_check scenario1_text scenario1_target
    = Some scenario1_out /\
  rewrite_text netloc_check (terminated [13; 10] scenario1_lines)
      scenario1_target
    = Some scenario1_out /\
  rewrite_text netloc_check (terminated [13] scenario1_lines)
      scenario1_target
    = Some scenario1_out /\
  (forall st content,
     proxy_respond ascii_lower netloc_check
       (mkUpstream st (Some (py "application/vnd.apple.mpegurl"))
                   (Some scenario1_text) content)
       scenario1_target
     = Some (Resp (Text scenario1_out) 200%Z manifest_headers)) /\
  (forall text target out,
     rewrite_text netloc_check text target = Some out ->
     exists out_lines,
       out = join nl out_lines /\
       List.length out_lines = List.length (splitlines text) /\
       Forall (fun l => one_line l = true) out_lines).
Proof.
  assert (E : rewrite_text netloc_check scenario1_text scenario1_target
              = Some scenario1_out) by (vm_compute; reflexivity).
  split; [exact E|].
  split; [vm_compute; reflexivity|].
  split; [vm_compute; reflexivity|].
  split.
  - intros st content. unfold proxy_respond, rewrite_manifest.
    cbn [content_type text]. rewrite E. reflexivity.
  - intros text target out H.
    destruct (rewrite_text_lines _ _ _ _ H) as (out_lines & -> & F & L).
    exists out_lines. split; [reflexivity|]. split; [|assumption].
    now apply Forall2_length' in F.
Qed.

Lemma C1_scenario1_rewrite_witness :
  exists out_lines,
    scenario1_out = join nl out_lines /\
    List.length out_lines = List.length (splitlines scenario1_text) /\
    Forall (fun l => one_line l = true) out_lines.
Proof.
  exact (proj2 (proj2 (proj2 (proj2 (C1_scenario1_rewrite accept_netloc))))
           scenario1_text scenario1_target _
           (proj1 (C1_scenario1_rewrite accept_netloc))).
Defined.

(** ** Playlist or binary *)

Lemma is_manifest_two_tests str_lower target ct :
  is_manifest str_lower target ct
  = endswith (str_lower target) (py ".m3u8") || contains ct (py "mpegurl").
Proof.
  unfold is_manifest.
  destruct (endswith (str_lower target) (py ".m3u8")); [reflexivity|].
  cbn [orb].
  destruct (contains ct (py "mpegurl")) eqn:M; [reflexivity|].
  cbn [orb].
  destruct (contains ct (py "application/vnd.apple.mpegurl")) eqn:A;
    [|reflexivity].
  change (py "application/vnd.apple.mpegurl")
    with (py "application/vnd.apple." ++ py "mpegurl") in A.
  apply contains_suffix_of_sub in A. congruence.
Qed.

(** C2, as stated, fails: the suffix test is made on the whole target URL,
    not on its path.  The path of
    [https://origin.example.com/path/index.m3u8?token=abc] ends in [.m3u8],
    so the specification's classification calls it a playlist, yet with a
    content type that does not mention [mpegurl] both views stream it as a
    binary resource. *)
Lemma C2_query_string_counterexample :
  let target := py "https://origin.example.com/path/index.m3u8?token=abc" in
  let r := mkUpstream 200%Z (Some (py "video/mp2t")) (Some []) [] in
  spec_is_playlist ascii_lower accept_netloc target (content_type r) = true /\
  is_stream_reply (proxy_respond ascii_lower accept_netloc r target) = true /\
  is_stream_reply (download_respond ascii_lower accept_netloc r target) = true.
Proof. vm_compute. repeat split. Qed.

(** [Response] returns the reply it is asked for, or raises. *)
Lemma Response_cases body st headers :
  Response body st headers = Some (Resp body st headers) \/
  Response body st headers = None.
Proof.
  unfold Response.
  destruct (forallb _ headers && _); [now left | now right].
Qed.

(** A pattern that does not hold the character [c] is not matched across
    a [c]. *)
Lemma startswith_app_stop (pat a b : str) (c : N) :
  has_char pat c = false ->
  startswith (a ++ c :: b) pat = startswith a pat.
Proof.
  revert a. induction pat as [|x pat IH]; intros a H; [now destruct a|].
  unfold has_char in H. cbn [existsb] in H.
  apply orb_false_iff in H. destruct H as [Hx Hp].
  destruct a as [|d a]; cbn [app startswith].
  - rewrite N.eqb_sym, Hx. reflexivity.
  - f_equal. now apply IH.
Qed.

Lemma endswith_after_query (p q : str) :
  endswith (ascii_lower (p ++ py "?" ++ q)) (py ".m3u8")
  = endswith (ascii_lower q) (py ".m3u8").
Proof.
  unfold endswith, ascii_lower.
  rewrite map_app, rev_app_distr. change (py "?" ++ q) with (63 :: q).
  cbn [map rev]. rewrite <- app_assoc. cbn [app].
  change (if is_upper 63 then 63 + 32 else 63) with 63.
  now apply startswith_app_stop.
Qed.

(** C2, amended: a fetched resource is handled as a playlist exactly when
    the whole target URL, lowered, ends in [.m3u8] or the [Content-Type]
    header is present and, lowered, contains [mpegurl].  This is what the
    tests of lines 68 and 118 decide, and the reply shows it: on the
    playlist path a view answers with the rewritten text or with the
    message of its [except] clause, on the binary path it streams the body
    or the [Response] built outside the [try] raises.  When an ASCII target
    carries a query string, the test on the URL is a test on the end of the
    query string, not of the path.  [str_lower] is any lowering function
    that is the ASCII one on ASCII text. *)
Theorem C2_classification (str_lower : str -> str) (netloc_check : str -> bool)
    (r : Upstream) (target : str) :
  (forall s, isascii s = true -> str_lower s = ascii_lower s) ->
  let playlist :=
    endswith (str_lower target) (py ".m3u8")
    || match content_type r with
       | Some c => contains (str_lower c) (py "mpegurl")
       | None => false
       end in
  (is_manifest str_lower target (tested_type str_lower r []) = playlist /\
   is_manifest str_lower target
     (tested_type str_lower r (py "application/octet-stream")) = playlist) /\
  (is_playlist_reply (proxy_respond str_lower netloc_check r target)
     = playlist /\
   is_binary_reply (proxy_respond str_lower netloc_check r target)
     = negb playlist /\
   is_playlist_reply (download_respond str_lower netloc_check r target)
     = playlist /\
   is_binary_reply (download_respond str_lower netloc_check r target)
     = negb playlist) /\
  (forall p q,
     target = p ++ py "?" ++ q -> isascii target = true ->
     endswith (str_lower target) (py ".m3u8")
     = endswith (ascii_lower q) (py ".m3u8")).
Proof.
  intros Hlow playlist.
  assert (P : is_manifest str_lower target
                (str_lower (or_default (content_type r) [])) = playlist).
  { rewrite is_manifest_two_tests. unfold playlist. f_equal.
    destruct (content_type r) as [c|]; cbn [or_default].
    - unfold str_or. now destruct c.
    - now rewrite Hlow. }
  assert (D : is_manifest str_lower target
                (str_lower (or_default (content_type r)
                                       (py "application/octet-stream")))
              = playlist).
  { rewrite is_manifest_two_tests. unfold playlist. f_equal.
    destruct (content_type r) as [c|]; cbn [or_default].
    - unfold str_or. destruct c as [|x c]; [|reflexivity].
      cbn [is_empty]. now rewrite !Hlow.
    - now rewrite Hlow. }
  split; [split; assumption|]. split.
  - unfold proxy_respond, download_respond. rewrite P, D.
    destruct playlist; cbn [negb].
    + destruct (rewrite_manifest netloc_check r target) as [out|].
      * repeat split;
          match goal with
          | |- _ (match Response ?b ?st ?h with _ => _ end) = _ =>
              now destruct (Response_cases b st h) as [-> | ->]
          end.
      * repeat split.
    + repeat split;
        match goal with
        | |- _ (Response ?b ?st ?h) = _ =>
            now destruct (Response_cases b st h) as [-> | ->]
        end.
  - intros p q -> A. rewrite (Hlow _ A). apply endswith_after_query.
Qed.

(** A target whose query string ends in [.m3u8] is a playlist whatever its
    content type. *)
Lemma C2_classification_witness :
  let r := mkUpstream 200%Z (Some (py "video/mp2t")) (Some []) [] in
  let target :=
    py "https://origin.example.com/path/index.m3u8?next=/alt/low.m3u8" in
  is_playlist_reply (proxy_respond ascii_lower accept_netloc r target) = true /\
  is_playlist_reply (download_respond ascii_lower accept_netloc r target)
  = true /\
  endswith (ascii_lower target) (py ".m3u8")
  = endswith (ascii_lower (py "next=/alt/low.m3u8")) (py ".m3u8").
Proof.
  pose proof
    (C2_classification ascii_lower accept_netloc
       (mkUpstream 200%Z (Some (py "video/mp2t")) (Some []) [])
       (py "https://origin.example.com/path/index.m3u8?next=/alt/low.m3u8")
       (fun s _ => eq_refl)) as (_ & (P & _ & D & _) & Q).
  split; [exact P|]. split; [exact D|].
  exact (Q (py "https://origin.example.com/path/index.m3u8")
           (py "next=/alt/low.m3u8") eq_refl eq_refl).
Defined.

(** ** Percent-encoding *)

(** C3: every string that can be encoded at all (its code points are
    Unicode scalar values) is percent-encoded by [quote] with no safe
    character, and [unquote] maps the result back to the string. *)
Theorem C3_quote_unquote_roundtrip (s : str) :
  forallb is_scalar s = true ->
  exists q, quote s [] = Some q /\ unquote q = s.
Proof.
  intros H. destruct (encode_total s H) as (bs & E).
  exists (quote_from_bytes bs []).
  assert (Q : quote s [] = Some (quote_from_bytes bs []))
    by (unfold quote; now rewrite E).
  split; [exact Q | now apply unquote_quote].
Qed.

Lemma C3_quote_unquote_roundtrip_witness :
  exists q,
    quote (py "https://cdn.example.com/a b/seg%201.ts?x=1&y=/z#t" ++ [233; 8364])
          [] = Some q /\
    unquote q = py "https://cdn.example.com/a b/seg%201.ts?x=1&y=/z#t" ++ [233; 8364].
Proof.
  apply (C3_quote_unquote_roundtrip
           (py "https://cdn.example.com/a b/seg%201.ts?x=1&y=/z#t" ++ [233; 8364])).
  vm_compute. reflexivity.
Defined.

(** Every reference the rewriter writes decodes to the absolute URL it was
    made from, after the scheme upgrade. *)
Lemma proxy_reference_decodes (netloc_check : str -> bool) (ln base prox : str) :
  rewrite_uri netloc_check ln base = Some prox ->
  exists absu q,
    resolve_absolute netloc_check (strip ln) base = Some absu /\
    prox = py "/proxy?u=" ++ q /\
    unquote q = upgrade_scheme absu.
Proof.
  unfold rewrite_uri.
  destruct (resolve_absolute netloc_check (strip ln) base) as [absu|];
    [|discriminate].
  destruct (quote (upgrade_scheme absu) []) as [q|] eqn:Q; [|discriminate].
  intros E; apply Some_inj in E; subst prox.
  exists absu, q. split; [reflexivity|]. split; [reflexivity|].
  now apply unquote_quote.
Qed.

(** ** The scheme upgrade *)

(** C4: a resolved URL that begins with [http://] becomes [https://]
    followed by the same remainder; any other resolved URL is left as it
    is. *)
Theorem C4_scheme_upgrade (absu : str) :
  (startswith absu (py "http://") = true ->
   exists rest,
     absu = py "http://" ++ rest /\ upgrade_scheme absu = py "https://" ++ rest)
  /\
  (startswith absu (py "http://") = false -> upgrade_scheme absu = absu).
Proof.
  unfold upgrade_scheme. split; intros H; rewrite H; [|reflexivity].
  apply startswith_iff in H. destruct H as (rest & ->).
  exists rest. split; reflexivity.
Qed.

Lemma C4_scheme_upgrade_witness :
  (exists rest,
     py "http://cdn.example.com/seg2.ts" = py "http://" ++ rest /\
     upgrade_scheme (py "http://cdn.example.com/seg2.ts") = py "https://" ++ rest)
  /\ upgrade_scheme (py "HTTP://cdn.example.com/seg2.ts")
     = py "HTTP://cdn.example.com/seg2.ts".
Proof.
  split.
  - apply (proj1 (C4_scheme_upgrade (py "http://cdn.example.com/seg2.ts"))).
    reflexivity.
  - apply (proj2 (C4_scheme_upgrade (py "HTTP://cdn.example.com/seg2.ts"))).
    reflexivity.
Defined.

(** ** Lines keep their place *)

(** C5: when the rewrite succeeds, its output is a sequence of lines joined
    by newlines (they are what splitting the output at the newlines gives)
    that has as many lines as the input; at every position an input line
    that is empty or begins with [#] stands unchanged, and any other input
    line is replaced by the one proxy reference made from it. *)
Theorem C5_lines_keep_their_place (netloc_check : str -> bool)
    (text target out : str) :
  rewrite_text netloc_check text target = Some out ->
  let base := rsplit1_head target 47 ++ py "/" in
  exists out_lines,
    out = join nl out_lines /\
    (out_lines <> [] -> split out 10 = out_lines) /\
    List.length out_lines = List.length (splitlines text) /\
    forall i ln,
      nth_error (splitlines text) i = Some ln ->
      (passes_through ln = true -> nth_error out_lines i = Some ln) /\
      (passes_through ln = false ->
       exists prox,
         rewrite_uri netloc_check ln base = Some prox /\
         nth_error out_lines i = Some prox).
Proof.
  intros H base.
  destruct (rewrite_text_lines _ _ _ _ H) as (out_lines & -> & F & L).
  exists out_lines. split; [reflexivity|].
  split; [intros Hne; now apply split_join_lines|].
  split; [now apply Forall2_length' in F|].
  intros i ln Hi.
  destruct (Forall2_nth _ _ _ _ _ F Hi) as (o & Ho & R).
  unfold rewrite_line in R. split; intros P; rewrite P in R.
  - apply Some_inj in R. now subst o.
  - now exists o.
Qed.

Lemma C5_lines_keep_their_place_witness :
  exists out_lines,
    scenario1_out = join nl out_lines /\
    (out_lines <> [] -> split scenario1_out 10 = out_lines) /\
    List.length out_lines = List.length (splitlines scenario1_text) /\
    forall i ln,
      nth_error (splitlines scenario1_text) i = Some ln ->
      (passes_through ln = true -> nth_error out_lines i = Some ln) /\
      (passes_through ln = false ->
       exists prox,
         rewrite_uri accept_netloc ln
           (rsplit1_head scenario1_target 47 ++ py "/") = Some prox /\
         nth_error out_lines i = Some prox).
Proof.
  apply (C5_lines_keep_their_place accept_netloc scenario1_text
           scenario1_target scenario1_out).
  vm_compute. reflexivity.
Defined.

(** ** Fetching, with one retry *)

Section Views.

Variable str_lower : str -> str.
Variable netloc_check : str -> bool.
Variable net : FetchCall -> option Upstream.

(** What [proxy] returns and the calls it makes, when [u] is present. *)
Lemma proxy_run args u :
  args_get args (py "u") = Some u -> is_empty u = false ->
  let target := unquote u in
  let c1 := fetch_call args target (proxy_cookie args) true true in
  let c2 := fetch_call args target (proxy_cookie args) true false in
  run (proxy str_lower netloc_check net args) =
  match net c1 with
  | Some r => (proxy_respond str_lower netloc_check r target, [c1])
  | None =>
      match net c2 with
      | Some r => (proxy_respond str_lower netloc_check r target, [c1; c2])
      | None => (Some (Plain (py "Upstream error") 502%Z), [c1; c2])
      end
  end.
Proof.
  intros Hu Hne target c1 c2.
  unfold proxy, run, bind, forward_request, ret. rewrite Hu, Hne.
  fold target. fold c1. destruct (net c1); [reflexivity|].
  fold c2. now destruct (net c2).
Qed.

(** What [download] returns and the calls it makes, when [u] is present. *)
Lemma download_run args u :
  args_get args (py "u") = Some u -> is_empty u = false ->
  let target := unquote u in
  let c1 := fetch_call args target None false true in
  let c2 := fetch_call args target None false false in
  run (download str_lower netloc_check net args) =
  match net c1 with
  | Some r => (download_respond str_lower netloc_check r target, [c1])
  | None =>
      match net c2 with
      | Some r => (download_respond str_lower netloc_check r target, [c1; c2])
      | None => (Some (Plain (py "Upstream error") 502%Z), [c1; c2])
      end
  end.
Proof.
  intros Hu Hne target c1 c2.
  unfold download, run, bind, forward_request, ret. rewrite Hu, Hne.
  fold target. fold c1. destruct (net c1); [reflexivity|].
  fold c2. now destruct (net c2).
Qed.

(** C6: in both views the first call of [requests.get] asks for the
    target with [verify=True]; when it returns nothing else is fetched; when
    it raises exactly one more call is made, the same request with
    [verify=False]; and when that raises too the view answers 502 having
    made these two calls and no other.  The calls are spelled out field by
    field: URL, headers, [stream], [verify]. *)
Theorem C6_one_retry_without_verification (args : Args) (u : str) :
  args_get args (py "u") = Some u -> is_empty u = false ->
  let target := unquote u in
  let proxy_headers := request_headers args (proxy_cookie args) in
  let download_headers := request_headers args None in
  let p1 := {| call_url := target; call_headers := proxy_headers;
               call_stream := true; call_verify := true |} in
  let p2 := {| call_url := target; call_headers := proxy_headers;
               call_stream := true; call_verify := false |} in
  let d1 := {| call_url := target; call_headers := download_headers;
               call_stream := false; call_verify := true |} in
  let d2 := {| call_url := target; call_headers := download_headers;
               call_stream := false; call_verify := false |} in
  let proxy_result := run (proxy str_lower netloc_check net args) in
  let download_result := run (download str_lower netloc_check net args) in
  (net p1 <> None ->
   snd proxy_result = [p1] /\ map call_verify (snd proxy_result) = [true]) /\
  (net p1 = None ->
   snd proxy_result = [p1; p2] /\
   map call_verify (snd proxy_result) = [true; false]) /\
  (net p1 = None -> net p2 = None ->
   proxy_result = (Some (Plain (py "Upstream error") 502%Z), [p1; p2])) /\
  (net d1 <> None ->
   snd download_result = [d1] /\
   map call_verify (snd download_result) = [true]) /\
  (net d1 = None ->
   snd download_result = [d1; d2] /\
   map call_verify (snd download_result) = [true; false]) /\
  (net d1 = None -> net d2 = None ->
   download_result = (Some (Plain (py "Upstream error") 502%Z), [d1; d2])).
Proof.
  intros Hu Hne target ph dh p1 p2 d1 d2 pr dr.
  subst pr dr. rewrite (proxy_run _ _ Hu Hne), (download_run _ _ Hu Hne).
  fold target. unfold fetch_call. fold ph. fold dh.
  fold p1. fold p2. fold d1. fold d2.
  split; [|split; [|split; [|split; [|split]]]].
  - intros N1. destruct (net p1); [split; reflexivity | contradiction].
  - intros ->. destruct (net p2); split; reflexivity.
  - intros -> ->. reflexivity.
  - intros N1. destruct (net d1); [split; reflexivity | contradiction].
  - intros ->. destruct (net d2); split; reflexivity.
  - intros -> ->. reflexivity.
Qed.

Lemma proxy_settled args u r :
  args_get args (py "u") = Some u -> is_empty u = false ->
  settled net (fetch_call args (unquote u) (proxy_cookie args) true true)
              (fetch_call args (unquote u) (proxy_cookie args) true false)
  = Some r ->
  fst (run (proxy str_lower netloc_check net args))
  = proxy_respond str_lower netloc_check r (unquote u).
Proof.
  intros Hu Hne. rewrite (proxy_run _ _ Hu Hne). unfold settled.
  destruct (net _); [now intros [= ->]|]. now intros ->.
Qed.

Lemma download_settled args u r :
  args_get args (py "u") = Some u -> is_empty u = false ->
  settled net (fetch_call args (unquote u) None false true)
              (fetch_call args (unquote u) None false false)
  = Some r ->
  fst (run (download str_lower netloc_check net args))
  = download_respond str_lower netloc_check r (unquote u).
Proof.
  intros Hu Hne. rewrite (download_run _ _ Hu Hne). unfold settled.
  destruct (net _); [now intros [= ->]|]. now intros ->.
Qed.

End Views.

(** A network on which a fetch fails exactly when it verifies TLS: the
    view makes its two calls, the first with verification, the second
    without, and on a network on which every fetch fails answers 502. *)
Lemma C6_one_retry_without_verification_witness :
  let args := [(py "u", py "https://origin.example.com/path/index.m3u8")] in
  let target := py "https://origin.example.com/path/index.m3u8" in
  let strict :=
    {| call_url := target; call_headers := DEFAULT_HEADERS;
       call_stream := true; call_verify := true |} in
  let relaxed :=
    {| call_url := target; call_headers := DEFAULT_HEADERS;
       call_stream := true; call_verify := false |} in
  let r := mkUpstream 200%Z (Some (py "video/mp2t")) None [] in
  run (proxy ascii_lower accept_netloc (fun _ => None) args)
  = (Some (Plain (py "Upstream error") 502%Z), [strict; relaxed]) /\
  snd (run (proxy ascii_lower accept_netloc
              (fun c => if call_verify c then None else Some r) args))
  = [strict; relaxed] /\
  snd (run (proxy ascii_lower accept_netloc (fun _ => Some r) args))
  = [strict].
Proof.
  pose (args := [(py "u", py "https://origin.example.com/path/index.m3u8")]).
  pose (target := py "https://origin.example.com/path/index.m3u8").
  pose (r := mkUpstream 200%Z (Some (py "video/mp2t")) None []).
  split; [|split].
  - exact (proj1 (proj2 (proj2
             (C6_one_retry_without_verification ascii_lower accept_netloc
                (fun _ => None) args target eq_refl eq_refl)))
             eq_refl eq_refl).
  - exact (proj1 (proj1 (proj2
             (C6_one_retry_without_verification ascii_lower accept_netloc
                (fun c => if call_verify c then None else Some r)
                args target eq_refl eq_refl))
             eq_refl)).
  - refine (proj1 (proj1
             (C6_one_retry_without_verification ascii_lower accept_netloc
                (fun _ => Some r) args target eq_refl eq_refl)
             _)).
    discriminate.
Defined.

(** ** Status codes *)

(** What [Response] does with a text and with a streamed body. *)
Lemma Response_text out st headers :
  Response (Text out) st headers
  = if forallb (fun kv => header_value_ok (snd kv)) headers && encodable out
    then Some (Resp (Text out) st headers) else None.
Proof. reflexivity. Qed.

Lemma manifest_type_ok :
  header_value_ok (py "application/vnd.apple.mpegurl") = true.
Proof. vm_compute. reflexivity. Qed.

Lemma Response_stream c st headers :
  Response (Stream c) st headers
  = if forallb (fun kv => header_value_ok (snd kv)) headers
    then Some (Resp (Stream c) st headers) else None.
Proof. unfold Response. now rewrite andb_true_r. Qed.

(** The header values the views can get wrong: the others are literals. *)
Lemma proxy_headers_ok v :
  forallb (fun kv => header_value_ok (snd kv))
    [ (py "Content-Type", v);
      (py "Access-Control-Allow-Origin", py "*");
      (py "Cache-Control", py "no-cache") ]
  = header_value_ok v.
Proof.
  cbn [forallb snd].
  destruct (header_value_ok v); vm_compute; reflexivity.
Qed.

Lemma download_headers_ok v d :
  forallb (fun kv => header_value_ok (snd kv))
    [ (py "Content-Type", v);
      (py "Content-Disposition", d);
      (py "Access-Control-Allow-Origin", py "*");
      (py "Cache-Control", py "no-cache") ]
  = header_value_ok v && header_value_ok d.
Proof.
  cbn [forallb snd].
  destruct (header_value_ok v), (header_value_ok d); vm_compute; reflexivity.
Qed.




(** ** Failing closed *)

(** C8: let [r] be the response on which the fetch of a view settles, and
    let the resource be classified as a playlist.  When reading the text
    raises, or when resolving or encoding some line that is to be rewritten
    raises, the view answers 500 with its fixed message, whatever the lines
    before that one were; and whenever the view answers with a manifest
    text, that text is made of all the lines of the input, each one passed
    through or rewritten. *)
Theorem C8_fail_closed (str_lower : str -> str) (netloc_check : str -> bool)
    (net : FetchCall -> option Upstream) (args : Args) (u : str)
    (r : Upstream) :
  args_get args (py "u") = Some u -> is_empty u = false ->
  let target := unquote u in
  let base := rsplit1_head target 47 ++ py "/" in
  let raises :=
    text r = None \/
    exists t ln,
      text r = Some t /\ In ln (splitlines t) /\ passes_through ln = false /\
      (resolve_absolute netloc_check (strip ln) base = None \/
       exists absu,
         resolve_absolute netloc_check (strip ln) base = Some absu /\
         quote (upgrade_scheme absu) [] = None) in
  let whole out :=
    exists t out_lines,
      text r = Some t /\ out = join nl out_lines /\
      Forall2 (fun ln o => rewrite_line netloc_check ln base = Some o)
              (splitlines t) out_lines in
  let proxy_reply := fst (run (proxy str_lower netloc_check net args)) in
  let download_reply := fst (run (download str_lower netloc_check net args)) in
  (settled net (fetch_call args target (proxy_cookie args) true true)
               (fetch_call args target (proxy_cookie args) true false)
   = Some r ->
   is_manifest str_lower target (tested_type str_lower r []) = true ->
   (raises ->
    proxy_reply = Some (Plain (py "Manifest rewrite failed") 500%Z)) /\
   (forall out st headers,
      proxy_reply = Some (Resp (Text out) st headers) -> whole out)) /\
  (settled net (fetch_call args target None false true)
               (fetch_call args target None false false)
   = Some r ->
   is_manifest str_lower target
     (tested_type str_lower r (py "application/octet-stream")) = true ->
   (raises ->
    download_reply = Some (Plain (py "Failed to rewrite manifest") 500%Z)) /\
   (forall out st headers,
      download_reply = Some (Resp (Text out) st headers) -> whole out)).
Proof.
  intros Hu Hne target base raises whole pr dr. subst pr dr.
  assert (R : raises -> rewrite_manifest netloc_check r target = None).
  { unfold rewrite_manifest, rewrite_text. fold base.
    intros [-> | (t & ln & -> & Hin & P & Hr)]; [reflexivity|].
    assert (N : rewrite_lines netloc_check (splitlines t) base [] = None).
    { apply rewrite_lines_none. exists ln. split; [assumption|].
      unfold rewrite_line, rewrite_uri. rewrite P.
      destruct Hr as [-> | (absu & -> & ->)]; reflexivity. }
    now rewrite N. }
  assert (W : forall out, rewrite_manifest netloc_check r target = Some out ->
                          whole out).
  { unfold rewrite_manifest. intros out. destruct (text r) as [t|]; [|discriminate].
    intros H. apply rewrite_text_lines in H.
    destruct H as (out_lines & -> & F & _). now exists t, out_lines. }
  split; intros S M.
  - rewrite (proxy_settled _ _ _ _ _ _ Hu Hne S). fold target.
    unfold proxy_respond. unfold tested_type in M. rewrite M. split.
    + intros H. now rewrite (R H).
    + intros out st headers.
      destruct (rewrite_manifest netloc_check r target) as [o|] eqn:E;
        [|discriminate].
      match goal with
      | |- context [Response ?b ?s ?h] =>
          destruct (Response_cases b s h) as [-> | ->]; [|discriminate]
      end.
      intros [= <- _ _]. now apply W.
  - rewrite (download_settled _ _ _ _ _ _ Hu Hne S). fold target.
    unfold download_respond. unfold tested_type in M. rewrite M. split.
    + intros H. now rewrite (R H).
    + intros out st headers.
      destruct (rewrite_manifest netloc_check r target) as [o|] eqn:E;
        [|discriminate].
      match goal with
      | |- context [Response ?b ?s ?h] =>
          destruct (Response_cases b s h) as [-> | ->]; [|discriminate]
      end.
      intros [= <- _ _]. now apply W.
Qed.

(** A manifest whose third line has a network location with an unmatched
    bracket, for which [urljoin] raises: the two lines before it are not
    returned. *)
Lemma C8_fail_closed_witness :
  let r := mkUpstream 200%Z (Some (py "application/x-mpegurl"))
             (Some (py "#EXTM3U" ++ nl ++ py "seg1.ts" ++ nl ++ py "//[cdn/seg2.ts"
                    ++ nl))
             [] in
  let args := [(py "u", py "https://origin.example.com/path/index.m3u8")] in
  fst (run (proxy ascii_lower accept_netloc (fun _ => Some r) args))
  = Some (Plain (py "Manifest rewrite failed") 500%Z).
Proof.
  pose (t := py "#EXTM3U" ++ nl ++ py "seg1.ts" ++ nl ++ py "//[cdn/seg2.ts"
             ++ nl).
  pose (r := mkUpstream 200%Z (Some (py "application/x-mpegurl")) (Some t) []).
  apply (proj1 (proj1
           (C8_fail_closed ascii_lower accept_netloc (fun _ => Some r)
              [(py "u", py "https://origin.example.com/path/index.m3u8")]
              (py "https://origin.example.com/path/index.m3u8") r
              eq_refl eq_refl)
           eq_refl eq_refl)).
  right. exists t, (py "//[cdn/seg2.ts").
  split; [reflexivity|]. split; [vm_compute; tauto|]. split; [reflexivity|].
  left. vm_compute. reflexivity.
Defined.

(** ** The attachment name *)

Lemma split1_decompose s sep :
  has_char (fst (split1 s sep)) sep = false /\
  match snd (split1 s sep) with
  | Some q => s = fst (split1 s sep) ++ sep :: q
  | None => s = fst (split1 s sep)
  end.
Proof.
  induction s as [|c s IH]; cbn [split1]; [now split|].
  destruct (N.eqb_spec c sep) as [->|Hc]; cbn [fst snd]; [now split|].
  destruct (split1 s sep) as [a b]; cbn [fst snd] in *.
  destruct IH as [IH1 IH2]. split.
  - unfold has_char in *. cbn [existsb]. rewrite IH1, orb_false_r.
    apply N.eqb_neq. congruence.
  - destruct b; now rewrite IH2 at 1.
Qed.

Lemma first_item_split s sep : first_item (split s sep) = fst (split1 s sep).
Proof.
  unfold first_item. induction s as [|c s IH]; [reflexivity|].
  cbn [split split1]. destruct (c =? sep); [reflexivity|].
  destruct (split1 s sep) as [a b]; cbn [fst] in *.
  destruct (split s sep); cbn [hd] in *; now subst.
Qed.

Lemma first_item_split_app a b sep :
  has_char a sep = false ->
  first_item (split (a ++ sep :: b) sep) = a.
Proof.
  rewrite first_item_split. unfold has_char.
  induction a as [|c a IH]; cbn [app split1 existsb].
  - now rewrite N.eqb_refl.
  - intros H. apply orb_false_iff in H. destruct H as [Hc Ha].
    rewrite N.eqb_sym, Hc. specialize (IH Ha).
    destruct (split1 (a ++ sep :: b) sep). cbn [fst] in *. now subst.
Qed.

Lemma split_app_no_sep a b sep :
  has_char b sep = false ->
  split (a ++ b) sep
  = removelast (split a sep) ++ [last (split a sep) [] ++ b].
Proof.
  intros Hb. induction a as [|c a IH]; cbn [app].
  - now rewrite (split_no_sep _ _ Hb).
  - cbn [split]. rewrite IH. clear IH.
    rewrite (split_nonempty a sep).
    destruct (c =? sep); destruct (tl (split a sep)); reflexivity.
Qed.

Lemma last_item_split_app a b sep :
  has_char b sep = false ->
  last_item (split (a ++ b) sep) = last_item (split a sep) ++ b.
Proof.
  intros Hb. unfold last_item. rewrite (split_app_no_sep _ _ _ Hb).
  apply last_last.
Qed.

Lemma last_item_chars s sep c :
  has_char s c = false -> has_char (last_item (split s sep)) c = false.
Proof.
  unfold has_char, last_item. induction s as [|d s IH]; [reflexivity|].
  cbn [existsb split]. intros H. apply orb_false_iff in H.
  destruct H as [Hd Hs]. specialize (IH Hs).
  rewrite (split_nonempty s sep) in *.
  destruct (d =? sep); [exact IH|].
  destruct (tl (split s sep)); cbn [last existsb] in *; [|exact IH].
  now rewrite Hd.
Qed.

(** [filename_of] is the name the specification describes whenever no [/]
    follows the first [?] of the target. *)
Lemma filename_of_spec target :
  match snd (split1 target 63) with
  | Some q => has_char q 47 = false
  | None => True
  end ->
  filename_of target = spec_filename target.
Proof.
  unfold filename_of, spec_filename.
  generalize (split1_decompose target 63).
  rewrite (first_item_split target).
  destruct (split1 target 63) as [p [q|]]; cbn [fst snd]; intros [Hp Ht] Hq.
  - rewrite Ht at 1.
    rewrite last_item_split_app
      by (unfold has_char in *; cbn [existsb]; now rewrite Hq).
    rewrite first_item_split_app by now apply last_item_chars.
    reflexivity.
  - rewrite <- Ht.
    rewrite (split_no_sep (last_item (split target 47)) 63)
      by (apply last_item_chars; now rewrite Ht).
    reflexivity.
Qed.

(** C9 holds for the target of scenario 4 but not for every target: the
    code takes the text after the last [/] of the whole URL before it cuts
    at [?], so a [/] inside the query string moves the name into the query
    string.  For [https://host/video/a.mp4?next=/b/c] the name the claim
    describes is [a.mp4] and the name [download] sends is [c]. *)
Theorem C9_filename_query_with_slash :
  filename_of (py "https://host/video/a.mp4?x=1") = py "a.mp4" /\
  spec_filename (py "https://host/video/a.mp4?next=/b/c") = py "a.mp4" /\
  filename_of (py "https://host/video/a.mp4?next=/b/c") = py "c" /\
  download_respond ascii_lower accept_netloc
    (mkUpstream 200%Z (Some (py "video/mp4")) None [1; 2; 3])
    (py "https://host/video/a.mp4?next=/b/c")
  = Some (Resp (Stream [1; 2; 3]) 200%Z
            [ (py "Content-Type", py "video/mp4");
              (py "Content-Disposition", content_disposition (py "c"));
              (py "Access-Control-Allow-Origin", py "*");
              (py "Cache-Control", py "no-cache") ]).
Proof.
  split; [vm_compute; reflexivity|].
  split; [vm_compute; reflexivity|].
  split; [vm_compute; reflexivity|].
  vm_compute. reflexivity.
Qed.

(** ** Lines of white space *)

(** C10, as stated, fails when the base URL begins with [http://]: the
    reference made from a line of white space carries the base URL after the
    scheme upgrade, not the base URL itself. *)
Lemma C10_http_base_counterexample :
  let base := rsplit1_head (py "http://cdn.example.com/live/index.m3u8") 47
              ++ py "/" in
  quote base [] = Some (py "http%3A%2F%2Fcdn.example.com%2Flive%2F") /\
  rewrite_line accept_netloc (py " ") base
  = Some (py "/proxy?u=https%3A%2F%2Fcdn.example.com%2Flive%2F") /\
  rewrite_line accept_netloc (py " ") base
  <> Some (py "/proxy?u=" ++ py "http%3A%2F%2Fcdn.example.com%2Flive%2F").
Proof.
  vm_compute. repeat split. discriminate.
Qed.

(** C10, amended: a line that is not empty and holds only white space is
    not passed through; it is trimmed to the empty string, which resolves to
    the base URL, and it is replaced by the proxy reference that carries the
    percent-encoding of the base URL after the scheme upgrade (the base URL
    itself unless it begins with [http://]). *)
Theorem C10_whitespace_only_line (netloc_check : str -> bool)
    (ln target q : str) :
  ln <> [] -> forallb isspace ln = true ->
  let base := rsplit1_head target 47 ++ py "/" in
  quote (upgrade_scheme base) [] = Some q ->
  passes_through ln = false /\
  strip ln = [] /\
  resolve_absolute netloc_check (strip ln) base = Some base /\
  rewrite_line netloc_check ln base = Some (py "/proxy?u=" ++ q).
Proof.
  intros Hne Hsp base Hq.
  assert (P : passes_through ln = false).
  { destruct ln as [|c ln]; [contradiction|].
    cbn [forallb] in Hsp. apply andb_true_iff in Hsp. destruct Hsp as [Hc _].
    unfold passes_through. cbn [is_empty orb].
    change (py "#") with [35]. cbn [startswith].
    destruct (N.eqb_spec 35 c) as [<-|]; [discriminate Hc | reflexivity]. }
  assert (S : strip ln = []).
  { unfold strip, lstrip, rstrip. now rewrite (dropwhile_all _ _ Hsp). }
  assert (R : resolve_absolute netloc_check (strip ln) base = Some base).
  { rewrite S. unfold resolve_absolute. cbn [startswith orb].
    unfold urljoin. subst base.
    destruct (rsplit1_head target 47); reflexivity. }
  repeat split; try assumption.
  unfold rewrite_line, rewrite_uri. now rewrite P, R, Hq.
Qed.

Lemma C10_whitespace_only_line_witness :
  rewrite_line accept_netloc [32; 9]
    (rsplit1_head (py "http://cdn.example.com/live/index.m3u8") 47 ++ py "/")
  = Some (py "/proxy?u=" ++ py "https%3A%2F%2Fcdn.example.com%2Flive%2F").
Proof.
  refine (proj2 (proj2 (proj2
            (C10_whitespace_only_line accept_netloc [32; 9]
               (py "http://cdn.example.com/live/index.m3u8")
               (py "https%3A%2F%2Fcdn.example.com%2Flive%2F") _ _ _)))).
  - discriminate.
  - reflexivity.
  - vm_compute. reflexivity.
Defined.

(* ===================================================================== *)
(** * Further properties of [run.py]                                      *)
(* ===================================================================== *)

Lemma str_eqb_eq a b : str_eqb a b = true <-> a = b.
Proof.
  unfold str_eqb. destruct (list_eq_dec N.eq_dec a b); split; congruence.
Qed.

Lemma str_eqb_refl a : str_eqb a a = true.
Proof. now apply str_eqb_eq. Qed.

Lemma str_eqb_neq a b : a <> b -> str_eqb a b = false.
Proof.
  intros H. destruct (str_eqb a b) eqn:E; [|reflexivity].
  apply str_eqb_eq in E. contradiction.
Qed.

(** ** Requests without a target *)

(** X1: when the parameter [u] is missing or empty, both views answer 400
    with the message [Missing url param 'u'] and make no call of
    [requests.get] at all. *)
Theorem missing_u_is_400_without_fetch (str_lower : str -> str)
    (netloc_check : str -> bool) (net : FetchCall -> option Upstream)
    (args : Args) :
  args_get args (py "u") = None \/ args_get args (py "u") = Some [] ->
  run (proxy str_lower netloc_check net args)
    = (Some (Plain (py "Missing url param 'u'") 400%Z), []) /\
  run (download str_lower netloc_check net args)
    = (Some (Plain (py "Missing url param 'u'") 400%Z), []).
Proof.
  unfold proxy, download, run, ret. intros [-> | ->]; split; reflexivity.
Qed.

Lemma missing_u_is_400_without_fetch_witness :
  run (proxy ascii_lower accept_netloc (fun _ => None)
         [(py "cookie", py "a=b"); (py "u", [])])
    = (Some (Plain (py "Missing url param 'u'") 400%Z), []) /\
  run (download ascii_lower accept_netloc (fun _ => None)
         [(py "cookie", py "a=b"); (py "u", [])])
    = (Some (Plain (py "Missing url param 'u'") 400%Z), []).
Proof.
  apply (missing_u_is_400_without_fetch ascii_lower accept_netloc
           (fun _ => None) [(py "cookie", py "a=b"); (py "u", [])]).
  right. reflexivity.
Defined.

(** ** The headers sent upstream *)

Lemma dict_get_set_same d k v : dict_get (dict_set d k v) k = Some v.
Proof.
  induction d as [|[k' v'] d IH]; cbn [dict_set dict_get].
  - now rewrite str_eqb_refl.
  - destruct (str_eqb k k') eqn:E; cbn [dict_get].
    + now rewrite str_eqb_refl.
    + now rewrite E.
Qed.

Lemma dict_get_set_other d k v k' :
  k' <> k -> dict_get (dict_set d k v) k' = dict_get d k'.
Proof.
  intros Hk. induction d as [|[k0 v0] d IH]; cbn [dict_set dict_get].
  - now rewrite str_eqb_neq.
  - destruct (str_eqb k k0) eqn:E; cbn [dict_get].
    + apply str_eqb_eq in E. subst k0. now rewrite str_eqb_neq.
    + now rewrite IH.
Qed.

Lemma header_key_inv k name :
  startswith k (py "header_") = true ->
  skipn (List.length (py "header_")) k = name ->
  k = py "header_" ++ name.
Proof.
  intros H <-. apply startswith_iff in H. destruct H as (rest & ->).
  reflexivity.
Qed.

(** The header [name] after the loop over the parameters not yet [seen]. *)
Lemma header_loop_get name args : forall seen d,
  dict_get (fold_left header_step (args_items args seen) d) name =
  if existsb (str_eqb (py "header_" ++ name)) seen then dict_get d name
  else match args_get args (py "header_" ++ name) with
       | Some v => Some (unquote v)
       | None => dict_get d name
       end.
Proof.
  induction args as [|[k v] rest IH]; intros seen d;
    cbn [args_items args_get fold_left].
  - now destruct (existsb _ seen).
  - destruct (existsb (str_eqb k) seen) eqn:K.
    + rewrite IH.
      destruct (existsb (str_eqb (py "header_" ++ name)) seen) eqn:S;
        [reflexivity|].
      destruct (str_eqb (py "header_" ++ name) k) eqn:E; [|reflexivity].
      apply str_eqb_eq in E. subst k. congruence.
    + cbn [fold_left]. rewrite IH. cbn [existsb fst snd].
      destruct (str_eqb (py "header_" ++ name) k) eqn:E.
      * apply str_eqb_eq in E. subst k. cbn [orb].
        assert (S : existsb (str_eqb (py "header_" ++ name)) seen = false)
          by exact K.
        rewrite S. unfold header_step. cbn [fst snd].
        change (startswith (py "header_" ++ name) (py "header_")) with true.
        cbv beta iota.
        change (skipn (List.length (py "header_")) (py "header_" ++ name))
          with name.
        apply dict_get_set_same.
      * cbn [orb].
        assert (D : dict_get (header_step d (k, v)) name = dict_get d name).
        { unfold header_step. cbn [fst snd].
          destruct (startswith k (py "header_")) eqn:P; [|reflexivity].
          apply dict_get_set_other. intros N.
          symmetry in N. apply (header_key_inv _ _ P) in N. subst k.
          now rewrite str_eqb_refl in E. }
        rewrite D. reflexivity.
Qed.

(** X3: the header [name] that a view sends upstream.  [Cookie] is the
    decoded [cookie] parameter when there is one; otherwise a header is the
    decoded value of the first parameter [header_<name>], and without such a
    parameter it keeps its default ([User-Agent], [Referer]) or is not
    sent. *)
Theorem upstream_header_value (args : Args) (name : str) :
  let override :=
    match args_get args (py "header_" ++ name) with
    | Some v => Some (unquote v)
    | None => dict_get DEFAULT_HEADERS name
    end in
  dict_get (request_headers args None) name =
  if str_eqb name (py "Cookie") then
    match args_get args (py "cookie") with
    | Some c => Some (unquote c)
    | None => override
    end
  else override.
Proof.
  intros override. unfold request_headers.
  change (fold_left _ (args_items args []) DEFAULT_HEADERS)
    with (fold_left header_step (args_items args []) DEFAULT_HEADERS).
  pose proof (header_loop_get name args [] DEFAULT_HEADERS) as L.
  cbn [existsb] in L. fold override in L.
  destruct (args_get args (py "cookie")) as [c|].
  - destruct (str_eqb name (py "Cookie")) eqn:E.
    + apply str_eqb_eq in E. subst name. apply dict_get_set_same.
    + rewrite dict_get_set_other; [exact L|].
      intros ->. now rewrite str_eqb_refl in E.
  - rewrite L. now destruct (str_eqb name (py "Cookie")).
Qed.

(** X2: [proxy] passes the decoded [cookie] parameter to [forward_request]
    and [download] passes none, yet both send the same headers: with no
    cookie passed, [forward_request] reads the same parameter itself. *)
Theorem views_send_same_headers (args : Args) (url : str)
    (stream verify : bool) :
  fetch_call args url (proxy_cookie args) stream verify
  = fetch_call args url None stream verify.
Proof.
  unfold fetch_call. f_equal. unfold request_headers, proxy_cookie.
  destruct (args_get args (py "cookie")) as [c|]; [|reflexivity].
  destruct (is_empty c); [reflexivity|].
  now destruct (is_empty (unquote c)).
Qed.

(** ** The references the rewriter writes *)

Lemma hex_upper_safe n : n < 16 -> always_safe (hex_upper n) = true.
Proof.
  intros Hn. unfold hex_upper, always_safe, is_upper, is_lower, is_digit.
  destruct (N.ltb_spec n 10); break_tests; reflexivity.
Qed.

Lemma quote_query_chars s q :
  quote s [] = Some q -> forallb query_char q = true.
Proof.
  unfold quote. destruct (encode s) as [bs|] eqn:E; [|discriminate].
  intros H; apply Some_inj in H; subst q.
  pose proof (encode_bytes _ _ E) as B. clear E.
  unfold quote_from_bytes. induction B as [|b bs Hb _ IH]; [reflexivity|].
  cbn [flat_map]. rewrite forallb_app, IH, andb_true_r.
  unfold quote_byte. cbn [has_char existsb].
  rewrite andb_false_r, orb_false_r.
  destruct (always_safe b) eqn:S; cbn [forallb]; unfold query_char.
  - now rewrite S.
  - rewrite !hex_upper_safe by lia. reflexivity.
Qed.

Lemma encode_some_scalar s bs :
  encode s = Some bs -> forallb is_scalar s = true.
Proof.
  revert bs. induction s as [|c s IH]; intros bs; [reflexivity|].
  cbn [encode forallb].
  destruct (encode_char c) as [e|] eqn:Ec; [|discriminate].
  destruct (encode s) as [es|]; [|discriminate]. intros _.
  rewrite (IH es eq_refl), andb_true_r.
  revert Ec. unfold encode_char, is_scalar.
  destruct (is_surrogate c) eqn:S.
  - unfold is_surrogate in S. apply andb_true_iff in S.
    destruct S as [S1 S2]. apply N.leb_le in S1. apply N.leb_le in S2.
    break_tests; discriminate.
  - cbn [negb]. rewrite andb_true_r.
    break_tests; try discriminate; try reflexivity.
Qed.

(** [quote] raises exactly on the strings that hold a code point that is
    not a Unicode scalar value. *)
Lemma quote_none_iff s : quote s [] = None <-> forallb is_scalar s = false.
Proof.
  unfold quote. split.
  - destruct (encode s) as [bs|] eqn:E; [discriminate|]. intros _.
    destruct (forallb is_scalar s) eqn:F; [|reflexivity].
    destruct (encode_total s F) as (bs & E'). congruence.
  - intros F. destruct (encode s) as [bs|] eqn:E; [|reflexivity].
    apply encode_some_scalar in E. congruence.
Qed.

Lemma upgrade_scheme_scalar a :
  forallb is_scalar (upgrade_scheme a) = forallb is_scalar a.
Proof.
  unfold upgrade_scheme. destruct (startswith a (py "http://")) eqn:H;
    [|reflexivity].
  apply startswith_iff in H. destruct H as (rest & ->).
  change (skipn (List.length (py "http://")) (py "http://" ++ rest)) with rest.
  rewrite !forallb_app. reflexivity.
Qed.

Lemma upgrade_scheme_not_http a :
  startswith (upgrade_scheme a) (py "http://") = false.
Proof.
  unfold upgrade_scheme. destruct (startswith a (py "http://")) eqn:H;
    [reflexivity | exact H].
Qed.

(** X4: no reference the rewriter writes carries a URL that begins with
    [http://]: decoded, the query value of every reference is the resolved
    URL after the upgrade, which never has that prefix. *)
Theorem references_never_plain_http (netloc_check : str -> bool)
    (ln base prox : str) :
  rewrite_uri netloc_check ln base = Some prox ->
  exists q,
    prox = py "/proxy?u=" ++ q /\
    startswith (unquote q) (py "http://") = false.
Proof.
  intros H. destruct (proxy_reference_decodes _ _ _ _ H) as (absu & q & _ & -> & U).
  exists q. split; [reflexivity|]. rewrite U. apply upgrade_scheme_not_http.
Qed.

Lemma references_never_plain_http_witness :
  exists q,
    py "/proxy?u=https%3A%2F%2Fcdn.example.com%2Fseg2.ts" = py "/proxy?u=" ++ q /\
    startswith (unquote q) (py "http://") = false.
Proof.
  apply (references_never_plain_http accept_netloc
           (py "http://cdn.example.com/seg2.ts")
           (py "https://origin.example.com/path/")).
  vm_compute. reflexivity.
Defined.

(** X5: after the prefix [/proxy?u=], a reference holds only unreserved
    characters (letters, digits, [_.-~]) and percent signs; so the URL it
    carries cannot end the query value or add a parameter, a fragment or a
    line to the manifest. *)
Theorem references_fully_escaped (netloc_check : str -> bool)
    (ln base prox : str) :
  rewrite_uri netloc_check ln base = Some prox ->
  exists q, prox = py "/proxy?u=" ++ q /\ forallb query_char q = true.
Proof.
  unfold rewrite_uri.
  destruct (resolve_absolute netloc_check (strip ln) base) as [absu|];
    [|discriminate].
  destruct (quote (upgrade_scheme absu) []) as [q|] eqn:Q; [|discriminate].
  intros E; apply Some_inj in E; subst prox.
  exists q. split; [reflexivity|]. now apply quote_query_chars in Q.
Qed.

Lemma references_fully_escaped_witness :
  exists q,
    py "/proxy?u=https%3A%2F%2Fh%2Fa%26b%3Fc%3Dd%23e%20f" = py "/proxy?u=" ++ q /\
    forallb query_char q = true.
Proof.
  apply (references_fully_escaped accept_netloc (py "https://h/a&b?c=d#e f")
           (py "https://origin.example.com/path/")).
  vm_compute. reflexivity.
Defined.

(** X6: two lines are given the same reference only when they resolve to
    the same URL after the scheme upgrade. *)
Theorem same_reference_same_url (netloc_check : str -> bool)
    (ln1 base1 ln2 base2 a1 a2 prox : str) :
  resolve_absolute netloc_check (strip ln1) base1 = Some a1 ->
  resolve_absolute netloc_check (strip ln2) base2 = Some a2 ->
  rewrite_uri netloc_check ln1 base1 = Some prox ->
  rewrite_uri netloc_check ln2 base2 = Some prox ->
  upgrade_scheme a1 = upgrade_scheme a2.
Proof.
  unfold rewrite_uri. intros -> ->.
  destruct (quote (upgrade_scheme a1) []) as [q1|] eqn:Q1; [|discriminate].
  destruct (quote (upgrade_scheme a2) []) as [q2|] eqn:Q2; [|discriminate].
  intros E1 E2. apply Some_inj in E1. apply Some_inj in E2. subst prox.
  apply app_inv_head in E2. subst q2.
  apply unquote_quote in Q1. apply unquote_quote in Q2. congruence.
Qed.

Lemma same_reference_same_url_witness :
  upgrade_scheme (py "http://cdn.example.com/seg2.ts")
  = upgrade_scheme (py "https://cdn.example.com/seg2.ts").
Proof.
  apply (same_reference_same_url accept_netloc
           (py "http://cdn.example.com/seg2.ts") (py "https://a/")
           (py "  https://cdn.example.com/seg2.ts ") (py "https://b/c/")
           _ _ (py "/proxy?u=https%3A%2F%2Fcdn.example.com%2Fseg2.ts"));
    vm_compute; reflexivity.
Defined.

(** X7: the rewriting of a line raises exactly when [urljoin] raises for
    it or the URL it resolves to holds a code point that is not a Unicode
    scalar value (a lone surrogate), which [quote] cannot encode. *)
Theorem rewrite_uri_raises_iff (netloc_check : str -> bool) (ln base : str) :
  rewrite_uri netloc_check ln base = None <->
  resolve_absolute netloc_check (strip ln) base = None \/
  exists absu,
    resolve_absolute netloc_check (strip ln) base = Some absu /\
    forallb is_scalar absu = false.
Proof.
  unfold rewrite_uri.
  destruct (resolve_absolute netloc_check (strip ln) base) as [absu|].
  - destruct (quote (upgrade_scheme absu) []) as [q|] eqn:Q.
    + split; [discriminate|]. intros [H | (a & H & F)]; [discriminate|].
      apply Some_inj in H. subst a.
      rewrite <- upgrade_scheme_scalar in F. apply quote_none_iff in F.
      congruence.
    + split; [|reflexivity]. intros _. right. exists absu.
      split; [reflexivity|]. rewrite <- upgrade_scheme_scalar.
      now apply quote_none_iff.
  - split; [now left | reflexivity].
Qed.

Lemma rewrite_uri_raises_iff_witness :
  rewrite_uri accept_netloc (py "//[cdn/seg2.ts")
    (py "https://origin.example.com/path/") = None.
Proof.
  apply (proj2 (rewrite_uri_raises_iff accept_netloc (py "//[cdn/seg2.ts")
                  (py "https://origin.example.com/path/"))).
  left. vm_compute. reflexivity.
Defined.

(** ** Absolute lines *)

Lemma forallb_dropwhile {f g : char -> bool} s :
  forallb f s = true -> forallb f (dropwhile g s) = true.
Proof.
  induction s as [|c s IH]; [reflexivity|]. cbn [forallb dropwhile].
  intros H. destruct (g c); [|exact H].
  apply andb_true_iff in H. now apply IH.
Qed.

Lemma forallb_rev (f : char -> bool) s : forallb f (rev s) = forallb f s.
Proof.
  induction s as [|c s IH]; [reflexivity|]. cbn [rev forallb].
  rewrite forallb_app, IH. cbn [forallb]. rewrite andb_true_r.
  apply andb_comm.
Qed.

Lemma forallb_strip (f : char -> bool) s :
  forallb f s = true -> forallb f (strip s) = true.
Proof.
  intros H. unfold strip, rstrip, lstrip. rewrite forallb_rev.
  apply forallb_dropwhile. rewrite forallb_rev. now apply forallb_dropwhile.
Qed.

(** X8: a line that, trimmed, begins with [http://] or [https://] is never
    joined to the base: whatever the target of the manifest, its reference
    decodes to the trimmed line itself after the scheme upgrade, and its
    rewriting cannot raise when the line holds only Unicode scalar
    values. *)
Theorem absolute_line_ignores_base (netloc_check : str -> bool)
    (ln base : str) :
  startswith (strip ln) (py "http://") = true
  \/ startswith (strip ln) (py "https://") = true ->
  forallb is_scalar ln = true ->
  exists q,
    rewrite_uri netloc_check ln base = Some (py "/proxy?u=" ++ q) /\
    unquote q = upgrade_scheme (strip ln).
Proof.
  intros H F. unfold rewrite_uri, resolve_absolute.
  assert (A : startswith (strip ln) (py "http://")
              || startswith (strip ln) (py "https://") = true)
    by (apply orb_true_iff; exact H).
  rewrite A.
  assert (S : forallb is_scalar (upgrade_scheme (strip ln)) = true)
    by (rewrite upgrade_scheme_scalar; now apply forallb_strip).
  destruct (quote (upgrade_scheme (strip ln)) []) as [q|] eqn:Q.
  - exists q. split; [reflexivity|]. now apply unquote_quote.
  - apply quote_none_iff in Q. congruence.
Qed.

Lemma absolute_line_ignores_base_witness :
  exists q,
    rewrite_uri accept_netloc (py "  http://cdn.example.com/seg2.ts ")
      (py "https://origin.example.com/path/") = Some (py "/proxy?u=" ++ q) /\
    unquote q = upgrade_scheme (strip (py "  http://cdn.example.com/seg2.ts ")).
Proof.
  apply (absolute_line_ignores_base accept_netloc
           (py "  http://cdn.example.com/seg2.ts ")
           (py "https://origin.example.com/path/")).
  - left. reflexivity.
  - reflexivity.
Defined.

(** ** White space around a line *)

Lemma dropwhile_app_all f a s :
  forallb f a = true -> dropwhile f (a ++ s) = dropwhile f s.
Proof.
  induction a as [|c a IH]; [reflexivity|]. cbn [forallb app dropwhile].
  intros H. apply andb_true_iff in H. destruct H as [-> Ha]. now apply IH.
Qed.

Lemma lstrip_app_stop s b :
  lstrip s <> [] -> lstrip (s ++ b) = lstrip s ++ b.
Proof.
  unfold lstrip. induction s as [|c s IH]; [contradiction|].
  cbn [app dropwhile]. destruct (isspace c); [exact IH|reflexivity].
Qed.

Lemma rstrip_app_all s b :
  forallb isspace b = true -> rstrip (s ++ b) = rstrip s.
Proof.
  intros H. unfold rstrip. rewrite rev_app_distr.
  rewrite dropwhile_app_all; [reflexivity|]. rewrite forallb_rev. exact H.
Qed.

Lemma strip_padded a s b :
  forallb isspace a = true -> forallb isspace b = true ->
  strip (a ++ s ++ b) = strip s.
Proof.
  intros Ha Hb. unfold strip.
  replace (lstrip (a ++ s ++ b)) with (lstrip (s ++ b))
    by (unfold lstrip; now rewrite (dropwhile_app_all isspace a)).
  destruct (lstrip s) as [|c t] eqn:L.
  - assert (S : forallb isspace s = true).
    { clear - L. unfold lstrip in L. induction s as [|d s IH]; [reflexivity|].
      cbn [dropwhile forallb] in *. destruct (isspace d); [|discriminate].
      now apply IH. }
    unfold lstrip.
    rewrite dropwhile_all by (rewrite forallb_app, S, Hb; reflexivity).
    reflexivity.
  - rewrite lstrip_app_stop by (rewrite L; discriminate).
    rewrite L. now apply rstrip_app_all.
Qed.

(** X9: white space before and after a line that is to be rewritten does
    not change its reference. *)
Theorem padding_does_not_change_reference (netloc_check : str -> bool)
    (a ln b base : str) :
  forallb isspace a = true -> forallb isspace b = true ->
  rewrite_uri netloc_check (a ++ ln ++ b) base
  = rewrite_uri netloc_check ln base.
Proof.
  intros Ha Hb. unfold rewrite_uri. now rewrite strip_padded.
Qed.

Lemma padding_does_not_change_reference_witness :
  rewrite_uri accept_netloc (py "  " ++ py "seg1.ts" ++ [9; 32])
    (py "https://origin.example.com/path/")
  = rewrite_uri accept_netloc (py "seg1.ts")
      (py "https://origin.example.com/path/").
Proof.
  apply (padding_does_not_change_reference accept_netloc (py "  ")
           (py "seg1.ts") [9; 32] (py "https://origin.example.com/path/"));
    reflexivity.
Defined.

(** ** Line endings *)

Lemma splitlines_from_line l c rest : forall acc,
  one_line l = true -> is_linebreak c = true ->
  (c = 13 -> hd_error rest <> Some 10) ->
  splitlines_from (l ++ c :: rest) acc = (acc ++ l) :: splitlines_from rest [].
Proof.
  unfold one_line. induction l as [|d l IH]; intros acc Hl Hc Hr.
  - cbn [app splitlines_from]. rewrite Hc, app_nil_r. f_equal.
    destruct rest as [|c' rest']; [reflexivity|].
    destruct (N.eqb_spec c 13) as [E|]; [|reflexivity].
    destruct (N.eqb_spec c' 10) as [->|]; [|reflexivity].
    now destruct (Hr E).
  - cbn [forallb] in Hl. apply andb_true_iff in Hl. destruct Hl as [Hd Hl].
    cbn [app splitlines_from].
    destruct (is_linebreak d); [discriminate|].
    rewrite (IH _ Hl Hc Hr), <- app_assoc. reflexivity.
Qed.

Lemma splitlines_from_crlf_line l rest : forall acc,
  one_line l = true ->
  splitlines_from (l ++ 13 :: 10 :: rest) acc
  = (acc ++ l) :: splitlines_from rest [].
Proof.
  unfold one_line. induction l as [|d l IH]; intros acc Hl.
  - cbn [app splitlines_from]. now rewrite app_nil_r.
  - cbn [forallb] in Hl. apply andb_true_iff in Hl. destruct Hl as [Hd Hl].
    cbn [app splitlines_from].
    destruct (is_linebreak d); [discriminate|].
    rewrite (IH _ Hl), <- app_assoc. reflexivity.
Qed.

Lemma terminated_cr_head lines :
  Forall (fun l => one_line l = true) lines ->
  hd_error (terminated [13] lines) <> Some 10.
Proof.
  intros F. destruct F as [|l ls Hl _]; [discriminate|].
  unfold terminated. cbn [flat_map]. destruct l as [|d l]; [discriminate|].
  cbn [app hd_error]. intros E. apply Some_inj in E. subst d.
  discriminate Hl.
Qed.

(** [splitlines] gives back the lines of a text in which every line is
    followed by one line boundary, or by CR LF. *)
Lemma splitlines_terminated eol lines :
  (exists c, eol = [c] /\ is_linebreak c = true) \/ eol = [13; 10] ->
  Forall (fun l => one_line l = true) lines ->
  splitlines (terminated eol lines) = lines.
Proof.
  intros He F. unfold splitlines.
  induction F as [|l ls Hl Hls IH]; [reflexivity|].
  unfold terminated in *. cbn [flat_map]. rewrite <- app_assoc.
  destruct He as [(c & -> & Hc) | ->].
  - cbn [app].
    rewrite splitlines_from_line; [now rewrite IH | assumption | assumption |].
    intros ->. now apply terminated_cr_head.
  - cbn [app]. rewrite splitlines_from_crlf_line by assumption. now rewrite IH.
Qed.

(** X10: the rewriter does not see which line ending a playlist uses: the
    same lines, each followed by LF, by CR LF, by CR or by any other line
    boundary of [splitlines], give the same result. *)
Theorem line_ending_does_not_matter (netloc_check : str -> bool)
    (eol : str) (lines : list str) (target : str) :
  (exists c, eol = [c] /\ is_linebreak c = true) \/ eol = [13; 10] ->
  Forall (fun l => one_line l = true) lines ->
  rewrite_text netloc_check (terminated eol lines) target
  = rewrite_text netloc_check (terminated nl lines) target.
Proof.
  intros He F. unfold rewrite_text.
  rewrite (splitlines_terminated eol lines He F).
  rewrite (splitlines_terminated nl lines); [reflexivity | | assumption].
  left. now exists 10.
Qed.

Lemma line_ending_does_not_matter_witness :
  rewrite_text accept_netloc
    (terminated [13; 10] [py "#EXTM3U"; []; py "seg1.ts"])
    (py "https://origin.example.com/path/index.m3u8")
  = rewrite_text accept_netloc
      (terminated nl [py "#EXTM3U"; []; py "seg1.ts"])
      (py "https://origin.example.com/path/index.m3u8").
Proof.
  apply (line_ending_does_not_matter accept_netloc [13; 10]
           [py "#EXTM3U"; []; py "seg1.ts"]
           (py "https://origin.example.com/path/index.m3u8")).
  - right. reflexivity.
  - repeat constructor.
Defined.

(** ** The headers of the replies *)

Section Replies.

Variable str_lower : str -> str.
Variable netloc_check : str -> bool.

(** A view answers with a plain message or with what it makes of an
    upstream response. *)
Lemma proxy_reply_cases net args :
  (exists m st,
     fst (run (proxy str_lower netloc_check net args)) = Some (Plain m st)) \/
  (exists r u,
     args_get args (py "u") = Some u /\
     fst (run (proxy str_lower netloc_check net args))
     = proxy_respond str_lower netloc_check r (unquote u)).
Proof.
  destruct (args_get args (py "u")) as [u|] eqn:Hu.
  - destruct (is_empty u) eqn:Hne.
    + left. unfold proxy, run, ret. rewrite Hu, Hne. do 2 eexists; reflexivity.
    + rewrite (proxy_run _ _ _ _ _ Hu Hne). cbv zeta.
      repeat match goal with
             | |- context [net ?c] => destruct (net c) as [?r|]
             end; cbn [fst];
        solve [ right; do 2 eexists; split; reflexivity
              | left; do 2 eexists; reflexivity ].
  - left. unfold proxy, run, ret. rewrite Hu. do 2 eexists; reflexivity.
Qed.

Lemma download_reply_cases net args :
  (exists m st,
     fst (run (download str_lower netloc_check net args))
     = Some (Plain m st)) \/
  (exists r u,
     args_get args (py "u") = Some u /\
     fst (run (download str_lower netloc_check net args))
     = download_respond str_lower netloc_check r (unquote u)).
Proof.
  destruct (args_get args (py "u")) as [u|] eqn:Hu.
  - destruct (is_empty u) eqn:Hne.
    + left. unfold download, run, ret. rewrite Hu, Hne. do 2 eexists; reflexivity.
    + rewrite (download_run _ _ _ _ _ Hu Hne). cbv zeta.
      repeat match goal with
             | |- context [net ?c] => destruct (net c) as [?r|]
             end; cbn [fst];
        solve [ right; do 2 eexists; split; reflexivity
              | left; do 2 eexists; reflexivity ].
  - left. unfold download, run, ret. rewrite Hu. do 2 eexists; reflexivity.
Qed.

(** The [Response] that [proxy] returns is one of the two it builds. *)
Lemma proxy_respond_Resp r target b st headers :
  proxy_respond str_lower netloc_check r target = Some (Resp b st headers) ->
  (exists out,
     b = Text out /\ st = 200%Z /\ headers = manifest_headers) \/
  (b = Stream (content r) /\ st = status_code r /\
   headers = [ (py "Content-Type", relayed_type r);
               (py "Access-Control-Allow-Origin", py "*");
               (py "Cache-Control", py "no-cache") ]).
Proof.
  unfold proxy_respond. destruct (is_manifest _ _ _).
  - destruct (rewrite_manifest _ _ _) as [out|]; [|discriminate].
    match goal with
    | |- context [Response ?x ?y ?z] =>
        destruct (Response_cases x y z) as [-> | ->]; [|discriminate]
    end.
    intros [= <- <- <-]. left. now exists out.
  - match goal with
    | |- context [Response ?x ?y ?z] =>
        destruct (Response_cases x y z) as [-> | ->]; [|discriminate]
    end.
    intros [= <- <- <-]. now right.
Qed.

(** The [Response] that [download] returns is one of the two it builds. *)
Lemma download_respond_Resp r target b st headers :
  download_respond str_lower netloc_check r target
  = Some (Resp b st headers) ->
  (exists out,
     b = Text out /\ st = 200%Z /\
     headers = [ (py "Content-Type", py "application/vnd.apple.mpegurl");
                 (py "Content-Disposition",
                  content_disposition (filename_of target));
                 (py "Access-Control-Allow-Origin", py "*");
                 (py "Cache-Control", py "no-cache") ]) \/
  (b = Stream (content r) /\ st = status_code r /\
   headers = [ (py "Content-Type",
                tested_type str_lower r (py "application/octet-stream"));
               (py "Content-Disposition",
                content_disposition (filename_of target));
               (py "Access-Control-Allow-Origin", py "*");
               (py "Cache-Control", py "no-cache") ]).
Proof.
  unfold download_respond. destruct (is_manifest _ _ _).
  - destruct (rewrite_manifest _ _ _) as [out|]; [|discriminate].
    match goal with
    | |- context [Response ?x ?y ?z] =>
        destruct (Response_cases x y z) as [-> | ->]; [|discriminate]
    end.
    intros [= <- <- <-]. left. now exists out.
  - match goal with
    | |- context [Response ?x ?y ?z] =>
        destruct (Response_cases x y z) as [-> | ->]; [|discriminate]
    end.
    intros [= <- <- <-]. now right.
Qed.

(** X11: every reply that a view builds as a [Response], a rewritten
    manifest or a streamed body, allows any origin and forbids caching. *)
Theorem responses_allow_any_origin_uncached
    (net : FetchCall -> option Upstream) (args : Args) (b : Body) (st : Z)
    (headers : dict) :
  fst (run (proxy str_lower netloc_check net args))
  = Some (Resp b st headers) \/
  fst (run (download str_lower netloc_check net args))
  = Some (Resp b st headers) ->
  dict_get headers (py "Access-Control-Allow-Origin") = Some (py "*") /\
  dict_get headers (py "Cache-Control") = Some (py "no-cache").
Proof.
  intros [H | H].
  - destruct (proxy_reply_cases net args) as [(m & s & E) | (r & u & _ & E)];
      rewrite E in H; [discriminate|]. clear E.
    apply proxy_respond_Resp in H.
    destruct H as [(out & _ & _ & ->) | (_ & _ & ->)]; split; reflexivity.
  - destruct (download_reply_cases net args) as [(m & s & E) | (r & u & _ & E)];
      rewrite E in H; [discriminate|]. clear E.
    apply download_respond_Resp in H.
    destruct H as [(out & _ & _ & ->) | (_ & _ & ->)]; split; reflexivity.
Qed.

(** X12: the content type of a reply.  A rewritten manifest is always
    served as [application/vnd.apple.mpegurl].  A streamed body is served by
    [proxy] with the upstream header as it came, or
    [application/octet-stream] when there was none, and by [download] with
    the lowered header, or [application/octet-stream] lowered when the
    header was missing or empty. *)
Theorem reply_content_type (r : Upstream) (target : str) (b : Body) (st : Z)
    (headers : dict) :
  (proxy_respond str_lower netloc_check r target = Some (Resp b st headers) ->
   dict_get headers (py "Content-Type") =
   Some match b with
        | Text _ => py "application/vnd.apple.mpegurl"
        | Stream _ =>
            match content_type r with
            | Some c => c
            | None => py "application/octet-stream"
            end
        end) /\
  (download_respond str_lower netloc_check r target
   = Some (Resp b st headers) ->
   dict_get headers (py "Content-Type") =
   Some match b with
        | Text _ => py "application/vnd.apple.mpegurl"
        | Stream _ =>
            str_lower (or_default (content_type r)
                                  (py "application/octet-stream"))
        end).
Proof.
  split; intros H.
  - apply proxy_respond_Resp in H.
    destruct H as [(out & -> & _ & ->) | (-> & _ & ->)]; reflexivity.
  - apply download_respond_Resp in H.
    destruct H as [(out & -> & _ & ->) | (-> & _ & ->)]; reflexivity.
Qed.

(** X13: every [Response] of [download] is an attachment whose file name
    is the one derived from the target, and that name is never empty; no
    [Response] of [proxy] has a [Content-Disposition] header. *)
Theorem attachment_only_on_download (r : Upstream) (target : str) (b : Body)
    (st : Z) (headers : dict) :
  (download_respond str_lower netloc_check r target
   = Some (Resp b st headers) ->
   dict_get headers (py "Content-Disposition")
   = Some (py "attachment; filename=" ++ [34] ++ filename_of target ++ [34])
   /\ filename_of target <> []) /\
  (proxy_respond str_lower netloc_check r target = Some (Resp b st headers) ->
   dict_get headers (py "Content-Disposition") = None).
Proof.
  split; intros H.
  - apply download_respond_Resp in H.
    destruct H as [(out & _ & _ & ->) | (_ & _ & ->)];
      (split; [reflexivity|]);
      unfold filename_of, str_or;
      destruct (unquote _); discriminate.
  - apply proxy_respond_Resp in H.
    destruct H as [(out & _ & _ & ->) | (_ & _ & ->)]; reflexivity.
Qed.

(** X14: when both views return for the same upstream response and target,
    they answer with the same status and, where a [Response] is built, with
    the same body, with one exception: [download] answers 500 where [proxy]
    serves the rewritten manifest when the attachment header cannot be
    built, its file name holding a line break.  [str_lower] is any lowering
    function that is the ASCII one on ASCII text. *)
Theorem views_same_status_and_body (r : Upstream) (target : str)
    (p d : ViewResult) :
  (forall s, isascii s = true -> str_lower s = ascii_lower s) ->
  proxy_respond str_lower netloc_check r target = Some p ->
  download_respond str_lower netloc_check r target = Some d ->
  (status_of p = status_of d /\ reply_body p = reply_body d) \/
  (exists out,
     p = Resp (Text out) 200%Z manifest_headers /\
     d = Plain (py "Failed to rewrite manifest") 500%Z /\
     header_value_ok (content_disposition (filename_of target)) = false).
Proof.
  intros Hlow. unfold proxy_respond, download_respond.
  assert (E : is_manifest str_lower target
                (str_lower (or_default (content_type r) []))
              = is_manifest str_lower target
                  (str_lower (or_default (content_type r)
                                         (py "application/octet-stream")))).
  { rewrite !is_manifest_two_tests. f_equal.
    destruct (content_type r) as [c|]; cbn [or_default].
    - unfold str_or. destruct c; [|reflexivity]. cbn [is_empty].
      now rewrite !Hlow.
    - now rewrite !Hlow. }
  rewrite E. clear E.
  destruct (is_manifest str_lower target
              (str_lower (or_default (content_type r)
                                     (py "application/octet-stream")))).
  - destruct (rewrite_manifest netloc_check r target) as [out|].
    + rewrite !Response_text, proxy_headers_ok, download_headers_ok,
        manifest_type_ok.
      fold manifest_headers.
      destruct (encodable out),
        (header_value_ok (content_disposition (filename_of target))) eqn:Hd;
        cbn [andb]; intros [= <-] [= <-];
        solve [ left; split; reflexivity | right; now exists out ].
    + intros [= <-] [= <-]. left. split; reflexivity.
  - rewrite !Response_stream.
    repeat match goal with
           | |- context [if ?c then Some _ else None] => destruct c
           end; try discriminate.
    intros [= <-] [= <-]. left. split; reflexivity.
Qed.

End Replies.

Lemma responses_allow_any_origin_uncached_witness :
  dict_get manifest_headers (py "Access-Control-Allow-Origin") = Some (py "*") /\
  dict_get manifest_headers (py "Cache-Control") = Some (py "no-cache").
Proof.
  apply (responses_allow_any_origin_uncached ascii_lower accept_netloc
           (fun _ => Some (mkUpstream 200%Z
                             (Some (py "application/vnd.apple.mpegurl"))
                             (Some scenario1_text) []))
           [(py "u", scenario1_target)] (Text scenario1_out) 200%Z
           manifest_headers).
  left. vm_compute. reflexivity.
Defined.

Lemma reply_content_type_witness :
  dict_get
    [ (py "Content-Type", py "video/mp2t");
      (py "Content-Disposition", content_disposition (py "a.ts"));
      (py "Access-Control-Allow-Origin", py "*");
      (py "Cache-Control", py "no-cache") ]
    (py "Content-Type")
  = Some (py "video/mp2t").
Proof.
  apply (proj2 (reply_content_type ascii_lower accept_netloc
                  (mkUpstream 206%Z (Some (py "Video/MP2T")) None [1; 2])
                  (py "https://host/video/a.ts") (Stream [1; 2]) 206%Z _)).
  vm_compute. reflexivity.
Defined.

Lemma attachment_only_on_download_witness :
  dict_get
    [ (py "Content-Type", py "video/mp2t");
      (py "Content-Disposition", content_disposition (py "a.ts"));
      (py "Access-Control-Allow-Origin", py "*");
      (py "Cache-Control", py "no-cache") ]
    (py "Content-Disposition")
  = Some (py "attachment; filename=" ++ [34]
          ++ filename_of (py "https://host/video/a.ts") ++ [34])
  /\ filename_of (py "https://host/video/a.ts") <> [].
Proof.
  apply (proj1 (attachment_only_on_download ascii_lower accept_netloc
                  (mkUpstream 206%Z (Some (py "Video/MP2T")) None [1; 2])
                  (py "https://host/video/a.ts") (Stream [1; 2]) 206%Z _)).
  vm_compute. reflexivity.
Defined.

(** A playlist fetched for a target whose last segment holds a line
    break: [proxy] serves it, [download] cannot build its attachment
    header. *)
Lemma views_same_status_and_body_witness :
  let r :=
    mkUpstream 404%Z (Some (py "application/x-mpegurl")) (Some (py "#EXTM3U"))
               [] in
  let target := unquote (py "https://h/a%0Ab") in
  proxy_respond ascii_lower accept_netloc r target
  = Some (Resp (Text (py "#EXTM3U")) 200%Z manifest_headers) /\
  download_respond ascii_lower accept_netloc r target
  = Some (Plain (py "Failed to rewrite manifest") 500%Z) /\
  header_value_ok (content_disposition (filename_of target)) = false.
Proof.
  split; [vm_compute; reflexivity|]. split; [vm_compute; reflexivity|].
  destruct (views_same_status_and_body ascii_lower accept_netloc
              (mkUpstream 404%Z (Some (py "application/x-mpegurl"))
                          (Some (py "#EXTM3U")) [])
              (unquote (py "https://h/a%0Ab"))
              (Resp (Text (py "#EXTM3U")) 200%Z manifest_headers)
              (Plain (py "Failed to rewrite manifest") 500%Z)
              (fun s _ => eq_refl) eq_refl eq_refl)
    as [[H _] | (out & _ & _ & H)]; [discriminate H | exact H].
Defined.

(** ** Relative lines *)

Lemma forallb_has_char (P : char -> bool) s x :
  forallb P s = true -> P x = false -> has_char s x = false.
Proof.
  unfold has_char. intros H Hx. induction s as [|c s IH]; [reflexivity|].
  cbn [forallb existsb] in *. apply andb_true_iff in H. destruct H as [Hc Hs].
  rewrite (IH Hs), orb_false_r. destruct (N.eqb_spec x c) as [->|];
    [congruence | reflexivity].
Qed.

Lemma remove_char_absent s c : has_char s c = false -> remove_char s c = s.
Proof.
  unfold has_char, remove_char. induction s as [|d s IH]; [reflexivity|].
  cbn [existsb filter]. intros H. apply orb_false_iff in H.
  destruct H as [Hd Hs]. rewrite N.eqb_sym, Hd. cbn [negb].
  now rewrite (IH Hs).
Qed.

Lemma split1_absent s c : has_char s c = false -> split1 s c = (s, None).
Proof.
  unfold has_char. induction s as [|d s IH]; [reflexivity|].
  cbn [existsb split1]. intros H. apply orb_false_iff in H.
  destruct H as [Hd Hs]. rewrite N.eqb_sym, Hd. now rewrite (IH Hs).
Qed.

Lemma forallb_weaken (P Q : char -> bool) s :
  (forall c, P c = true -> Q c = true) ->
  forallb P s = true -> forallb Q s = true.
Proof.
  intros PQ. induction s as [|c s IH]; [reflexivity|]. cbn [forallb].
  intros H. apply andb_true_iff in H. destruct H as [Hc Hs].
  now rewrite (PQ _ Hc), (IH Hs).
Qed.

Lemma always_safe_path_char c : always_safe c = true -> path_char c = true.
Proof. unfold path_char. now intros ->. Qed.

(** What a character of a plain path is not. *)
Lemma path_char_ascii c : path_char c = true -> (c <? 128) = true.
Proof.
  unfold path_char, always_safe, is_upper, is_lower, is_digit.
  break_tests; (discriminate || reflexivity).
Qed.

Lemma path_char_not_c0 c : path_char c = true -> c0_or_space c = false.
Proof.
  unfold path_char, always_safe, is_upper, is_lower, is_digit, c0_or_space.
  break_tests; (discriminate || reflexivity).
Qed.

Lemma remove_unsafe_plain s : forallb path_char s = true -> remove_unsafe s = s.
Proof.
  intros H. unfold remove_unsafe.
  rewrite (remove_char_absent s 9)
    by now apply (forallb_has_char path_char).
  rewrite (remove_char_absent s 13)
    by now apply (forallb_has_char path_char).
  apply remove_char_absent. now apply (forallb_has_char path_char).
Qed.

Lemma dropwhile_stop f c s : f c = false -> dropwhile f (c :: s) = c :: s.
Proof. intros H. cbn [dropwhile]. now rewrite H. Qed.

Lemma span_netloc_host host rest :
  forallb always_safe host = true ->
  span_netloc (host ++ 47 :: rest) = (host, 47 :: rest).
Proof.
  induction host as [|c h IH]; [reflexivity|]. cbn [forallb app span_netloc].
  intros H. apply andb_true_iff in H. destruct H as [Hc Hh].
  rewrite (IH Hh).
  assert (E : (c =? 47) || (c =? 63) || (c =? 35) = false).
  { revert Hc. unfold always_safe, is_upper, is_lower, is_digit.
    break_tests; (discriminate || reflexivity). }
  now rewrite E.
Qed.

Lemma split_join (sep : N) names :
  names <> [] -> Forall (fun l => has_char l sep = false) names ->
  split (join [sep] names) sep = names.
Proof.
  intros Hne F. induction F as [|l ls Hl Hls IH]; [contradiction|].
  destruct ls as [|l' ls'].
  - cbn [join]. now apply split_no_sep.
  - change (join [sep] (l :: l' :: ls'))
      with (l ++ sep :: join [sep] (l' :: ls')).
    rewrite (split_app_sep _ _ _ Hl). f_equal. apply IH. discriminate.
Qed.

Lemma split_terminated (sep : N) dirs :
  Forall (fun l => has_char l sep = false) dirs ->
  split (terminated [sep] dirs) sep = dirs ++ [[]].
Proof.
  unfold terminated. induction 1 as [|l ls Hl _ IH]; [reflexivity|].
  cbn [flat_map]. rewrite <- app_assoc. cbn [app].
  now rewrite (split_app_sep _ _ _ Hl), IH.
Qed.

Lemma join_terminated (sep : N) dirs names :
  names <> [] ->
  join [sep] (dirs ++ names) = terminated [sep] dirs ++ join [sep] names.
Proof.
  intros Hne. unfold terminated.
  induction dirs as [|d ds IH]; [reflexivity|].
  cbn [app flat_map]. rewrite <- app_assoc, <- IH.
  destruct (ds ++ names) eqn:E; [|now rewrite <- app_assoc].
  apply app_eq_nil in E. now destruct E.
Qed.

Lemma plain_segment_facts s :
  plain_segment s = true ->
  s <> [] /\ forallb always_safe s = true /\
  str_eqb s (py ".") = false /\ str_eqb s (py "..") = false.
Proof.
  unfold plain_segment. intros H.
  apply andb_true_iff in H. destruct H as [H H4].
  apply andb_true_iff in H. destruct H as [H H3].
  apply andb_true_iff in H. destruct H as [H1 H2].
  repeat split.
  - intros ->. discriminate H1.
  - exact H2.
  - now apply negb_true_iff.
  - now apply negb_true_iff.
Qed.

Lemma plain_segment_no_slash s : plain_segment s = true -> has_char s 47 = false.
Proof.
  intros H. apply plain_segment_facts in H. destruct H as (_ & H & _).
  now apply (forallb_has_char always_safe).
Qed.

(** The loop over the segments changes nothing when no segment is [.] or
    [..]. *)
Lemma resolve_segments_plain segments :
  Forall (fun s => str_eqb s (py ".") = false /\ str_eqb s (py "..") = false)
         segments ->
  resolve_segments segments = segments.
Proof.
  unfold resolve_segments. intros F.
  enough (G : forall acc,
             fold_left
               (fun resolved_path seg =>
                  if str_eqb seg (py "..") then removelast resolved_path
                  else if str_eqb seg (py ".") then resolved_path
                       else resolved_path ++ [seg]) segments acc
             = acc ++ segments) by apply (G []).
  induction F as [|s ss [H1 H2] _ IH]; intros acc; cbn [fold_left].
  - now rewrite app_nil_r.
  - rewrite H1, H2, IH, <- app_assoc. reflexivity.
Qed.

Lemma filter_nonempty_all segs :
  Forall (fun s : str => s <> []) segs ->
  filter (fun s => negb (is_empty s)) segs = segs.
Proof.
  induction 1 as [|s ss Hs _ IH]; [reflexivity|]. cbn [filter].
  destruct s; [contradiction|]. cbn [is_empty negb]. now rewrite IH.
Qed.

(** The slice assignment of [urljoin] on the segments of a directory
    followed by those of a relative path. *)
Lemma filter_middle_directory dirs names :
  Forall (fun s : str => s <> []) dirs ->
  Forall (fun s : str => s <> []) names -> names <> [] ->
  filter_middle (([] :: dirs ++ [[]]) ++ names) = [] :: dirs ++ names.
Proof.
  intros Fd Fn Hne. unfold filter_middle. cbn [app].
  match goal with
  | |- match ?t with _ => _ end = _ => destruct t as [|x rest] eqn:E
  end.
  { apply app_eq_nil in E. destruct E as [E _].
    apply app_eq_nil in E. destruct E as [_ E]. discriminate E. }
  rewrite <- E. clear x rest E. f_equal.
  rewrite <- app_assoc.
  rewrite (app_removelast_last [] Hne) at 1 2.
  rewrite !app_assoc, removelast_last, last_last.
  rewrite <- !app_assoc.
  rewrite !filter_app. cbn [filter is_empty negb app].
  rewrite (filter_nonempty_all dirs Fd).
  rewrite filter_nonempty_all.
  - rewrite <- app_assoc. f_equal. symmetry. now apply app_removelast_last.
  - clear - Fn Hne. induction Fn as [|s ss Hs Hss IH]; [contradiction|].
    destruct ss as [|s' ss']; [constructor|].
    cbn [removelast]. constructor; [assumption|].
    apply IH. discriminate.
Qed.

Lemma split1_app a c rest :
  has_char a c = false -> split1 (a ++ c :: rest) c = (a, Some rest).
Proof.
  unfold has_char. induction a as [|d a IH]; cbn [app existsb split1].
  - intros _. now rewrite N.eqb_refl.
  - intros H. apply orb_false_iff in H. destruct H as [Hd Ha].
    rewrite N.eqb_sym, Hd. now rewrite (IH Ha).
Qed.

Lemma remove_unsafe_absent s :
  has_char s 9 = false -> has_char s 13 = false -> has_char s 10 = false ->
  remove_unsafe s = s.
Proof.
  intros H1 H2 H3. unfold remove_unsafe.
  now rewrite (remove_char_absent s 9), (remove_char_absent s 13),
    (remove_char_absent s 10).
Qed.

Lemma has_char_app a b c : has_char (a ++ b) c = has_char a c || has_char b c.
Proof. unfold has_char. apply existsb_app. Qed.

Lemma terminated_path_char dirs :
  Forall (fun s => plain_segment s = true) dirs ->
  forallb path_char (terminated [47] dirs) = true.
Proof.
  unfold terminated. induction 1 as [|d ds Hd _ IH]; [reflexivity|].
  cbn [flat_map]. rewrite !forallb_app, IH.
  apply plain_segment_facts in Hd. destruct Hd as (_ & Hd & _).
  rewrite (forallb_weaken _ _ _ always_safe_path_char Hd). reflexivity.
Qed.

Lemma join_path_char names :
  Forall (fun s => plain_segment s = true) names ->
  forallb path_char (join [47] names) = true.
Proof.
  induction 1 as [|n ns Hn _ IH]; [reflexivity|].
  apply plain_segment_facts in Hn. destruct Hn as (_ & Hn & _).
  apply (forallb_weaken _ _ _ always_safe_path_char) in Hn.
  destruct ns as [|n' ns']; [exact Hn|].
  change (join [47] (n :: n' :: ns')) with (n ++ 47 :: join [47] (n' :: ns')).
  rewrite forallb_app, Hn. cbn [forallb]. now rewrite IH.
Qed.

Lemma join_head names :
  names <> [] -> Forall (fun s => plain_segment s = true) names ->
  exists c rest, join [47] names = c :: rest /\ always_safe c = true.
Proof.
  intros Hne F. destruct F as [|n ns Hn _]; [contradiction|].
  apply plain_segment_facts in Hn. destruct Hn as (Hn0 & Hn & _).
  destruct n as [|c n]; [contradiction|].
  cbn [forallb] in Hn. apply andb_true_iff in Hn. destruct Hn as [Hc _].
  destruct ns as [|n' ns'].
  - now exists c, n.
  - exists c, (n ++ 47 :: join [47] (n' :: ns')). split; [reflexivity|exact Hc].
Qed.

Section Resolve.

Variable netloc_check : str -> bool.

(** [urlparse] on the URL of a directory. *)
Lemma urlparse_directory sch host dirs :
  sch = py "http" \/ sch = py "https" ->
  plain_segment host = true ->
  Forall (fun s => plain_segment s = true) dirs ->
  urlparse netloc_check (directory_url sch host dirs) []
  = Some (mkParse sch host (47 :: terminated [47] dirs) [] [] []).
Proof.
  intros Hs Hh Hd.
  apply plain_segment_facts in Hh. destruct Hh as (_ & Hh & _).
  pose proof (terminated_path_char dirs Hd) as HD.
  set (D := terminated [47] dirs) in *.
  assert (HP : forallb path_char (47 :: D) = true) by (cbn [forallb]; now rewrite HD).
  assert (HT : forallb path_char (host ++ 47 :: D) = true).
  { rewrite forallb_app, HP.
    now rewrite (forallb_weaken _ _ _ always_safe_path_char Hh). }
  assert (HT9 : forall x, path_char x = false ->
                 has_char (host ++ 47 :: D) x = false)
    by (intros x Hx; now apply (forallb_has_char path_char)).
  assert (E1 : remove_unsafe (dropwhile c0_or_space (directory_url sch host dirs))
               = directory_url sch host dirs).
  { unfold directory_url. change (terminated (py "/") dirs) with D.
    destruct Hs as [-> | ->]; spell_py;
      (rewrite dropwhile_stop by reflexivity);
      apply remove_unsafe_absent;
      unfold has_char; cbn [existsb]; cbn [N.eqb Pos.eqb orb];
      (apply HT9; reflexivity). }
  assert (E2 : split1 (directory_url sch host dirs) 58
               = (sch, Some (47 :: 47 :: host ++ 47 :: D))).
  { unfold directory_url. change (terminated (py "/") dirs) with D.
    change (py "://" ++ host ++ py "/" ++ D)
      with (58 :: 47 :: 47 :: host ++ 47 :: D).
    apply split1_app. now destruct Hs as [-> | ->]. }
  assert (N1 : has_char host 91 = false)
    by now apply (forallb_has_char always_safe).
  assert (N2 : has_char host 93 = false)
    by now apply (forallb_has_char always_safe).
  assert (N3 : isascii host = true).
  { unfold isascii. apply (forallb_weaken path_char); [apply path_char_ascii|].
    now apply (forallb_weaken always_safe); [apply always_safe_path_char|]. }
  assert (S1 : split1 (47 :: D) 35 = (47 :: D, None))
    by (apply split1_absent; now apply (forallb_has_char path_char)).
  assert (S2 : split1 (47 :: D) 63 = (47 :: D, None))
    by (apply split1_absent; now apply (forallb_has_char path_char)).
  assert (S3 : has_char (47 :: D) 59 = false)
    by now apply (forallb_has_char path_char).
  unfold urlparse, urlsplit. rewrite E1, E2. clear E1 E2.
  destruct Hs as [-> | ->]; spell_py; cbv beta iota zeta;
    match goal with
    | |- context [is_ascii_alpha ?c && forallb scheme_char ?l] =>
        change (is_ascii_alpha c && forallb scheme_char l) with true
    end;
    match goal with
    | |- context [ascii_lower ?l] =>
        let v := eval vm_compute in (ascii_lower l) in
        change (ascii_lower l) with v
    end;
    cbv beta iota zeta;
    match goal with
    | |- context [startswith ?u [47; 47]] =>
        change (startswith u [47; 47]) with true
    end;
    cbn [skipn]; rewrite (span_netloc_host _ _ Hh);
    cbv beta iota zeta; rewrite N1, N2, N3; cbn [andb orb negb];
    rewrite S1; cbv beta iota zeta; rewrite S2; cbv beta iota zeta;
    cbn [s_scheme s_netloc s_path s_query s_fragment]; rewrite S3;
    rewrite andb_false_r; reflexivity.
Qed.

(** [urlparse] on a relative path of plain segments. *)
Lemma urlparse_relative sch names :
  sch = py "http" \/ sch = py "https" ->
  names <> [] -> Forall (fun s => plain_segment s = true) names ->
  urlparse netloc_check (join [47] names) sch
  = Some (mkParse sch [] (join [47] names) [] [] []).
Proof.
  intros Hs Hne Hn.
  pose proof (join_path_char names Hn) as HR.
  destruct (join_head names Hne Hn) as (c & rest & ER & Hc).
  rewrite ER in *. clear ER.
  assert (C0 : c0_or_space c = false)
    by (apply path_char_not_c0; now apply always_safe_path_char).
  assert (C1 : (c =? 47) = false).
  { revert Hc. unfold always_safe, is_upper, is_lower, is_digit.
    break_tests; (discriminate || reflexivity). }
  assert (HR9 : forall x, path_char x = false -> has_char (c :: rest) x = false)
    by (intros x Hx; now apply (forallb_has_char path_char)).
  assert (E1 : remove_unsafe (dropwhile c0_or_space (c :: rest)) = c :: rest).
  { rewrite dropwhile_stop by exact C0.
    apply remove_unsafe_absent; now apply HR9. }
  assert (E2 : split1 (c :: rest) 58 = (c :: rest, None))
    by (apply split1_absent; now apply HR9).
  assert (S1 : split1 (c :: rest) 35 = (c :: rest, None))
    by (apply split1_absent; now apply HR9).
  assert (S2 : split1 (c :: rest) 63 = (c :: rest, None))
    by (apply split1_absent; now apply HR9).
  assert (S3 : has_char (c :: rest) 59 = false) by now apply HR9.
  assert (S4 : startswith (c :: rest) [47; 47] = false)
    by (cbn [startswith]; now rewrite N.eqb_sym, C1).
  unfold urlparse, urlsplit. rewrite E1, E2. clear E1 E2.
  cbv beta iota zeta. rewrite S4. cbv beta iota zeta.
  cbn [has_char existsb isascii forallb andb orb negb].
  rewrite S1. cbv beta iota zeta. rewrite S2. cbv beta iota zeta.
  cbn [s_scheme s_netloc s_path s_query s_fragment]. rewrite S3.
  rewrite andb_false_r.
  destruct Hs as [-> | ->]; reflexivity.
Qed.

(** [urljoin] of a directory and a relative path of plain segments is
    their concatenation. *)
Lemma urljoin_directory sch host dirs names :
  sch = py "http" \/ sch = py "https" ->
  plain_segment host = true ->
  Forall (fun s => plain_segment s = true) dirs ->
  names <> [] -> Forall (fun s => plain_segment s = true) names ->
  urljoin netloc_check (directory_url sch host dirs) (join [47] names)
  = Some (directory_url sch host dirs ++ join [47] names).
Proof.
  intros Hs Hh Hd Hne Hn. unfold urljoin.
  rewrite (urlparse_directory _ _ _ Hs Hh Hd).
  cbn [scheme netloc path params query fragment].
  rewrite (urlparse_relative _ _ Hs Hne Hn).
  cbn [scheme netloc path params query fragment].
  assert (B : is_empty (directory_url sch host dirs) = false)
    by now destruct Hs as [-> | ->].
  destruct (join_head names Hne Hn) as (c & rest & ER & Hc).
  assert (C1 : (c =? 47) = false).
  { revert Hc. unfold always_safe, is_upper, is_lower, is_digit.
    break_tests; (discriminate || reflexivity). }
  assert (R0 : is_empty (join [47] names) = false) by now rewrite ER.
  assert (R1 : startswith (join [47] names) [47] = false)
    by (rewrite ER; cbn [startswith]; now rewrite N.eqb_sym, C1).
  assert (H0 : is_empty host = false).
  { apply plain_segment_facts in Hh. destruct Hh as (Hh & _).
    now destruct host. }
  assert (Fd : Forall (fun s : str => has_char s 47 = false) dirs)
    by (eapply Forall_impl; [|exact Hd]; apply plain_segment_no_slash).
  assert (Fn : Forall (fun s : str => has_char s 47 = false) names)
    by (eapply Forall_impl; [|exact Hn]; apply plain_segment_no_slash).
  assert (Nd : Forall (fun s : str => s <> []) dirs)
    by (eapply Forall_impl; [|exact Hd];
        intros a Ha; now apply plain_segment_facts in Ha).
  assert (Nn : Forall (fun s : str => s <> []) names)
    by (eapply Forall_impl; [|exact Hn];
        intros a Ha; now apply plain_segment_facts in Ha).
  assert (P : split (47 :: terminated [47] dirs) 47 = [] :: dirs ++ [[]])
    by (rewrite split_cons_sep; now rewrite split_terminated).
  assert (L : last_item ([] :: dirs ++ [[]]) = []).
  { unfold last_item. change ([] :: dirs ++ [[]]) with (([] :: dirs) ++ [[]]).
    apply last_last. }
  assert (G : filter_middle (([] :: dirs ++ [[]]) ++ names) = [] :: dirs ++ names)
    by now apply filter_middle_directory.
  assert (Z : Forall (fun s => str_eqb s (py ".") = false
                               /\ str_eqb s (py "..") = false)
                     ([] :: dirs ++ names)).
  { constructor; [now split|]. apply Forall_app. split.
    - eapply Forall_impl; [|exact Hd].
      intros a Ha; now apply plain_segment_facts in Ha.
    - eapply Forall_impl; [|exact Hn].
      intros a Ha; now apply plain_segment_facts in Ha. }
  assert (LN : str_eqb (last_item ([] :: dirs ++ names)) (py ".")
               || str_eqb (last_item ([] :: dirs ++ names)) (py "..") = false).
  { unfold last_item.
    assert (I : In (last ([] :: dirs ++ names) []) ([] :: dirs ++ names)).
    { destruct (exists_last (l := [] :: dirs ++ names)) as (l' & a & E);
        [discriminate|].
      rewrite E, last_last. apply in_or_app. right. now left. }
    rewrite Forall_forall in Z. destruct (Z _ I) as [Z1 Z2].
    apply orb_false_iff. split; [exact Z1 | exact Z2]. }
  assert (J : join [47] ([] :: dirs ++ names)
              = 47 :: terminated [47] dirs ++ join [47] names).
  { rewrite <- join_terminated by assumption.
    destruct (dirs ++ names) eqn:E; [|reflexivity].
    apply app_eq_nil in E. now destruct E. }
  rewrite B, R0, str_eqb_refl, R1, P, L.
  cbn [is_empty negb andb orb].
  replace (in_list sch uses_relative) with true
    by now destruct Hs as [-> | ->].
  replace (in_list sch uses_netloc) with true
    by now destruct Hs as [-> | ->].
  cbn [negb andb orb].
  pose proof (split_join 47 names Hne Fn) as SJ.
  pose proof (resolve_segments_plain _ Z) as RS.
  unfold str, char in *.
  rewrite SJ, G, RS, LN, J.
  unfold urlunparse, urlunsplit, str_or. cbn [is_empty negb andb orb].
  rewrite H0. cbn [negb andb orb startswith].
  rewrite N.eqb_refl. cbn [negb andb].
  f_equal. unfold directory_url.
  destruct Hs as [-> | ->]; cbn [is_empty negb]; spell_py;
    rewrite <- ?app_assoc; reflexivity.
Qed.

End Resolve.

Lemma dropwhile_none (P f : char -> bool) s :
  (forall c, P c = true -> f c = false) ->
  forallb P s = true -> dropwhile f s = s.
Proof.
  intros PF H. destruct s as [|c s]; [reflexivity|].
  cbn [forallb] in H. apply andb_true_iff in H. destruct H as [Hc _].
  cbn [dropwhile]. now rewrite (PF _ Hc).
Qed.

Lemma path_char_not_space c : path_char c = true -> isspace c = false.
Proof.
  unfold path_char, always_safe, is_upper, is_lower, is_digit, isspace.
  break_tests; (discriminate || reflexivity).
Qed.

Lemma strip_plain s : forallb path_char s = true -> strip s = s.
Proof.
  intros H. unfold strip, lstrip, rstrip.
  rewrite (dropwhile_none path_char isspace s path_char_not_space H).
  rewrite (dropwhile_none path_char isspace (rev s) path_char_not_space)
    by now rewrite forallb_rev.
  apply rev_involutive.
Qed.

Lemma has_char_rev s c : has_char (rev s) c = has_char s c.
Proof.
  induction s as [|d s IH]; [reflexivity|]. cbn [rev].
  rewrite has_char_app, IH. unfold has_char. cbn [existsb].
  rewrite orb_false_r. apply orb_comm.
Qed.

Lemma rsplit1_head_app a file :
  has_char file 47 = false -> rsplit1_head (a ++ 47 :: file) 47 = a.
Proof.
  intros H. unfold rsplit1_head.
  rewrite rev_app_distr. cbn [rev]. rewrite <- app_assoc. cbn [app].
  rewrite split1_app.
  - apply rev_involutive.
  - now rewrite has_char_rev.
Qed.

Lemma terminated_app (eol : str) l1 l2 :
  terminated eol (l1 ++ l2) = terminated eol l1 ++ terminated eol l2.
Proof. unfold terminated. apply flat_map_app. Qed.

(** The URL of a directory ends in [/]. *)
Lemma directory_url_ends_in_slash sch host dirs :
  exists a, directory_url sch host dirs = a ++ [47].
Proof.
  unfold directory_url. destruct dirs as [|d ds] using rev_ind.
  - exists (sch ++ py "://" ++ host). now rewrite <- !app_assoc.
  - exists (sch ++ py "://" ++ host ++ py "/" ++ terminated (py "/") ds ++ d).
    rewrite terminated_app. unfold terminated at 2. cbn [flat_map].
    rewrite app_nil_r, <- !app_assoc. reflexivity.
Qed.

Lemma isascii_scalar s : isascii s = true -> forallb is_scalar s = true.
Proof.
  unfold isascii. apply forallb_weaken. intros c H. apply N.ltb_lt in H.
  unfold is_scalar, is_surrogate. break_tests; reflexivity.
Qed.

Section ResolveLine.

Variable netloc_check : str -> bool.

(** X15: in a manifest fetched from [scheme://host/dir.../file], with
    [scheme] one of [http] and [https] and host and directories made of
    unreserved characters, a line that is a relative path of such segments
    resolves to the directory of the manifest followed by that path, and its
    reference decodes to that URL under [https]. *)
Theorem relative_line_resolves_in_directory
    (sch host : str) (dirs : list str) (file : str) (names : list str) :
  sch = py "http" \/ sch = py "https" ->
  plain_segment host = true ->
  Forall (fun s => plain_segment s = true) dirs ->
  has_char file 47 = false ->
  names <> [] -> Forall (fun s => plain_segment s = true) names ->
  let target := directory_url sch host dirs ++ file in
  let base := rsplit1_head target 47 ++ py "/" in
  let ln := join [47] names in
  resolve_absolute netloc_check (strip ln) base
    = Some (directory_url sch host dirs ++ ln) /\
  exists q,
    rewrite_uri netloc_check ln base = Some (py "/proxy?u=" ++ q) /\
    unquote q = directory_url (py "https") host dirs ++ ln.
Proof.
  intros Hs Hh Hd Hf Hne Hn target base ln.
  assert (B : base = directory_url sch host dirs).
  { subst base target.
    destruct (directory_url_ends_in_slash sch host dirs) as (a & ->).
    rewrite <- app_assoc. cbn [app]. now rewrite rsplit1_head_app. }
  pose proof (join_path_char names Hn) as HR. fold ln in HR.
  assert (S : strip ln = ln) by now apply strip_plain.
  assert (C : has_char ln 58 = false)
    by now apply (forallb_has_char path_char).
  assert (A : startswith ln (py "http://") || startswith ln (py "https://")
              = false).
  { apply orb_false_iff. split.
    - destruct (startswith ln (py "http://")) eqn:P; [|reflexivity].
      apply startswith_iff in P. destruct P as (r & P). rewrite P in C.
      discriminate C.
    - destruct (startswith ln (py "https://")) eqn:P; [|reflexivity].
      apply startswith_iff in P. destruct P as (r & P). rewrite P in C.
      discriminate C. }
  assert (R : resolve_absolute netloc_check (strip ln) base
              = Some (directory_url sch host dirs ++ ln)).
  { rewrite S, B. unfold resolve_absolute. rewrite A.
    now apply urljoin_directory. }
  split; [exact R|].
  assert (U : upgrade_scheme (directory_url sch host dirs ++ ln)
              = directory_url (py "https") host dirs ++ ln)
    by now destruct Hs as [-> | ->].
  assert (Q : forallb is_scalar (directory_url (py "https") host dirs ++ ln)
              = true).
  { apply isascii_scalar.
    apply plain_segment_facts in Hh. destruct Hh as (_ & Hh & _).
    apply (forallb_weaken _ _ _ always_safe_path_char) in Hh.
    pose proof (forallb_weaken _ _ _ path_char_ascii Hh) as A1.
    pose proof (forallb_weaken _ _ _ path_char_ascii HR) as A2.
    pose proof (forallb_weaken _ _ _ path_char_ascii
                  (terminated_path_char dirs Hd)) as A3.
    unfold isascii, directory_url.
    change (py "https" ++ py "://" ++ host ++ py "/" ++ terminated (py "/") dirs)
      with (py "https://" ++ host ++ 47 :: terminated [47] dirs).
    unfold str, char in *.
    rewrite !forallb_app, A1, A2. cbn [forallb]. now rewrite A3. }
  destruct (encode_total _ Q) as (bs & E).
  exists (quote_from_bytes bs []).
  assert (QQ : quote (directory_url (py "https") host dirs ++ ln) []
               = Some (quote_from_bytes bs []))
    by (unfold quote; now rewrite E).
  split.
  - unfold rewrite_uri. now rewrite R, U, QQ.
  - now apply unquote_quote.
Qed.

End ResolveLine.

Lemma relative_line_resolves_in_directory_witness :
  resolve_absolute accept_netloc (strip (py "720p/seg-1.ts"))
    (rsplit1_head (py "http://cdn.example.com/live/ch1/index.m3u8") 47
     ++ py "/")
  = Some (py "http://cdn.example.com/live/ch1/720p/seg-1.ts").
Proof.
  refine (proj1 (relative_line_resolves_in_directory accept_netloc
                   (py "http") (py "cdn.example.com") [py "live"; py "ch1"]
                   (py "index.m3u8") [py "720p"; py "seg-1.ts"]
                   _ _ _ _ _ _)).
  - left. reflexivity.
  - reflexivity.
  - repeat constructor.
  - reflexivity.
  - discriminate.
  - repeat constructor.
Defined.

(** ** Playlists without URI lines *)

Lemma rewrite_lines_pass_through nc lines base : forall acc,
  Forall (fun ln => passes_through ln = true) lines ->
  rewrite_lines nc lines base acc = Some (acc ++ lines).
Proof.
  induction lines as [|ln rest IH]; intros acc F; cbn [rewrite_lines].
  - now rewrite app_nil_r.
  - inversion F as [|? ? Hln Hrest]; subst. rewrite Hln.
    rewrite (IH _ Hrest), <- app_assoc. reflexivity.
Qed.

(** X16: a playlist in which every line is empty or begins with [#] needs
    no resolution: whatever its target, the rewriter returns its lines
    unchanged, joined by newlines.  A view serves that text with status 200
    when the [Response] can be built from it, and answers 500 otherwise: when
    the text cannot be encoded in UTF-8 (a lone surrogate in a tag) or, in
    [download], the attachment header holds a line break. *)
Theorem playlist_without_uris_is_kept (str_lower : str -> str)
    (netloc_check : str -> bool) (r : Upstream) (t target : str) :
  text r = Some t ->
  Forall (fun ln => passes_through ln = true) (splitlines t) ->
  let out := join nl (splitlines t) in
  let disposition := content_disposition (filename_of target) in
  rewrite_text netloc_check t target = Some out /\
  (is_manifest str_lower target (tested_type str_lower r []) = true ->
   proxy_respond str_lower netloc_check r target
   = Some (if encodable out
           then Resp (Text out) 200%Z manifest_headers
           else Plain (py "Manifest rewrite failed") 500%Z)) /\
  (is_manifest str_lower target
     (tested_type str_lower r (py "application/octet-stream")) = true ->
   download_respond str_lower netloc_check r target
   = Some (if encodable out && header_value_ok disposition
           then Resp (Text out) 200%Z
                  [ (py "Content-Type", py "application/vnd.apple.mpegurl");
                    (py "Content-Disposition", disposition);
                    (py "Access-Control-Allow-Origin", py "*");
                    (py "Cache-Control", py "no-cache") ]
           else Plain (py "Failed to rewrite manifest") 500%Z)).
Proof.
  intros Ht F out disposition.
  assert (E : rewrite_text netloc_check t target = Some out).
  { unfold rewrite_text.
    now rewrite (rewrite_lines_pass_through _ _ _ [] F). }
  split; [exact E|].
  unfold proxy_respond, download_respond, tested_type, rewrite_manifest.
  rewrite Ht, E. fold disposition. split; intros ->.
  - rewrite Response_text, proxy_headers_ok, manifest_type_ok.
    fold manifest_headers. now destruct (encodable out).
  - rewrite Response_text, download_headers_ok, manifest_type_ok.
    cbn [andb]. rewrite andb_comm.
    now destruct (encodable out && header_value_ok disposition).
Qed.

(** A playlist of tags with CR LF line endings and an empty line is served
    with its lines joined by newlines; with a lone surrogate in a tag it is
    answered 500. *)
Lemma playlist_without_uris_is_kept_witness :
  let tags :=
    py "#EXTM3U" ++ [13; 10; 13; 10] ++ py "#EXT-X-ENDLIST" ++ [13; 10] in
  let broken := py "#EXTM3U" ++ nl ++ py "#" ++ [55296] in
  let reply t :=
    mkUpstream 200%Z (Some (py "application/x-mpegurl")) (Some t) [] in
  proxy_respond ascii_lower accept_netloc (reply tags) (py "not a url")
  = Some (Resp (Text (py "#EXTM3U" ++ nl ++ nl ++ py "#EXT-X-ENDLIST")) 200%Z
               manifest_headers) /\
  proxy_respond ascii_lower accept_netloc (reply broken) (py "not a url")
  = Some (Plain (py "Manifest rewrite failed") 500%Z).
Proof.
  pose (reply := fun t =>
          mkUpstream 200%Z (Some (py "application/x-mpegurl")) (Some t) []).
  split.
  - refine (proj1 (proj2
              (playlist_without_uris_is_kept ascii_lower accept_netloc
                 (reply (py "#EXTM3U" ++ [13; 10; 13; 10]
                         ++ py "#EXT-X-ENDLIST" ++ [13; 10]))
                 _ (py "not a url") eq_refl _)) eq_refl).
    repeat constructor.
  - refine (proj1 (proj2
              (playlist_without_uris_is_kept ascii_lower accept_netloc
                 (reply (py "#EXTM3U" ++ nl ++ py "#" ++ [55296]))
                 _ (py "not a url") eq_refl _)) eq_refl).
    repeat constructor.
Defined.

(** ** The statuses a view can answer *)

Section Statuses.

Variable str_lower : str -> str.
Variable netloc_check : str -> bool.
Variable net : FetchCall -> option Upstream.

Lemma respond_status r target :
  let ok v :=
    match v with
    | Some reply =>
        status_of reply = 200%Z \/ status_of reply = 500%Z \/
        status_of reply = status_code r
    | None => True
    end in
  ok (proxy_respond str_lower netloc_check r target) /\
  ok (download_respond str_lower netloc_check r target).
Proof.
  unfold proxy_respond, download_respond. split;
    (destruct (is_manifest _ _ _);
     [destruct (rewrite_manifest _ _ _)|]);
    repeat match goal with
           | |- context [Response ?b ?s ?h] =>
               destruct (Response_cases b s h) as [-> | ->]
           end; cbn [status_of]; auto.
Qed.

(** X17: a view answers 400, 502, 500 or 200, or else the status of a
    response that one of its own fetches returned; it never makes up another
    status.  When an exception leaves the view instead, one of its fetches had
    returned a response. *)
Theorem statuses_of_the_views (args : Args) :
  let ok v :=
    match fst v with
    | Some reply =>
        status_of reply = 400%Z \/ status_of reply = 502%Z \/
        status_of reply = 500%Z \/ status_of reply = 200%Z \/
        exists call r,
          In call (snd v) /\ net call = Some r /\
          status_of reply = status_code r
    | None => exists call r, In call (snd v) /\ net call = Some r
    end in
  ok (run (proxy str_lower netloc_check net args)) /\
  ok (run (download str_lower netloc_check net args)).
Proof.
  intros ok. subst ok. cbv beta.
  destruct (args_get args (py "u")) as [u|] eqn:Hu.
  2:{ unfold proxy, download, run, ret. rewrite Hu. cbn [fst status_of].
      split; now left. }
  destruct (is_empty u) eqn:Hne.
  { unfold proxy, download, run, ret. rewrite Hu, Hne. cbn [fst status_of].
    split; now left. }
  rewrite (proxy_run _ _ _ _ _ Hu Hne), (download_run _ _ _ _ _ Hu Hne).
  cbv zeta. split.
  - destruct (net (fetch_call args (unquote u) (proxy_cookie args) true true))
      as [r|] eqn:N1;
      [|destruct (net (fetch_call args (unquote u) (proxy_cookie args) true false))
          as [r|] eqn:N2]; cbn [fst snd].
    + pose proof (proj1 (respond_status r (unquote u))) as S. cbv beta in S.
      destruct (proxy_respond str_lower netloc_check r (unquote u)).
      * destruct S as [-> | [-> | ->]]; auto.
        do 4 right. eexists _, r. split; [now left|]. now split.
      * eexists _, r. split; [now left | exact N1].
    + pose proof (proj1 (respond_status r (unquote u))) as S. cbv beta in S.
      destruct (proxy_respond str_lower netloc_check r (unquote u)).
      * destruct S as [-> | [-> | ->]]; auto.
        do 4 right. eexists _, r. split; [right; now left|]. now split.
      * eexists _, r. split; [right; now left | exact N2].
    + cbn [status_of]. auto.
  - destruct (net (fetch_call args (unquote u) None false true))
      as [r|] eqn:N1;
      [|destruct (net (fetch_call args (unquote u) None false false))
          as [r|] eqn:N2]; cbn [fst snd].
    + pose proof (proj2 (respond_status r (unquote u))) as S. cbv beta in S.
      destruct (download_respond str_lower netloc_check r (unquote u)).
      * destruct S as [-> | [-> | ->]]; auto.
        do 4 right. eexists _, r. split; [now left|]. now split.
      * eexists _, r. split; [now left | exact N1].
    + pose proof (proj2 (respond_status r (unquote u))) as S. cbv beta in S.
      destruct (download_respond str_lower netloc_check r (unquote u)).
      * destruct S as [-> | [-> | ->]]; auto.
        do 4 right. eexists _, r. split; [right; now left|]. now split.
      * eexists _, r. split; [right; now left | exact N2].
    + cbn [status_of]. auto.
Qed.

End Statuses.

(** ** Parent and root-relative lines *)

Section ResolvePaths.

Variable netloc_check : str -> bool.

(** [urlparse] on a reference that is only a path. *)
Lemma urlparse_path sch rel :
  sch = py "http" \/ sch = py "https" ->
  forallb path_char rel = true -> rel <> [] ->
  startswith rel [47; 47] = false ->
  urlparse netloc_check rel sch = Some (mkParse sch [] rel [] [] []).
Proof.
  intros Hs HR Hne S4.
  destruct rel as [|c rest]; [contradiction|].
  assert (Hc : path_char c = true)
    by (cbn [forallb] in HR; now apply andb_true_iff in HR).
  assert (C0 : c0_or_space c = false) by now apply path_char_not_c0.
  assert (HR9 : forall x, path_char x = false -> has_char (c :: rest) x = false)
    by (intros x Hx; now apply (forallb_has_char path_char)).
  assert (E1 : remove_unsafe (dropwhile c0_or_space (c :: rest)) = c :: rest).
  { rewrite dropwhile_stop by exact C0.
    apply remove_unsafe_absent; now apply HR9. }
  assert (E2 : split1 (c :: rest) 58 = (c :: rest, None))
    by (apply split1_absent; now apply HR9).
  assert (S1 : split1 (c :: rest) 35 = (c :: rest, None))
    by (apply split1_absent; now apply HR9).
  assert (S2 : split1 (c :: rest) 63 = (c :: rest, None))
    by (apply split1_absent; now apply HR9).
  assert (S3 : has_char (c :: rest) 59 = false) by now apply HR9.
  unfold urlparse, urlsplit. rewrite E1, E2. clear E1 E2.
  cbv beta iota zeta. rewrite S4. cbv beta iota zeta.
  cbn [has_char existsb isascii forallb andb orb negb].
  rewrite S1. cbv beta iota zeta. rewrite S2. cbv beta iota zeta.
  cbn [s_scheme s_netloc s_path s_query s_fragment]. rewrite S3.
  rewrite andb_false_r.
  destruct Hs as [-> | ->]; reflexivity.
Qed.

(** [urljoin] of a directory and a path: what is left is the work on the
    segments. *)
Lemma urljoin_path sch host dirs rel :
  sch = py "http" \/ sch = py "https" ->
  plain_segment host = true ->
  Forall (fun s => plain_segment s = true) dirs ->
  forallb path_char rel = true -> rel <> [] ->
  startswith rel [47; 47] = false ->
  let segments :=
    if startswith rel [47] then split rel 47
    else filter_middle (([] :: dirs ++ [[]]) ++ split rel 47) in
  let resolved_path :=
    if str_eqb (last_item segments) (py ".")
       || str_eqb (last_item segments) (py "..")
    then resolve_segments segments ++ [[]]
    else resolve_segments segments in
  urljoin netloc_check (directory_url sch host dirs) rel
  = Some (urlunparse sch host (str_or (join [47] resolved_path) [47])
                     [] [] []).
Proof.
  intros Hs Hh Hd HR Hne S4 segments resolved_path.
  subst resolved_path segments. unfold urljoin.
  rewrite (urlparse_directory _ _ _ _ Hs Hh Hd).
  cbn [scheme netloc path params query fragment].
  rewrite (urlparse_path _ _ Hs HR Hne S4).
  cbn [scheme netloc path params query fragment].
  assert (B : is_empty (directory_url sch host dirs) = false)
    by now destruct Hs as [-> | ->].
  assert (R0 : is_empty rel = false) by now destruct rel.
  assert (Fd : Forall (fun s : str => has_char s 47 = false) dirs)
    by (eapply Forall_impl; [|exact Hd]; apply plain_segment_no_slash).
  assert (P : split (47 :: terminated [47] dirs) 47 = [] :: dirs ++ [[]])
    by (rewrite split_cons_sep; now rewrite split_terminated).
  assert (L : last_item ([] :: dirs ++ [[]]) = []).
  { unfold last_item. change ([] :: dirs ++ [[]]) with (([] :: dirs) ++ [[]]).
    apply last_last. }
  rewrite B, R0, str_eqb_refl, P, L.
  cbn [is_empty negb andb orb].
  replace (in_list sch uses_relative) with true
    by now destruct Hs as [-> | ->].
  replace (in_list sch uses_netloc) with true
    by now destruct Hs as [-> | ->].
  cbn [negb andb orb]. reflexivity.
Qed.

End ResolvePaths.

Lemma segment_loop_plain segments : forall acc,
  Forall (fun s => str_eqb s (py ".") = false /\ str_eqb s (py "..") = false)
         segments ->
  fold_left segment_step segments acc = acc ++ segments.
Proof.
  induction segments as [|s ss IH]; intros acc F; cbn [fold_left].
  - now rewrite app_nil_r.
  - inversion F as [|? ? [H1 H2] Hss]; subst.
    unfold segment_step at 2. rewrite H1, H2, (IH _ Hss), <- app_assoc.
    reflexivity.
Qed.

Lemma plain_not_dots segs :
  Forall (fun s => plain_segment s = true) segs ->
  Forall (fun s => str_eqb s (py ".") = false /\ str_eqb s (py "..") = false)
         segs.
Proof.
  intros F. eapply Forall_impl; [|exact F].
  intros a Ha. now apply plain_segment_facts in Ha.
Qed.

Lemma plain_nonempty segs :
  Forall (fun s => plain_segment s = true) segs ->
  Forall (fun s : str => s <> []) segs.
Proof.
  intros F. eapply Forall_impl; [|exact F].
  intros a Ha. now apply plain_segment_facts in Ha.
Qed.

Lemma plain_no_slash segs :
  Forall (fun s => plain_segment s = true) segs ->
  Forall (fun s : str => has_char s 47 = false) segs.
Proof.
  intros F. eapply Forall_impl; [|exact F]. apply plain_segment_no_slash.
Qed.

Lemma last_plain_not_dot (pre : list str) names :
  names <> [] -> Forall (fun s => plain_segment s = true) names ->
  str_eqb (last_item (pre ++ names)) (py ".")
  || str_eqb (last_item (pre ++ names)) (py "..") = false.
Proof.
  intros Hne F. unfold last_item.
  destruct (exists_last Hne) as (l' & a & ->).
  rewrite app_assoc, last_last.
  apply Forall_app in F. destruct F as [_ F].
  inversion F as [|? ? Ha _]; subst.
  apply plain_segment_facts in Ha. destruct Ha as (_ & _ & -> & ->).
  reflexivity.
Qed.

Section ResolveShapes.

Variable netloc_check : str -> bool.

(** A reference made of path characters is not trimmed and is not taken
    for an absolute URL. *)
Lemma resolve_absolute_path rel base :
  forallb path_char rel = true ->
  resolve_absolute netloc_check (strip rel) base
  = urljoin netloc_check base rel.
Proof.
  intros HR. rewrite (strip_plain _ HR). unfold resolve_absolute.
  assert (C : has_char rel 58 = false)
    by now apply (forallb_has_char path_char).
  assert (A : startswith rel (py "http://") || startswith rel (py "https://")
              = false).
  { apply orb_false_iff. split.
    - destruct (startswith rel (py "http://")) eqn:P; [|reflexivity].
      apply startswith_iff in P. destruct P as (r & P). rewrite P in C.
      discriminate C.
    - destruct (startswith rel (py "https://")) eqn:P; [|reflexivity].
      apply startswith_iff in P. destruct P as (r & P). rewrite P in C.
      discriminate C. }
  now rewrite A.
Qed.

(** X18: a line that begins with [/] is resolved against the host alone:
    the directories of the manifest are dropped. *)
Theorem root_relative_line_drops_directories
    (sch host : str) (dirs names : list str) :
  sch = py "http" \/ sch = py "https" ->
  plain_segment host = true ->
  Forall (fun s => plain_segment s = true) dirs ->
  names <> [] -> Forall (fun s => plain_segment s = true) names ->
  resolve_absolute netloc_check (strip (py "/" ++ join [47] names))
    (directory_url sch host dirs)
  = Some (directory_url sch host [] ++ join [47] names).
Proof.
  intros Hs Hh Hd Hne Hn.
  pose proof (join_path_char names Hn) as HJ.
  destruct (join_head names Hne Hn) as (c & rest & ER & Hc).
  assert (C1 : (c =? 47) = false).
  { revert Hc. unfold always_safe, is_upper, is_lower, is_digit.
    break_tests; (discriminate || reflexivity). }
  assert (HR : forallb path_char (py "/" ++ join [47] names) = true)
    by (change (py "/" ++ join [47] names) with (47 :: join [47] names);
        cbn [forallb]; now rewrite HJ).
  rewrite (resolve_absolute_path _ _ HR).
  change (py "/" ++ join [47] names) with (47 :: join [47] names) in *.
  assert (S4 : startswith (47 :: join [47] names) [47; 47] = false).
  { rewrite ER. cbn [startswith]. rewrite N.eqb_refl. cbn [andb].
    now rewrite N.eqb_sym, C1. }
  rewrite (urljoin_path _ _ _ _ _ Hs Hh Hd HR) by (discriminate || exact S4).
  cbv zeta.
  change (startswith (47 :: join [47] names) [47]) with true. cbv iota.
  pose proof (split_join 47 names Hne (plain_no_slash _ Hn)) as SJ.
  pose proof (last_plain_not_dot [[]] names Hne Hn) as LN. cbn [app] in LN.
  assert (Z : fold_left segment_step ([] :: names) [] = [] :: names).
  { apply (segment_loop_plain ([] :: names) []).
    constructor; [now split | now apply plain_not_dots]. }
  assert (H0 : is_empty host = false).
  { apply plain_segment_facts in Hh. destruct Hh as (Hh & _).
    now destruct host. }
  unfold resolve_segments.
  change (fold_left _ ?l []) with (fold_left segment_step l []).
  rewrite split_cons_sep.
  unfold str, char in *.
  rewrite SJ, LN, Z.
  destruct names as [|n ns]; [contradiction|].
  change (join [47] ([] :: n :: ns)) with (47 :: join [47] (n :: ns)).
  unfold urlunparse, urlunsplit, str_or. cbn [is_empty negb andb orb].
  rewrite H0. cbn [negb andb orb startswith].
  rewrite N.eqb_refl. cbn [negb andb].
  f_equal. unfold directory_url.
  destruct Hs as [-> | ->]; cbn [is_empty negb]; spell_py;
    rewrite <- ?app_assoc; reflexivity.
Qed.

End ResolveShapes.

Lemma root_relative_line_drops_directories_witness :
  resolve_absolute accept_netloc (strip (py "/" ++ join [47] [py "v"; py "a.ts"]))
    (directory_url (py "https") (py "cdn.example.com") [py "live"; py "ch1"])
  = Some (directory_url (py "https") (py "cdn.example.com") []
          ++ join [47] [py "v"; py "a.ts"]).
Proof.
  apply (root_relative_line_drops_directories accept_netloc (py "https")
           (py "cdn.example.com") [py "live"; py "ch1"] [py "v"; py "a.ts"]).
  - right. reflexivity.
  - reflexivity.
  - repeat constructor.
  - discriminate.
  - repeat constructor.
Defined.

Lemma segment_loop_parent pre d names : forall acc,
  Forall (fun s => str_eqb s (py ".") = false /\ str_eqb s (py "..") = false)
         (pre ++ [d]) ->
  Forall (fun s => str_eqb s (py ".") = false /\ str_eqb s (py "..") = false)
         names ->
  fold_left segment_step (pre ++ d :: py ".." :: names) acc
  = acc ++ pre ++ names.
Proof.
  induction pre as [|p pre IH]; intros acc F1 F2; cbn [app fold_left].
  - inversion F1 as [|? ? [H1 H2] _]; subst.
    unfold segment_step at 3. rewrite H1, H2.
    unfold segment_step at 2.
    change (str_eqb (py "..") (py "..")) with true. cbv iota.
    rewrite removelast_last. now apply segment_loop_plain.
  - inversion F1 as [|? ? [H1 H2] F1']; subst.
    unfold segment_step at 2. rewrite H1, H2.
    rewrite (IH _ F1' F2), <- app_assoc. reflexivity.
Qed.

Section ResolveParent.

Variable netloc_check : str -> bool.

(** X19: a line that begins with [../] is resolved against the parent of
    the manifest's directory. *)
Theorem parent_line_leaves_directory
    (sch host : str) (dirs : list str) (d : str) (names : list str) :
  sch = py "http" \/ sch = py "https" ->
  plain_segment host = true ->
  Forall (fun s => plain_segment s = true) dirs ->
  plain_segment d = true ->
  names <> [] -> Forall (fun s => plain_segment s = true) names ->
  resolve_absolute netloc_check (strip (py "../" ++ join [47] names))
    (directory_url sch host (dirs ++ [d]))
  = Some (directory_url sch host dirs ++ join [47] names).
Proof.
  intros Hs Hh Hd Hdd Hne Hn.
  pose proof (join_path_char names Hn) as HJ.
  assert (Hd' : Forall (fun s => plain_segment s = true) (dirs ++ [d]))
    by (apply Forall_app; split; [assumption | now constructor]).
  assert (HR : forallb path_char (py "../" ++ join [47] names) = true)
    by (change (py "../" ++ join [47] names)
          with (46 :: 46 :: 47 :: join [47] names);
        cbn [forallb]; now rewrite HJ).
  rewrite (resolve_absolute_path _ _ _ HR).
  rewrite (urljoin_path _ _ _ _ _ Hs Hh Hd' HR) by (discriminate || reflexivity).
  cbv zeta.
  change (startswith (py "../" ++ join [47] names) [47]) with false. cbv iota.
  assert (RJ : py "../" ++ join [47] names = join [47] (py ".." :: names)).
  { destruct names as [|n ns]; [contradiction|]. reflexivity. }
  assert (SJ : split (py "../" ++ join [47] names) 47 = py ".." :: names).
  { rewrite RJ. apply split_join; [discriminate|].
    constructor; [reflexivity | now apply plain_no_slash]. }
  assert (G : filter_middle (([] :: (dirs ++ [d]) ++ [[]]) ++ py ".." :: names)
              = [] :: (dirs ++ [d]) ++ py ".." :: names).
  { apply filter_middle_directory.
    - now apply plain_nonempty.
    - constructor; [discriminate | now apply plain_nonempty].
    - discriminate. }
  assert (LN : str_eqb (last_item ([] :: (dirs ++ [d]) ++ py ".." :: names))
                       (py ".")
               || str_eqb (last_item ([] :: (dirs ++ [d]) ++ py ".." :: names))
                          (py "..") = false).
  { pose proof (last_plain_not_dot ([] :: (dirs ++ [d]) ++ [py ".."]) names
                  Hne Hn) as L.
    cbn [app] in L. rewrite <- app_assoc in L. exact L. }
  assert (Z : fold_left segment_step ([] :: (dirs ++ [d]) ++ py ".." :: names) []
              = [] :: dirs ++ names).
  { pose proof (segment_loop_parent ([] :: dirs) d names []) as Q.
    cbn [app] in Q. rewrite <- app_assoc. cbn [app]. apply Q.
    - constructor; [now split|]. now apply plain_not_dots.
    - now apply plain_not_dots. }
  assert (J : join [47] ([] :: dirs ++ names)
              = 47 :: terminated [47] dirs ++ join [47] names).
  { rewrite <- join_terminated by assumption.
    destruct (dirs ++ names) eqn:E; [|reflexivity].
    apply app_eq_nil in E. now destruct E. }
  assert (H0 : is_empty host = false).
  { apply plain_segment_facts in Hh. destruct Hh as (Hh & _).
    now destruct host. }
  unfold resolve_segments.
  change (fold_left _ ?l []) with (fold_left segment_step l []).
  unfold str, char in *.
  rewrite SJ, G, LN, Z, J.
  unfold urlunparse, urlunsplit, str_or. cbn [is_empty negb andb orb].
  rewrite H0. cbn [negb andb orb startswith].
  rewrite N.eqb_refl. cbn [negb andb].
  f_equal. unfold directory_url.
  destruct Hs as [-> | ->]; cbn [is_empty negb]; spell_py;
    rewrite <- ?app_assoc; reflexivity.
Qed.

End ResolveParent.

Lemma parent_line_leaves_directory_witness :
  resolve_absolute accept_netloc (strip (py "../" ++ join [47] [py "audio"; py "a.ts"]))
    (directory_url (py "https") (py "cdn.example.com") ([py "live"] ++ [py "ch1"]))
  = Some (directory_url (py "https") (py "cdn.example.com") [py "live"]
          ++ join [47] [py "audio"; py "a.ts"]).
Proof.
  apply (parent_line_leaves_directory accept_netloc (py "https")
           (py "cdn.example.com") [py "live"] (py "ch1")
           [py "audio"; py "a.ts"]).
  - right. reflexivity.
  - reflexivity.
  - repeat constructor.
  - reflexivity.
  - discriminate.
  - repeat constructor.
Defined.

(** ** Relative lines with a query string *)

Lemma ref_char_not_space c : ref_char c = true -> isspace c = false.
Proof.
  unfold ref_char, query_part_char, path_char, always_safe, is_upper,
    is_lower, is_digit, isspace.
  break_tests; (discriminate || reflexivity).
Qed.

Lemma ref_char_not_c0 c : ref_char c = true -> c0_or_space c = false.
Proof.
  unfold ref_char, query_part_char, path_char, always_safe, is_upper,
    is_lower, is_digit, c0_or_space.
  break_tests; (discriminate || reflexivity).
Qed.

Lemma path_char_ref_char c : path_char c = true -> ref_char c = true.
Proof. unfold ref_char. now intros ->. Qed.

Lemma query_part_char_ref_char c : query_part_char c = true -> ref_char c = true.
Proof. unfold ref_char. intros ->. now rewrite orb_true_r. Qed.

Lemma strip_ref s : forallb ref_char s = true -> strip s = s.
Proof.
  intros H. unfold strip, lstrip, rstrip.
  rewrite (dropwhile_none ref_char isspace s ref_char_not_space H).
  rewrite (dropwhile_none ref_char isspace (rev s) ref_char_not_space)
    by now rewrite forallb_rev.
  apply rev_involutive.
Qed.

Section ResolveQuery.

Variable netloc_check : str -> bool.

(** A reference without a colon is not trimmed when it holds no white
    space, and is not taken for an absolute URL. *)
Lemma resolve_absolute_ref rel base :
  forallb ref_char rel = true ->
  resolve_absolute netloc_check (strip rel) base
  = urljoin netloc_check base rel.
Proof.
  intros HR. rewrite (strip_ref _ HR). unfold resolve_absolute.
  assert (C : has_char rel 58 = false)
    by now apply (forallb_has_char ref_char).
  assert (A : startswith rel (py "http://") || startswith rel (py "https://")
              = false).
  { apply orb_false_iff. split.
    - destruct (startswith rel (py "http://")) eqn:P; [|reflexivity].
      apply startswith_iff in P. destruct P as (r & P). rewrite P in C.
      discriminate C.
    - destruct (startswith rel (py "https://")) eqn:P; [|reflexivity].
      apply startswith_iff in P. destruct P as (r & P). rewrite P in C.
      discriminate C. }
  now rewrite A.
Qed.

(** [urlparse] on a relative path followed by a query string. *)
Lemma urlparse_path_query sch p q :
  sch = py "http" \/ sch = py "https" ->
  forallb path_char p = true -> p <> [] ->
  startswith p [47; 47] = false ->
  forallb query_part_char q = true ->
  urlparse netloc_check (p ++ 63 :: q) sch = Some (mkParse sch [] p [] q []).
Proof.
  intros Hs HP Hne S4 HQ.
  assert (HR : forallb ref_char (p ++ 63 :: q) = true).
  { rewrite forallb_app. cbn [forallb].
    rewrite (forallb_weaken _ _ _ path_char_ref_char HP).
    now rewrite (forallb_weaken _ _ _ query_part_char_ref_char HQ). }
  assert (HR9 : forall x, ref_char x = false ->
                          has_char (p ++ 63 :: q) x = false)
    by (intros x Hx; now apply (forallb_has_char ref_char)).
  destruct p as [|c rest]; [contradiction|]. cbn [app] in *.
  assert (Hc : path_char c = true)
    by (cbn [forallb] in HP; now apply andb_true_iff in HP).
  assert (C0 : c0_or_space c = false) by now apply path_char_not_c0.
  assert (E1 : remove_unsafe (dropwhile c0_or_space (c :: rest ++ 63 :: q))
               = c :: rest ++ 63 :: q).
  { rewrite dropwhile_stop by exact C0.
    apply remove_unsafe_absent; now apply HR9. }
  assert (E2 : split1 (c :: rest ++ 63 :: q) 58 = (c :: rest ++ 63 :: q, None))
    by (apply split1_absent; now apply HR9).
  assert (S1 : split1 (c :: rest ++ 63 :: q) 35 = (c :: rest ++ 63 :: q, None))
    by (apply split1_absent; now apply HR9).
  assert (S2 : split1 (c :: rest ++ 63 :: q) 63 = (c :: rest, Some q)).
  { apply (split1_app (c :: rest) 63 q).
    now apply (forallb_has_char path_char). }
  assert (S3 : has_char (c :: rest) 59 = false)
    by now apply (forallb_has_char path_char).
  assert (S5 : startswith (c :: rest ++ 63 :: q) [47; 47] = false).
  { destruct rest as [|c' rest']; cbn [app startswith] in *.
    - destruct (47 =? c); reflexivity.
    - exact S4. }
  unfold urlparse, urlsplit. rewrite E1, E2. clear E1 E2.
  cbv beta iota zeta. rewrite S5. cbv beta iota zeta.
  cbn [has_char existsb isascii forallb andb orb negb].
  rewrite S1. cbv beta iota zeta. rewrite S2. cbv beta iota zeta.
  cbn [s_scheme s_netloc s_path s_query s_fragment]. rewrite S3.
  rewrite andb_false_r.
  destruct Hs as [-> | ->]; reflexivity.
Qed.

(** [urljoin] of a directory and a reference that [urlparse] reads as a
    path and a query string: what is left is the work on the segments. *)
Lemma urljoin_parsed sch host dirs rel p q :
  sch = py "http" \/ sch = py "https" ->
  plain_segment host = true ->
  Forall (fun s => plain_segment s = true) dirs ->
  rel <> [] -> p <> [] ->
  urlparse netloc_check rel sch = Some (mkParse sch [] p [] q []) ->
  let segments :=
    if startswith p [47] then split p 47
    else filter_middle (([] :: dirs ++ [[]]) ++ split p 47) in
  let resolved_path :=
    if str_eqb (last_item segments) (py ".")
       || str_eqb (last_item segments) (py "..")
    then resolve_segments segments ++ [[]]
    else resolve_segments segments in
  urljoin netloc_check (directory_url sch host dirs) rel
  = Some (urlunparse sch host (str_or (join [47] resolved_path) [47])
                     [] q []).
Proof.
  intros Hs Hh Hd Hne Hp HU segments resolved_path.
  subst resolved_path segments. unfold urljoin.
  rewrite (urlparse_directory _ _ _ _ Hs Hh Hd).
  cbn [scheme netloc path params query fragment].
  rewrite HU.
  cbn [scheme netloc path params query fragment].
  assert (B : is_empty (directory_url sch host dirs) = false)
    by now destruct Hs as [-> | ->].
  assert (R0 : is_empty rel = false) by now destruct rel.
  assert (P0 : is_empty p = false) by now destruct p.
  assert (Fd : Forall (fun s : str => has_char s 47 = false) dirs)
    by now apply plain_no_slash.
  assert (P : split (47 :: terminated [47] dirs) 47 = [] :: dirs ++ [[]])
    by (rewrite split_cons_sep; now rewrite split_terminated).
  assert (L : last_item ([] :: dirs ++ [[]]) = []).
  { unfold last_item. change ([] :: dirs ++ [[]]) with (([] :: dirs) ++ [[]]).
    apply last_last. }
  rewrite B, R0, P0, str_eqb_refl, P, L.
  cbn [is_empty negb andb orb].
  replace (in_list sch uses_relative) with true
    by now destruct Hs as [-> | ->].
  replace (in_list sch uses_netloc) with true
    by now destruct Hs as [-> | ->].
  cbn [negb andb orb]. reflexivity.
Qed.

(** X20: a relative path of plain segments followed by a query string of
    unreserved characters, [=] and [&] resolves to the directory of the
    manifest followed by the line as it is: the query string is kept. *)
Theorem relative_line_keeps_query
    (sch host : str) (dirs names : list str) (q : str) :
  sch = py "http" \/ sch = py "https" ->
  plain_segment host = true ->
  Forall (fun s => plain_segment s = true) dirs ->
  names <> [] -> Forall (fun s => plain_segment s = true) names ->
  q <> [] -> forallb query_part_char q = true ->
  let ln := join [47] names ++ py "?" ++ q in
  resolve_absolute netloc_check (strip ln) (directory_url sch host dirs)
  = Some (directory_url sch host dirs ++ ln).
Proof.
  intros Hs Hh Hd Hne Hn Hq HQ ln. subst ln.
  change (py "?" ++ q) with (63 :: q).
  pose proof (join_path_char names Hn) as HJ.
  destruct (join_head names Hne Hn) as (c & rest & ER & Hc).
  assert (C1 : (c =? 47) = false).
  { revert Hc. unfold always_safe, is_upper, is_lower, is_digit.
    break_tests; (discriminate || reflexivity). }
  assert (HR : forallb ref_char (join [47] names ++ 63 :: q) = true).
  { rewrite forallb_app. cbn [forallb].
    rewrite (forallb_weaken _ _ _ path_char_ref_char HJ).
    now rewrite (forallb_weaken _ _ _ query_part_char_ref_char HQ). }
  rewrite (resolve_absolute_ref _ _ HR).
  assert (Pne : join [47] names <> []) by (rewrite ER; discriminate).
  assert (S4 : startswith (join [47] names) [47; 47] = false)
    by (rewrite ER; cbn [startswith]; now rewrite N.eqb_sym, C1).
  assert (S5 : startswith (join [47] names) [47] = false)
    by (rewrite ER; cbn [startswith]; now rewrite N.eqb_sym, C1).
  pose proof (urlparse_path_query sch _ q Hs HJ Pne S4 HQ) as HU.
  assert (Rne : join [47] names ++ 63 :: q <> [])
    by (rewrite ER; discriminate).
  rewrite (urljoin_parsed sch host dirs _ (join [47] names) q Hs Hh Hd Rne
             Pne HU).
  cbv zeta. rewrite S5.
  pose proof (split_join 47 names Hne (plain_no_slash _ Hn)) as SJ.
  pose proof (filter_middle_directory dirs names (plain_nonempty _ Hd)
                (plain_nonempty _ Hn) Hne) as G.
  pose proof (last_plain_not_dot ([] :: dirs) names Hne Hn) as LN.
  cbn [app] in LN.
  assert (Z : fold_left segment_step ([] :: dirs ++ names) []
              = [] :: dirs ++ names).
  { apply (segment_loop_plain ([] :: dirs ++ names) []).
    constructor; [now split|]. apply Forall_app.
    split; now apply plain_not_dots. }
  assert (J : join [47] ([] :: dirs ++ names)
              = 47 :: terminated [47] dirs ++ join [47] names).
  { rewrite <- join_terminated by assumption.
    destruct (dirs ++ names) eqn:E; [|reflexivity].
    apply app_eq_nil in E. now destruct E. }
  assert (H0 : is_empty host = false).
  { apply plain_segment_facts in Hh. destruct Hh as (Hh & _).
    now destruct host. }
  assert (Q0 : is_empty q = false) by now destruct q.
  unfold resolve_segments.
  change (fold_left _ ?l []) with (fold_left segment_step l []).
  unfold str, char in *.
  rewrite SJ, G, LN, Z, J.
  unfold urlunparse, urlunsplit, str_or. cbn [is_empty negb andb orb].
  rewrite H0, Q0. cbn [negb andb orb startswith].
  rewrite N.eqb_refl. cbn [negb andb].
  f_equal. unfold directory_url.
  destruct Hs as [-> | ->]; spell_py; cbn [is_empty negb app];
    rewrite <- ?app_assoc; cbn [app]; rewrite <- ?app_assoc; reflexivity.
Qed.

End ResolveQuery.

Lemma relative_line_keeps_query_witness :
  resolve_absolute accept_netloc
    (strip (join [47] [py "seg1.ts"] ++ py "?" ++ py "token=abc&t=5"))
    (directory_url (py "https") (py "origin.example.com") [py "path"])
  = Some (directory_url (py "https") (py "origin.example.com") [py "path"]
          ++ join [47] [py "seg1.ts"] ++ py "?" ++ py "token=abc&t=5").
Proof.
  apply (relative_line_keeps_query accept_netloc (py "https")
           (py "origin.example.com") [py "path"] [py "seg1.ts"]
           (py "token=abc&t=5")).
  - right. reflexivity.
  - reflexivity.
  - repeat constructor.
  - discriminate.
  - repeat constructor.
  - discriminate.
  - reflexivity.
Defined.

(** ** Indented tags *)

Lemma printable_not_space c : printable c = true -> isspace c = false.
Proof.
  unfold printable, isspace. break_tests; (discriminate || reflexivity).
Qed.

Lemma strip_unchanged (P : char -> bool) s :
  (forall c, P c = true -> isspace c = false) ->
  forallb P s = true -> strip s = s.
Proof.
  intros PS H. unfold strip, lstrip, rstrip.
  rewrite (dropwhile_none P isspace s PS H).
  rewrite (dropwhile_none P isspace (rev s) PS) by now rewrite forallb_rev.
  apply rev_involutive.
Qed.

Section Indented.

Variable netloc_check : str -> bool.

(** [urlparse] on a reference that is only a fragment. *)
Lemma urlparse_fragment sch tag :
  sch = py "http" \/ sch = py "https" ->
  forallb printable tag = true ->
  urlparse netloc_check (35 :: tag) sch = Some (mkParse sch [] [] [] [] tag).
Proof.
  intros Hs HT.
  assert (HT9 : forall x, printable x = false -> has_char (35 :: tag) x = false)
    by (intros x Hx; now apply (forallb_has_char printable)).
  assert (E1 : remove_unsafe (dropwhile c0_or_space (35 :: tag)) = 35 :: tag).
  { rewrite dropwhile_stop by reflexivity.
    apply remove_unsafe_absent; now apply HT9. }
  unfold urlparse, urlsplit. rewrite E1. clear E1.
  cbn [split1]. change (35 =? 58) with false. change (35 =? 35) with true.
  cbv iota.
  destruct (split1 tag 58) as [a [b|]]; cbv beta iota zeta;
    change (is_ascii_alpha 35) with false; cbn [andb]; cbv iota;
    change (startswith (35 :: tag) [47; 47]) with false; cbv beta iota zeta;
    cbn [has_char existsb isascii forallb andb orb negb split1];
    change (35 =? 35) with true; cbv beta iota zeta;
    cbn [split1]; cbv beta iota zeta;
    cbn [s_scheme s_netloc s_path s_query s_fragment has_char existsb];
    rewrite andb_false_r;
    destruct Hs as [-> | ->]; reflexivity.
Qed.

(** X21: white space before a tag makes it a URI line.  A line that is
    white space followed by [#] and printable text is not passed through:
    it is trimmed, and it resolves to the directory of the manifest with the
    text after [#] as its fragment. *)
Theorem indented_tag_is_not_passed_through
    (sch host : str) (dirs : list str) (ws tag : str) :
  sch = py "http" \/ sch = py "https" ->
  plain_segment host = true ->
  Forall (fun s => plain_segment s = true) dirs ->
  ws <> [] -> forallb isspace ws = true ->
  tag <> [] -> forallb printable tag = true ->
  let ln := ws ++ py "#" ++ tag in
  passes_through ln = false /\
  resolve_absolute netloc_check (strip ln) (directory_url sch host dirs)
  = Some (directory_url sch host dirs ++ py "#" ++ tag).
Proof.
  intros Hs Hh Hd Hws Hsp Htag HT ln. subst ln.
  change (py "#" ++ tag) with (35 :: tag).
  split.
  { destruct ws as [|w ws']; [contradiction|].
    cbn [forallb] in Hsp. apply andb_true_iff in Hsp. destruct Hsp as [Hw _].
    unfold passes_through. cbn [app is_empty orb].
    change (py "#") with [35]. cbn [startswith].
    destruct (N.eqb_spec 35 w) as [<-|]; [discriminate Hw | reflexivity]. }
  assert (S : strip (ws ++ 35 :: tag) = 35 :: tag).
  { rewrite <- (app_nil_r (35 :: tag)) at 1.
    rewrite strip_padded by (assumption || reflexivity).
    apply (strip_unchanged printable); [apply printable_not_space|].
    cbn [forallb]. now rewrite HT. }
  rewrite S. unfold resolve_absolute.
  change (startswith (35 :: tag) (py "http://")) with false.
  change (startswith (35 :: tag) (py "https://")) with false.
  cbn [orb]. unfold urljoin.
  rewrite (urlparse_directory _ _ _ _ Hs Hh Hd).
  cbn [scheme netloc path params query fragment].
  rewrite (urlparse_fragment _ _ Hs HT).
  cbn [scheme netloc path params query fragment].
  assert (B : is_empty (directory_url sch host dirs) = false)
    by now destruct Hs as [-> | ->].
  assert (H0 : is_empty host = false).
  { apply plain_segment_facts in Hh. destruct Hh as (Hh & _).
    now destruct host. }
  assert (T0 : is_empty tag = false) by now destruct tag.
  rewrite B, str_eqb_refl. cbn [is_empty negb andb orb].
  replace (in_list sch uses_relative) with true
    by now destruct Hs as [-> | ->].
  replace (in_list sch uses_netloc) with true
    by now destruct Hs as [-> | ->].
  cbn [negb andb orb].
  unfold urlunparse, urlunsplit. cbn [is_empty negb andb orb].
  rewrite H0, T0. cbn [negb andb orb startswith].
  rewrite N.eqb_refl. cbn [negb andb].
  f_equal. unfold directory_url.
  destruct Hs as [-> | ->]; spell_py; cbn [is_empty negb app];
    rewrite <- ?app_assoc; cbn [app]; rewrite <- ?app_assoc; reflexivity.
Qed.

End Indented.

Lemma indented_tag_is_not_passed_through_witness :
  passes_through (py "  " ++ py "#" ++ py "EXT-X-ENDLIST") = false /\
  resolve_absolute accept_netloc (strip (py "  " ++ py "#" ++ py "EXT-X-ENDLIST"))
    (directory_url (py "https") (py "origin.example.com") [py "path"])
  = Some (directory_url (py "https") (py "origin.example.com") [py "path"]
          ++ py "#" ++ py "EXT-X-ENDLIST").
Proof.
  apply (indented_tag_is_not_passed_through accept_netloc (py "https")
           (py "origin.example.com") [py "path"] (py "  ")
           (py "EXT-X-ENDLIST")).
  - right. reflexivity.
  - reflexivity.
  - repeat constructor.
  - discriminate.
  - reflexivity.
  - discriminate.
  - reflexivity.
Defined.
